(** * ulibSD SPI-mode SD/MMC driver: shallow embedding and verification

    Sources embedded here:
    - [Project_2B/Source/sd_io.c]      the blocking driver run under the RTOS;
    - [Project_2A_Base/Source/sd_io.c] the same driver cut into re-entrant
      state machines (one protocol action per call);
    - [Task_SD_Server] / [Update_Trans], the transaction dispatcher that
      steps the state machines.

    The SPI transport ([spi_io.c]) is external.  It is modelled as an
    arbitrary deterministic device: what comes back from a byte exchange and
    what the countdown timer answers are functions of everything that has
    happened on the bus so far.  The history of transport calls is the only
    state of the transport, and doubles as the call log. *)

From Stdlib Require Import ZArith Lia Bool.
From stdpp Require Import base list.

Local Open Scope Z_scope.

(** ** Integer types

    Modelled from the spec: [integer.h] is absent.  A byte on the bus is 8
    bits and a command argument 32 bits; BYTE, WORD and DWORD are the
    unsigned 8, 16 and 32 bit types, and assignments to them wrap. *)

Definition BYTE (x : Z) : Z := x mod 0x100.
Definition WORD (x : Z) : Z := x mod 0x10000.
Definition DWORD (x : Z) : Z := x mod 0x100000000.

(** ** Result codes, in the order of the [SD_Errors] table. *)

Inductive SDRESULTS : Set :=
| SD_OK | SD_NOINIT | SD_ERROR | SD_PARERR | SD_BUSY | SD_REJECT | SD_NORESPONSE.

(** ** Constants of [sd_io.h] *)

(** Modelled from the spec: [sd_io.h] is absent.  The block is 512 bytes
    ("512 byte block + 2 byte CRC" in [SD_Read]). *)
Definition SD_BLK_SIZE : Z := 512.

(** Modelled from the spec: [sd_io.h] is absent.  A command frame opens with
    the start bits 01 followed by the six-bit command index, so CMD<n> is
    [0x40 + n]; [__SD_Send_Cmd] marks an application command by bit 7. *)
Definition CMD0 : Z := 0x40 + 0.
Definition CMD1 : Z := 0x40 + 1.
Definition CMD8 : Z := 0x40 + 8.
Definition CMD9 : Z := 0x40 + 9.
Definition CMD16 : Z := 0x40 + 16.
Definition CMD17 : Z := 0x40 + 17.
Definition CMD24 : Z := 0x40 + 24.
Definition ACMD41 : Z := 0xC0 + 41.
Definition CMD55 : Z := 0x40 + 55.
Definition CMD58 : Z := 0x40 + 58.
Definition CMD59 : Z := 0x40 + 59.

(** Modelled from the spec: [sd_io.h] is absent.  The card type is a set of
    capability flags, one bit each: MMC, SD version 1, SD version 2,
    block-addressed. *)
Definition SDCT_MMC : Z := 0x01.
Definition SDCT_SD1 : Z := 0x02.
Definition SDCT_SD2 : Z := 0x04.
Definition SDCT_BLOCK : Z := 0x08.

(** Modelled from the spec: [sd_io.h] is absent.  The two clock speeds the
    transport can select. *)
Definition LOW : Z := 0.
Definition HIGH : Z := 1.

(** ** Device descriptor [SD_DEV] *)

Record SD_DEV : Set := mkDev {
  mount : bool;
  cardtype : Z;
  last_sector : Z;
  debug_read : Z;
  debug_write : Z
}.

Definition set_mount (b : bool) (d : SD_DEV) : SD_DEV :=
  mkDev b (cardtype d) (last_sector d) (debug_read d) (debug_write d).
Definition set_cardtype (c : Z) (d : SD_DEV) : SD_DEV :=
  mkDev (mount d) c (last_sector d) (debug_read d) (debug_write d).
Definition set_last_sector (s : Z) (d : SD_DEV) : SD_DEV :=
  mkDev (mount d) (cardtype d) s (debug_read d) (debug_write d).
Definition set_debug_read (n : Z) (d : SD_DEV) : SD_DEV :=
  mkDev (mount d) (cardtype d) (last_sector d) n (debug_write d).
Definition set_debug_write (n : Z) (d : SD_DEV) : SD_DEV :=
  mkDev (mount d) (cardtype d) (last_sector d) (debug_read d) n.

(** ** The transport *)

(** One entry per call into [spi_io.c] (and, for the RTOS build, the kernel
    delay).  A byte exchange records the byte sent and the byte received; a
    timer query records the answer. *)
Inductive Event : Set :=
| EvInit
| EvRW (out inp : Z)
| EvRelease
| EvCSLow
| EvCSHigh
| EvFreqHigh
| EvFreqLow
| EvTimerOn (ms : Z)
| EvTimerStatus (running : bool)
| EvTimerOff
| EvDelay.

(** The history of calls, newest first. *)
Definition Hist : Set := list Event.

(** A transport decides, from the history, the byte clocked in by the next
    exchange and whether the countdown timer is still running. *)
Record Transport : Type := mkTransport {
  card_reply : Hist -> Z -> Z;
  timer_running : Hist -> bool
}.

(** ** Computations over the transport

    [None] stands for a call that yields no result: a polling loop that was
    still running when the fuel ran out, [while (1);], or a function body
    that ends without a [return]. *)
Definition T (A : Type) : Type := Hist -> option (A * Hist).

Definition ret {A} (a : A) : T A := fun h => Some (a, h).
Definition bind {A B} (m : T A) (k : A -> T B) : T B :=
  fun h => match m h with
           | Some (a, h') => k a h'
           | None => None
           end.
Definition stuck {A} : T A := fun _ => None.
Definition emit (e : Event) : T unit := fun h => Some (tt, e :: h).

Declare Scope sd_scope.
Delimit Scope sd_scope with sd.
Notation "'let*' x ':=' c1 'in' c2" := (bind c1 (fun x => c2))
  (at level 10, x binder, c1 at level 100, c2 at level 200) : sd_scope.
Notation "c1 ';;' c2" := (bind c1 (fun _ => c2))
  (at level 100, c2 at level 200, right associativity) : sd_scope.
Local Open Scope sd_scope.

(** Build-time configuration of [sd_io.h], which is absent: the retry budget
    of the negotiation, the busy-wait window of a write in milliseconds, and
    the modulus of the unsigned type of the two debug counters. *)
Record Config : Set := mkConfig {
  SD_INIT_TRYS : Z;
  SD_IO_WRITE_TIMEOUT_WAIT : Z;
  DEBUG_MOD : Z
}.

Section Driver_Common.

Variable tp : Transport.
Variable cfg : Config.

(** [dev->debug.read++] and [dev->debug.write++]. *)
Definition debug_incr (n : Z) : Z := (n + 1) mod DEBUG_MOD cfg.

Definition SPI_Init : T unit := emit EvInit.
Definition SPI_RW (d : Z) : T Z :=
  fun h => let r := BYTE (card_reply tp h d) in Some (r, EvRW d r :: h).
Definition SPI_Release : T unit := emit EvRelease.
Definition SPI_CS_Low : T unit := emit EvCSLow.
Definition SPI_CS_High : T unit := emit EvCSHigh.
Definition SPI_Freq_High : T unit := emit EvFreqHigh.
Definition SPI_Freq_Low : T unit := emit EvFreqLow.
Definition SPI_Timer_On (ms : Z) : T unit := emit (EvTimerOn ms).
Definition SPI_Timer_Status : T bool :=
  fun h => let r := timer_running tp h in Some (r, EvTimerStatus r :: h).
Definition SPI_Timer_Off : T unit := emit EvTimerOff.

(** [__SD_Power_Of_Two]: [partial] is doubled [e] times in a DWORD. *)
Definition __SD_Power_Of_Two (e : Z) : Z :=
  Nat.iter (Z.to_nat e) (fun partial => DWORD (partial * 2)) 1.

Definition __SD_Assert : T unit := SPI_CS_Low.
Definition __SD_Deassert : T unit := SPI_CS_High.

Definition __SD_Speed_Transfer (throttle : Z) : T unit :=
  if throttle =? HIGH then SPI_Freq_High else SPI_Freq_Low.

(** The response loop of [__SD_Send_Cmd]:
    [do { res = SPI_RW(0xFF); } while ((res & 0x80) && (SPI_Timer_Status()==TRUE));]
    The timer is only queried when bit 7 of the response is set. *)
Fixpoint Send_Cmd_response (fuel : nat) : T Z :=
  match fuel with
  | O => stuck
  | S f =>
      let* res := SPI_RW 0xFF in
      if negb (Z.land res 0x80 =? 0) then
        let* running := SPI_Timer_Status in
        if running then Send_Cmd_response f else ret res
      else ret res
  end.

(** [__SD_Send_Cmd] from "Select the card" on. *)
Definition Send_Cmd_frame (fuel : nat) (cmd arg : Z) : T Z :=
  __SD_Deassert ;;
  SPI_RW 0xFF ;;
  __SD_Assert ;;
  SPI_RW 0xFF ;;
  SPI_RW cmd ;;
  SPI_RW (BYTE (Z.shiftr arg 24)) ;;
  SPI_RW (BYTE (Z.shiftr arg 16)) ;;
  SPI_RW (BYTE (Z.shiftr arg 8)) ;;
  SPI_RW (BYTE (Z.shiftr arg 0)) ;;
  let crc := 0x01 in
  let crc := if cmd =? CMD0 then 0x95 else crc in
  let crc := if cmd =? CMD8 then 0x87 else crc in
  SPI_RW crc ;;
  SPI_Timer_On 5 ;;
  let* res := Send_Cmd_response fuel in
  SPI_Timer_Off ;;
  ret res.

(** [__SD_Send_Cmd]: an application command is CMD55 followed by the
    command with bit 7 cleared. *)
Fixpoint __SD_Send_Cmd (fuel : nat) (cmd arg : Z) : T Z :=
  match fuel with
  | O => stuck
  | S f =>
      if negb (Z.land cmd 0x80 =? 0) then
        let cmd := Z.land cmd 0x7F in
        let* res := __SD_Send_Cmd f CMD55 0 in
        if 1 <? res then ret res
        else Send_Cmd_frame f cmd arg
      else Send_Cmd_frame f cmd arg
  end.

(** [while (SPI_RW(0xFF) == 0xFF);] in [__SD_Sectors]. *)
Fixpoint Sectors_wait (fuel : nat) : T unit :=
  match fuel with
  | O => stuck
  | S f =>
      let* b := SPI_RW 0xFF in
      if b =? 0xFF then Sectors_wait f else ret tt
  end.

(** [for (i = 0; i != n; i++) a[i] = SPI_RW(0xFF);] *)
Fixpoint SPI_RW_n (n : nat) : T (list Z) :=
  match n with
  | O => ret []
  | S k =>
      let* b := SPI_RW 0xFF in
      let* bs := SPI_RW_n k in
      ret (b :: bs)
  end.

(** The decoding half of [__SD_Sectors]: [csd] holds the sixteen bytes of
    the register.  [C_SIZE] is a WORD, [C_SIZE_MULT] and [READ_BL_LEN] are
    BYTEs, [ss] is a DWORD.  ([ss = csd[0]] in the version-1 branch is
    overwritten before it is read and is left out.) *)
Definition Sectors_decode (cardtype : Z) (csd : list Z) : Z :=
  let csd_ i := nth i csd 0 in
  let '(C_SIZE, C_SIZE_MULT, READ_BL_LEN) :=
    if negb (Z.land cardtype SDCT_SD1 =? 0) then
      let READ_BL_LEN := BYTE (Z.land (csd_ 5%nat) 0x0F) in
      let C_SIZE := WORD (Z.land (csd_ 6%nat) 0x03) in
      let C_SIZE := WORD (Z.shiftl C_SIZE 8) in
      let C_SIZE := WORD (Z.lor C_SIZE (csd_ 7%nat)) in
      let C_SIZE := WORD (Z.shiftl C_SIZE 2) in
      let C_SIZE := WORD (Z.lor C_SIZE (Z.land (Z.shiftr (csd_ 8%nat) 6) 0x03)) in
      let C_SIZE_MULT := BYTE (Z.land (csd_ 9%nat) 0x03) in
      let C_SIZE_MULT := BYTE (Z.shiftl C_SIZE_MULT 1) in
      let C_SIZE_MULT :=
        BYTE (Z.lor C_SIZE_MULT (Z.land (Z.shiftr (csd_ 10%nat) 7) 0x01)) in
      (C_SIZE, C_SIZE_MULT, READ_BL_LEN)
    else if negb (Z.land cardtype SDCT_SD2 =? 0) then
      let C_SIZE := WORD (Z.land (csd_ 7%nat) 0x3F) in
      let C_SIZE := WORD (Z.shiftl C_SIZE 8) in
      let C_SIZE := WORD (Z.lor C_SIZE (Z.land (csd_ 8%nat) 0xFF)) in
      let C_SIZE := WORD (Z.shiftl C_SIZE 8) in
      let C_SIZE := WORD (Z.lor C_SIZE (Z.land (csd_ 9%nat) 0xFF)) in
      let C_SIZE_MULT := 8 in
      (C_SIZE, C_SIZE_MULT, 0)
    else (0, 0, 0) in
  let ss := DWORD (C_SIZE + 1) in
  let ss := DWORD (ss * __SD_Power_Of_Two (BYTE (C_SIZE_MULT + 2))) in
  let ss := DWORD (ss * __SD_Power_Of_Two READ_BL_LEN) in
  (* ss /= SD_BLK_SIZE;  is commented out in the source *)
  ss.

(** [__SD_Sectors] (the two builds agree). *)
Definition __SD_Sectors (fuel : nat) (dev : SD_DEV) : T Z :=
  let* r := __SD_Send_Cmd fuel CMD9 0 in
  if r =? 0 then
    Sectors_wait fuel ;;
    let* csd := SPI_RW_n 16 in
    SPI_RW 0xFF ;;
    SPI_RW 0xFF ;;
    SPI_Release ;;
    ret (Sectors_decode (cardtype dev) csd)
  else ret 0.

(** The tail of [SD_Init], from [if(ct)] on; the blocking build runs it
    after its retry loop, the state-machine build in its state S14. *)
Definition Init_finish (fuel : nat) (ct : Z) (dev : SD_DEV)
  : T (SDRESULTS * SD_DEV) :=
  let* dev :=
    if negb (ct =? 0) then
      let dev := set_cardtype ct dev in
      let dev := set_mount true dev in
      let* ss := __SD_Sectors fuel dev in
      let dev := set_last_sector (DWORD (ss - 1)) dev in
      let dev := set_debug_read 0 dev in
      let dev := set_debug_write 0 dev in
      __SD_Speed_Transfer HIGH ;;
      ret dev
    else ret dev in
  SPI_Release ;;
  ret (if negb (ct =? 0) then SD_OK else SD_NOINIT, dev).

(** [SD_Status] (the two builds agree). *)
Definition SD_Status (fuel : nat) : T SDRESULTS :=
  let* r := __SD_Send_Cmd fuel CMD0 0 in
  ret (if negb (r =? 0) then SD_OK else SD_NORESPONSE).

End Driver_Common.

(** ** [Project_2B/Source/sd_io.c]: the blocking driver *)

Module Project_2B.
Section Driver.

Variable tp : Transport.
Variable cfg : Config.

(** [while ((__SD_Send_Cmd(CMD0, 0) != 1)&&(SPI_Timer_Status()==TRUE))] *)
Fixpoint Init_idle_loop (fuel : nat) : T unit :=
  match fuel with
  | O => stuck
  | S f =>
      let* r := __SD_Send_Cmd tp fuel CMD0 0 in
      if negb (r =? 1) then
        let* running := SPI_Timer_Status tp in
        if running then Init_idle_loop f else ret tt
      else ret tt
  end.

(** [while ((SPI_Timer_Status()==TRUE)&&(__SD_Send_Cmd(cmd, arg)))] *)
Fixpoint Init_leave_idle_loop (fuel : nat) (cmd arg : Z) : T unit :=
  match fuel with
  | O => stuck
  | S f =>
      let* running := SPI_Timer_Status tp in
      if running then
        let* r := __SD_Send_Cmd tp fuel cmd arg in
        if negb (r =? 0) then Init_leave_idle_loop f cmd arg else ret tt
      else ret tt
  end.

(** One pass through the body of the retry loop of [SD_Init]; [ct] is 0 on
    entry. *)
Definition Init_attempt (fuel : nat) (ct : Z) (dev : SD_DEV)
  : T (Z * SD_DEV) :=
  SPI_Init ;;
  SPI_CS_High ;;
  SPI_Freq_Low ;;
  SPI_RW_n tp 10 ;;
  emit EvDelay ;;
  let dev := set_mount false dev in
  SPI_Timer_On 500 ;;
  Init_idle_loop fuel ;;
  SPI_Timer_Off ;;
  let* r := __SD_Send_Cmd tp fuel CMD0 0 in
  if r =? 1 then
    let* r := __SD_Send_Cmd tp fuel CMD8 0x1AA in
    if r =? 1 then
      let* ocr := SPI_RW_n tp 4 in
      if (nth 2 ocr 0 =? 0x01) && (nth 3 ocr 0 =? 0xAA) then
        SPI_Timer_On 1000 ;;
        Init_leave_idle_loop fuel ACMD41 (Z.shiftl 1 30) ;;
        SPI_Timer_Off ;;
        let* running := SPI_Timer_Status tp in
        if running then
          let* r := __SD_Send_Cmd tp fuel CMD58 0 in
          if r =? 0 then
            let* ocr := SPI_RW_n tp 4 in
            let ct :=
              if negb (Z.land (nth 0 ocr 0) 0x40 =? 0)
              then Z.lor SDCT_SD2 SDCT_BLOCK else SDCT_SD2 in
            ret (ct, dev)
          else ret (ct, dev)
        else ret (ct, dev)
      else ret (ct, dev)
    else
      let* r := __SD_Send_Cmd tp fuel ACMD41 0 in
      let '(ct, cmd) := if r <=? 1 then (SDCT_SD1, ACMD41) else (SDCT_MMC, CMD1) in
      SPI_Timer_On 250 ;;
      Init_leave_idle_loop fuel cmd 0 ;;
      SPI_Timer_Off ;;
      let* running := SPI_Timer_Status tp in
      let ct := if negb running then 0 else ct in
      let* r := __SD_Send_Cmd tp fuel CMD59 0 in
      let ct := if negb (r =? 0) then 0 else ct in
      let* r := __SD_Send_Cmd tp fuel CMD16 512 in
      let ct := if negb (r =? 0) then 0 else ct in
      ret (ct, dev)
  else ret (ct, dev).

(** [for(init_trys=0; ((init_trys!=SD_INIT_TRYS)&&(!ct)); init_trys++)] *)
Fixpoint Init_trys_loop (fuel : nat) (init_trys ct : Z) (dev : SD_DEV)
  : T (Z * SD_DEV) :=
  match fuel with
  | O => stuck
  | S f =>
      if negb (init_trys =? SD_INIT_TRYS cfg) && (ct =? 0) then
        let* '(ct, dev) := Init_attempt fuel ct dev in
        Init_trys_loop f (BYTE (init_trys + 1)) ct dev
      else ret (ct, dev)
  end.

Definition SD_Init (fuel : nat) (dev : SD_DEV) : T (SDRESULTS * SD_DEV) :=
  let ct := 0 in
  let* '(ct, dev) := Init_trys_loop fuel 0 ct dev in
  Init_finish tp fuel ct dev.

(** [do { tkn = SPI_RW(0xFF); } while(tkn==0xFF);]  The timer that bounded
    this loop is commented out in the source. *)
Fixpoint Read_token_loop (fuel : nat) : T Z :=
  match fuel with
  | O => stuck
  | S f =>
      let* tkn := SPI_RW tp 0xFF in
      if tkn =? 0xFF then Read_token_loop f else ret tkn
  end.

(** The fused data loop of [SD_Read]:
    [do { data = SPI_RW(0xff); if (window) { *dat = data; dat++; } }
     while(++byte_num < SD_BLK_SIZE + 2);]
    [dat] is the destination buffer and [p] the distance the pointer has
    advanced into it.  A store past the end of the buffer is undefined in
    C; here it leaves the buffer as it is. *)
Fixpoint Read_data_loop (fuel : nat) (byte_num ofs cnt : Z)
    (dat : list Z) (p : nat) : T (list Z * nat) :=
  match fuel with
  | O => stuck
  | S f =>
      let* data := SPI_RW tp 0xFF in
      let '(dat, p) :=
        if (ofs <=? byte_num) && (byte_num <? ofs + cnt)
        then (<[p := data]> dat, S p) else (dat, p) in
      let byte_num := WORD (byte_num + 1) in
      if byte_num <? SD_BLK_SIZE + 2
      then Read_data_loop f byte_num ofs cnt dat p
      else ret (dat, p)
  end.

Definition SD_Read (fuel : nat) (dev : SD_DEV) (dat : list Z)
    (sector ofs cnt : Z) : T (SDRESULTS * SD_DEV * list Z) :=
  let res := SD_ERROR in
  if (last_sector dev <? sector) || (cnt =? 0) then
    ret (SD_PARERR, dev, dat)
  else
    let* r := __SD_Send_Cmd tp fuel CMD17 sector in
    let* '(res, dat) :=
      if r =? 0 then
        let* tkn := Read_token_loop fuel in
        SPI_Timer_Off ;;
        if tkn =? 0xFE then
          let* '(dat, _) := Read_data_loop fuel 0 ofs cnt dat 0%nat in
          ret (SD_OK, dat)
        else ret (res, dat)
      else ret (res, dat) in
    SPI_Release ;;
    let dev := set_debug_read (debug_incr cfg (debug_read dev)) dev in
    ret (res, dev, dat).

(** [for(idx=0; idx!=SD_BLK_SIZE; idx++) SPI_RW(*((BYTE*)dat + idx));]
    A read past the end of the source buffer is undefined in C; here it
    yields 0. *)
Fixpoint Write_data_loop (fuel : nat) (idx : Z) (dat : list Z) : T unit :=
  match fuel with
  | O => stuck
  | S f =>
      if negb (idx =? SD_BLK_SIZE) then
        SPI_RW tp (nth (Z.to_nat idx) dat 0) ;;
        Write_data_loop f (WORD (idx + 1)) dat
      else ret tt
  end.

(** [do { line = SPI_RW(0xFF); } while(line==0);]  The timer that bounded
    this loop is commented out in the source. *)
Fixpoint Write_busy_loop (fuel : nat) : T Z :=
  match fuel with
  | O => stuck
  | S f =>
      let* line := SPI_RW tp 0xFF in
      if line =? 0 then Write_busy_loop f else ret line
  end.

Definition SD_Write (fuel : nat) (dev : SD_DEV) (dat : list Z) (sector : Z)
  : T (SDRESULTS * SD_DEV) :=
  if last_sector dev <? sector then ret (SD_PARERR, dev)
  else
    let* r := __SD_Send_Cmd tp fuel CMD24 sector in
    if r =? 0 then
      SPI_RW tp 0xFE ;;
      Write_data_loop fuel 0 dat ;;
      SPI_RW tp 0xFF ;;
      SPI_RW tp 0xFF ;;
      let* resp := SPI_RW tp 0xFF in
      if negb (Z.land resp 0x1F =? 0x05) then ret (SD_REJECT, dev)
      else
        let* line := Write_busy_loop fuel in
        let dev := set_debug_write (debug_incr cfg (debug_write dev)) dev in
        if line =? 0 then ret (SD_BUSY, dev) else ret (SD_OK, dev)
    else ret (SD_ERROR, dev).

End Driver.
End Project_2B.

(** ** [Project_2A_Base/Source/sd_io.c]: the driver as state machines

    Each public function keeps its position in [static] variables and
    performs one protocol action per call.  The three flags [in_status],
    [read_status] and [idle_busy_status] tell the caller whether the operation
    is still running (1) or has completed (0). *)

(** Modelled from the spec: [sd_io.h] is absent.  The state tags used by the
    three state machines. *)
Inductive states : Set :=
| S0 | S1 | S2 | S3 | S4 | S5 | S6 | S7 | S8 | S9 | S10 | S11 | S12 | S13 | S14.

Module Project_2A_Base.

(** The statics of [SD_Init], with the flag [in_status]. *)
Record InitSt : Set := mkInitSt {
  in_states : states;
  in_status : Z;
  Init_n : Z;
  Init_k : Z;
  Init_cmd : Z;
  Init_ct : Z;
  Init_ocr : list Z;
  Init_idx : Z;
  Init_init_trys : Z
}.

(** The statics of [SD_Read], with the flag [read_status].  [Read_pointer]
    is the distance of [pointer] from the start of the destination. *)
Record ReadSt : Set := mkReadSt {
  rn_state : states;
  read_status : Z;
  Read_res : SDRESULTS;
  Read_tkn : Z;
  Read_data : Z;
  Read_byte_num : Z;
  Read_pointer : nat
}.

(** The statics of [SD_Write], with the flag [idle_busy_status]. *)
Record WriteSt : Set := mkWriteSt {
  n_state : states;
  idle_busy_status : Z;
  Write_idx : Z;
  Write_line : Z
}.

(** The values the statics have at reset. *)
Definition InitSt_boot : InitSt := mkInitSt S1 0 0 0 0 0 [0; 0; 0; 0] 0 0.
Definition ReadSt_boot : ReadSt := mkReadSt S1 0 SD_ERROR 0 0 0 0.
Definition WriteSt_boot : WriteSt := mkWriteSt S1 0 0 0.

Definition Init_goto (s : states) (status : Z) (st : InitSt) : InitSt :=
  mkInitSt s status (Init_n st) (Init_k st) (Init_cmd st) (Init_ct st)
           (Init_ocr st) (Init_idx st) (Init_init_trys st).
Definition set_n (v : Z) (st : InitSt) : InitSt :=
  mkInitSt (in_states st) (in_status st) v (Init_k st) (Init_cmd st)
           (Init_ct st) (Init_ocr st) (Init_idx st) (Init_init_trys st).
Definition set_k (v : Z) (st : InitSt) : InitSt :=
  mkInitSt (in_states st) (in_status st) (Init_n st) v (Init_cmd st)
           (Init_ct st) (Init_ocr st) (Init_idx st) (Init_init_trys st).
Definition set_cmd (v : Z) (st : InitSt) : InitSt :=
  mkInitSt (in_states st) (in_status st) (Init_n st) (Init_k st) v
           (Init_ct st) (Init_ocr st) (Init_idx st) (Init_init_trys st).
Definition set_ct (v : Z) (st : InitSt) : InitSt :=
  mkInitSt (in_states st) (in_status st) (Init_n st) (Init_k st) (Init_cmd st)
           v (Init_ocr st) (Init_idx st) (Init_init_trys st).
Definition set_ocr (v : list Z) (st : InitSt) : InitSt :=
  mkInitSt (in_states st) (in_status st) (Init_n st) (Init_k st) (Init_cmd st)
           (Init_ct st) v (Init_idx st) (Init_init_trys st).
Definition set_idx (v : Z) (st : InitSt) : InitSt :=
  mkInitSt (in_states st) (in_status st) (Init_n st) (Init_k st) (Init_cmd st)
           (Init_ct st) (Init_ocr st) v (Init_init_trys st).
Definition set_init_trys (v : Z) (st : InitSt) : InitSt :=
  mkInitSt (in_states st) (in_status st) (Init_n st) (Init_k st) (Init_cmd st)
           (Init_ct st) (Init_ocr st) (Init_idx st) v.

Section Driver.

Variable tp : Transport.
Variable cfg : Config.

(** [a && b] where [b] is a call: [b] is made only when [a] holds. *)
Definition and_then (a : bool) (b : T bool) : T bool :=
  if a then b else ret false.

Definition SD_Init (fuel : nat) (dev : SD_DEV) (st : InitSt)
  : T (SDRESULTS * SD_DEV * InitSt) :=
  match in_states st with
  | S0 =>
      let st := set_ct 0 st in
      let st := set_init_trys 0 st in
      ret (SD_OK, dev, Init_goto S1 1 st)
  | S1 =>
      if negb (Init_init_trys st =? SD_INIT_TRYS cfg) && (Init_ct st =? 0) then
        SPI_Init ;;
        SPI_CS_High ;;
        SPI_Freq_Low ;;
        let st := set_init_trys (BYTE (Init_init_trys st + 1)) st in
        SPI_RW_n tp 10 ;;
        let st := set_idx 10 st in
        ret (SD_OK, dev, Init_goto S2 1 st)
      else
        let st := set_init_trys 0 st in
        ret (SD_OK, dev, Init_goto S14 1 st)
  | S2 =>
      SPI_Timer_On 500 ;;
      ret (SD_OK, dev, Init_goto S3 1 st)
  | S3 =>
      let* running := SPI_Timer_Status tp in
      if running then ret (SD_OK, dev, Init_goto S3 1 st)
      else
        SPI_Timer_Off ;;
        let dev := set_mount false dev in
        SPI_Timer_On 500 ;;
        ret (SD_OK, dev, Init_goto S4 1 st)
  | S4 =>
      let* r := __SD_Send_Cmd tp fuel CMD0 0 in
      let* again := and_then (negb (r =? 1)) (SPI_Timer_Status tp) in
      if again then ret (SD_OK, dev, Init_goto S4 1 st)
      else
        SPI_Timer_Off ;;
        ret (SD_OK, dev, Init_goto S5 1 st)
  | S5 =>
      let* r := __SD_Send_Cmd tp fuel CMD0 0 in
      if r =? 1 then ret (SD_OK, dev, Init_goto S6 1 st)
      else ret (SD_OK, dev, Init_goto S1 1 st)
  | S6 =>
      let* r := __SD_Send_Cmd tp fuel CMD8 0x1AA in
      if r =? 1 then
        let st := set_n 0 st in
        ret (SD_OK, dev, Init_goto S7 1 st)
      else ret (SD_OK, dev, Init_goto S11 1 st)
  | S7 =>
      if Init_n st <? 4 then
        let* b := SPI_RW tp 0xFF in
        let st := set_ocr (<[Z.to_nat (Init_n st) := b]> (Init_ocr st)) st in
        let st := set_n (BYTE (Init_n st + 1)) st in
        ret (SD_OK, dev, Init_goto S7 1 st)
      else if (nth 2 (Init_ocr st) 0 =? 0x01) && (nth 3 (Init_ocr st) 0 =? 0xAA)
      then
        SPI_Timer_On 1000 ;;
        ret (SD_OK, dev, Init_goto S8 1 st)
      else ret (SD_OK, dev, Init_goto S1 1 st)
  | S8 =>
      let* running := SPI_Timer_Status tp in
      let* again :=
        and_then running
          (let* r := __SD_Send_Cmd tp fuel ACMD41 (Z.shiftl 1 30) in
           ret (negb (r =? 0))) in
      if again then ret (SD_OK, dev, Init_goto S8 1 st)
      else
        SPI_Timer_Off ;;
        ret (SD_OK, dev, Init_goto S9 1 st)
  | S9 =>
      let* running := SPI_Timer_Status tp in
      let* ok :=
        and_then running
          (let* r := __SD_Send_Cmd tp fuel CMD58 0 in ret (r =? 0)) in
      if ok then
        let st := set_k 0 st in
        ret (SD_OK, dev, Init_goto S10 1 st)
      else ret (SD_OK, dev, Init_goto S1 1 st)
  | S10 =>
      if Init_k st <? 4 then
        let* b := SPI_RW tp 0xFF in
        let st := set_ocr (<[Z.to_nat (Init_k st) := b]> (Init_ocr st)) st in
        let st := set_k (BYTE (Init_k st + 1)) st in
        ret (SD_OK, dev, Init_goto S10 1 st)
      else
        let ct :=
          if negb (Z.land (nth 0 (Init_ocr st) 0) 0x40 =? 0)
          then Z.lor SDCT_SD2 SDCT_BLOCK else SDCT_SD2 in
        let st := set_ct ct st in
        ret (SD_OK, dev, Init_goto S1 1 st)
  | S11 =>
      let* r := __SD_Send_Cmd tp fuel ACMD41 0 in
      let st :=
        if r <=? 1 then set_cmd ACMD41 (set_ct SDCT_SD1 st)
        else set_cmd CMD1 (set_ct SDCT_MMC st) in
      SPI_Timer_On 250 ;;
      ret (SD_OK, dev, Init_goto S12 1 st)
  | S12 =>
      let* running := SPI_Timer_Status tp in
      let* again :=
        and_then running
          (let* r := __SD_Send_Cmd tp fuel (Init_cmd st) 0 in
           ret (negb (r =? 0))) in
      if again then ret (SD_OK, dev, Init_goto S12 1 st)
      else
        SPI_Timer_Off ;;
        ret (SD_OK, dev, Init_goto S13 1 st)
  | S13 =>
      let* running := SPI_Timer_Status tp in
      let st := if negb running then set_ct 0 st else st in
      let* r := __SD_Send_Cmd tp fuel CMD59 0 in
      let st := if negb (r =? 0) then set_ct 0 st else st in
      let* r := __SD_Send_Cmd tp fuel CMD16 512 in
      let st := if negb (r =? 0) then set_ct 0 st else st in
      ret (SD_OK, dev, Init_goto S1 1 st)
  | S14 =>
      let* '(res, dev) := Init_finish tp fuel (Init_ct st) dev in
      ret (res, dev, Init_goto S1 0 st)
  end.

(** [if ((byte_num >= ofs) && (byte_num < ofs+cnt)) { *pointer = data; pointer++; }]
    A store past the end of the buffer is undefined in C; here it leaves the
    buffer as it is. *)
Definition Read_store (ofs cnt : Z) (dat : list Z) (st : ReadSt)
  : list Z * ReadSt :=
  if (ofs <=? Read_byte_num st) && (Read_byte_num st <? ofs + cnt) then
    (<[Read_pointer st := Read_data st]> dat,
     mkReadSt (rn_state st) (read_status st) (Read_res st) (Read_tkn st)
              (Read_data st) (Read_byte_num st) (S (Read_pointer st)))
  else (dat, st).

(** [dat] is the destination buffer; the argument pointer is its start. *)
Definition SD_Read (fuel : nat) (dev : SD_DEV) (dat : list Z)
    (sector ofs cnt : Z) (st : ReadSt)
  : T (SDRESULTS * SD_DEV * list Z * ReadSt) :=
  match rn_state st with
  | S1 =>
      let res := SD_ERROR in
      let pointer := 0%nat in
      if (last_sector dev <? sector) || (cnt =? 0) then
        ret (SD_PARERR, dev, dat,
             mkReadSt S1 0 res (Read_tkn st) (Read_data st)
                      (Read_byte_num st) pointer)
      else
        ret (SD_OK, dev, dat,
             mkReadSt S2 1 res (Read_tkn st) (Read_data st)
                      (Read_byte_num st) pointer)
  | S2 =>
      let* r := __SD_Send_Cmd tp fuel CMD17 sector in
      if r =? 0 then
        SPI_Timer_On 100 ;;
        let* tkn := SPI_RW tp 0xFF in
        ret (SD_OK, dev, dat,
             mkReadSt S3 1 (Read_res st) tkn (Read_data st)
                      (Read_byte_num st) (Read_pointer st))
      else
        ret (SD_OK, dev, dat,
             mkReadSt S6 1 (Read_res st) (Read_tkn st) (Read_data st)
                      (Read_byte_num st) (Read_pointer st))
  | S3 =>
      let* again := and_then (Read_tkn st =? 0xFF) (SPI_Timer_Status tp) in
      if again then
        let* tkn := SPI_RW tp 0xFF in
        ret (SD_OK, dev, dat,
             mkReadSt S3 1 (Read_res st) tkn (Read_data st)
                      (Read_byte_num st) (Read_pointer st))
      else
        SPI_Timer_Off ;;
        ret (SD_OK, dev, dat,
             mkReadSt S4 1 (Read_res st) (Read_tkn st) (Read_data st)
                      (Read_byte_num st) (Read_pointer st))
  | S4 =>
      if Read_tkn st =? 0xFE then
        let byte_num := 0 in
        let* data := SPI_RW tp 0xff in
        let '(dat, st) :=
          Read_store ofs cnt dat
            (mkReadSt (rn_state st) (read_status st) (Read_res st)
                      (Read_tkn st) data byte_num (Read_pointer st)) in
        ret (SD_OK, dev, dat,
             mkReadSt S5 1 (Read_res st) (Read_tkn st) (Read_data st)
                      (Read_byte_num st) (Read_pointer st))
      else
        ret (Read_res st, dev, dat,
             mkReadSt S6 1 (Read_res st) (Read_tkn st) (Read_data st)
                      (Read_byte_num st) (Read_pointer st))
  | S5 =>
      let byte_num := WORD (Read_byte_num st + 1) in
      if byte_num <? SD_BLK_SIZE + 2 then
        let* data := SPI_RW tp 0xff in
        let '(dat, st) :=
          Read_store ofs cnt dat
            (mkReadSt (rn_state st) (read_status st) (Read_res st)
                      (Read_tkn st) data byte_num (Read_pointer st)) in
        ret (SD_OK, dev, dat,
             mkReadSt S5 1 (Read_res st) (Read_tkn st) (Read_data st)
                      (Read_byte_num st) (Read_pointer st))
      else
        ret (SD_OK, dev, dat,
             mkReadSt S6 1 SD_OK (Read_tkn st) (Read_data st)
                      byte_num (Read_pointer st))
  | S6 =>
      SPI_Release ;;
      let dev := set_debug_read (debug_incr cfg (debug_read dev)) dev in
      ret (Read_res st, dev, dat,
           mkReadSt S1 0 (Read_res st) (Read_tkn st) (Read_data st)
                    (Read_byte_num st) (Read_pointer st))
  | _ =>
      (* default: the flags are reset and no value is returned *)
      stuck
  end.

(** [dat] is the source buffer.  A read past its end is undefined in C; here
    it yields 0. *)
Definition SD_Write (fuel : nat) (dev : SD_DEV) (dat : list Z) (sector : Z)
    (st : WriteSt) : T (SDRESULTS * SD_DEV * WriteSt) :=
  match n_state st with
  | S1 =>
      if last_sector dev <? sector then
        ret (SD_PARERR, dev, mkWriteSt S1 0 (Write_idx st) (Write_line st))
      else
        ret (SD_OK, dev, mkWriteSt S2 1 (Write_idx st) (Write_line st))
  | S2 =>
      let* r := __SD_Send_Cmd tp fuel CMD24 sector in
      if r =? 0 then
        SPI_RW tp 0xFE ;;
        ret (SD_OK, dev, mkWriteSt S3 1 0 (Write_line st))
      else
        (* n_state is left at S2 here *)
        ret (SD_ERROR, dev, mkWriteSt S2 0 (Write_idx st) (Write_line st))
  | S3 =>
      if negb (Write_idx st =? SD_BLK_SIZE) then
        SPI_RW tp (nth (Z.to_nat (Write_idx st)) dat 0) ;;
        ret (SD_OK, dev,
             mkWriteSt S3 1 (WORD (Write_idx st + 1)) (Write_line st))
      else
        SPI_RW tp 0xFF ;;
        SPI_RW tp 0xFF ;;
        let* resp := SPI_RW tp 0xFF in
        if negb (Z.land resp 0x1F =? 0x05) then
          ret (SD_REJECT, dev, mkWriteSt S1 0 (Write_idx st) (Write_line st))
        else
          ret (SD_OK, dev, mkWriteSt S4 1 (Write_idx st) (Write_line st))
  | S4 =>
      SPI_Timer_On (SD_IO_WRITE_TIMEOUT_WAIT cfg) ;;
      let* line := SPI_RW tp 0xFF in
      ret (SD_OK, dev, mkWriteSt S5 1 (Write_idx st) line)
  | S5 =>
      let* again := and_then (Write_line st =? 0) (SPI_Timer_Status tp) in
      if again then
        let* line := SPI_RW tp 0xFF in
        ret (SD_OK, dev, mkWriteSt S5 1 (Write_idx st) line)
      else
        SPI_Timer_Off ;;
        let dev := set_debug_write (debug_incr cfg (debug_write dev)) dev in
        ret (SD_OK, dev, mkWriteSt S6 1 (Write_idx st) (Write_line st))
  | S6 =>
      if Write_line st =? 0 then
        ret (SD_BUSY, dev, mkWriteSt S1 0 (Write_idx st) (Write_line st))
      else
        ret (SD_OK, dev, mkWriteSt S1 0 (Write_idx st) (Write_line st))
  | _ =>
      (* default: the flags are reset and no value is returned *)
      stuck
  end.

(** *** One operation

    The caller of a state machine ([Task_SD_Server]) calls it again for as
    long as its flag reads 1 and takes the value returned by the call that
    drops the flag to 0 as the result of the operation.  [calls] bounds the
    number of calls. *)
Fixpoint SD_Init_op (calls fuel : nat) (dev : SD_DEV) (st : InitSt)
  : T (SDRESULTS * SD_DEV * InitSt) :=
  match calls with
  | O => stuck
  | S k =>
      let* '(res, dev, st) := SD_Init fuel dev st in
      if in_status st =? 1 then SD_Init_op k fuel dev st
      else ret (res, dev, st)
  end.

Fixpoint SD_Read_op (calls fuel : nat) (dev : SD_DEV) (dat : list Z)
    (sector ofs cnt : Z) (st : ReadSt)
  : T (SDRESULTS * SD_DEV * list Z * ReadSt) :=
  match calls with
  | O => stuck
  | S k =>
      let* '(res, dev, dat, st) := SD_Read fuel dev dat sector ofs cnt st in
      if read_status st =? 1 then SD_Read_op k fuel dev dat sector ofs cnt st
      else ret (res, dev, dat, st)
  end.

Fixpoint SD_Write_op (calls fuel : nat) (dev : SD_DEV) (dat : list Z)
    (sector : Z) (st : WriteSt) : T (SDRESULTS * SD_DEV * WriteSt) :=
  match calls with
  | O => stuck
  | S k =>
      let* '(res, dev, st) := SD_Write fuel dev dat sector st in
      if idle_busy_status st =? 1 then SD_Write_op k fuel dev dat sector st
      else ret (res, dev, st)
  end.

End Driver.
End Project_2A_Base.

(** ** The transaction dispatcher ([Task_SD_Server]) *)

(** Modelled from the spec: [sd_server.h] is absent.  Request codes in the
    order of [Req_to_State] ("Entries must be in order of declaration in
    SDSTD_T Request field"); a request field can hold any code. *)
Definition REQ_NONE : nat := 0.
Definition REQ_INIT : nat := 1.
Definition REQ_READ : nat := 2.
Definition REQ_WRITE : nat := 3.

(** Modelled from the spec: [sd_server.h] is absent.  The descriptor status
    is idle or busy. *)
Inductive SDS_STATUS : Set := STAT_IDLE | STAT_BUSY.

(** Modelled from the spec: [sd_server.h] is absent.  The top-level states of
    the dispatcher. *)
Inductive SDS_STATE_T : Set := S_IDLE | S_INIT | S_READ | S_WRITE | S_ERROR.

(** The transaction descriptor.  [Device] and [Data] are addresses; the
    device and the buffer they point to live in the server state below. *)
Record SDS_TD_T : Set := mkTrans {
  Request : nat;
  Device : Z;
  Data : Z;
  Sector : Z;
  Status : SDS_STATUS;
  ErrorCode : SDRESULTS
}.

Definition Req_to_State : list SDS_STATE_T := [S_IDLE; S_INIT; S_READ; S_WRITE].

Definition Update_Trans (t : SDS_TD_T) (res : SDRESULTS) : SDS_TD_T :=
  let t := mkTrans (Request t) (Device t) (Data t) (Sector t) (Status t) res in
  let t := mkTrans (Request t) (Device t) (Data t) (Sector t) STAT_IDLE (ErrorCode t) in
  mkTrans REQ_NONE (Device t) (Data t) (Sector t) (Status t) (ErrorCode t).

(** Everything [Task_SD_Server] reads or writes: its own statics
    ([next_state], [cur_trans], [res]), the shared descriptor [g_trans], the
    device and buffer the descriptor points to, and the statics of the three
    state machines it steps. *)
Record Server : Set := mkServer {
  next_state : SDS_STATE_T;
  cur_trans : SDS_TD_T;
  res : SDRESULTS;
  g_trans : SDS_TD_T;
  sd_dev : SD_DEV;
  sd_buf : list Z;
  init_st : Project_2A_Base.InitSt;
  read_st : Project_2A_Base.ReadSt;
  write_st : Project_2A_Base.WriteSt
}.

(** [g_trans] and the statics at reset. *)
Definition g_trans_boot : SDS_TD_T := mkTrans REQ_NONE 0 0 0 STAT_IDLE SD_OK.

Section Dispatcher.

Variable tp : Transport.
Variable cfg : Config.

Definition Task_SD_Server (fuel : nat) (s : Server) : T Server :=
  match next_state s with
  | S_IDLE =>
      if negb (Request (g_trans s) =? REQ_NONE)%nat then
        let cur_trans := g_trans s in
        if (Request cur_trans <=? REQ_WRITE)%nat then
          let next_state := nth (Request cur_trans) Req_to_State S_IDLE in
          let g := g_trans s in
          let g := mkTrans (Request g) (Device g) (Data g) (Sector g)
                           STAT_BUSY (ErrorCode g) in
          ret (mkServer next_state cur_trans (res s) g (sd_dev s) (sd_buf s)
                        (init_st s) (read_st s) (write_st s))
        else
          let g := g_trans s in
          let g := mkTrans (Request g) (Device g) (Data g) (Sector g)
                           STAT_IDLE (ErrorCode g) in
          let g := mkTrans REQ_NONE (Device g) (Data g) (Sector g)
                           (Status g) (ErrorCode g) in
          let g := mkTrans (Request g) (Device g) (Data g) (Sector g)
                           (Status g) SD_PARERR in
          ret (mkServer S_IDLE cur_trans (res s) g (sd_dev s) (sd_buf s)
                        (init_st s) (read_st s) (write_st s))
      else ret s
  | S_INIT =>
      let* '(res, dev, ist) :=
        Project_2A_Base.SD_Init tp cfg fuel (sd_dev s) (init_st s) in
      let next_state :=
        if Project_2A_Base.in_status ist =? 1 then S_INIT else S_IDLE in
      let g :=
        match next_state with
        | S_IDLE => Update_Trans (g_trans s) res
        | _ => g_trans s
        end in
      ret (mkServer next_state (cur_trans s) res g dev (sd_buf s)
                    ist (read_st s) (write_st s))
  | S_READ =>
      let* '(res, dev, buf, rst) :=
        Project_2A_Base.SD_Read tp cfg fuel (sd_dev s) (sd_buf s)
          (Sector (cur_trans s)) 0 512 (read_st s) in
      let next_state :=
        if Project_2A_Base.read_status rst =? 1 then S_READ else S_IDLE in
      let g :=
        match next_state with
        | S_IDLE => Update_Trans (g_trans s) res
        | _ => g_trans s
        end in
      ret (mkServer next_state (cur_trans s) res g dev buf
                    (init_st s) rst (write_st s))
  | S_WRITE =>
      let* '(res, dev, wst) :=
        Project_2A_Base.SD_Write tp cfg fuel (sd_dev s) (sd_buf s)
          (Sector (cur_trans s)) (write_st s) in
      let next_state :=
        if Project_2A_Base.idle_busy_status wst =? 1 then S_WRITE else S_IDLE in
      let g :=
        match next_state with
        | S_IDLE => Update_Trans (g_trans s) res
        | _ => g_trans s
        end in
      ret (mkServer next_state (cur_trans s) res g dev (sd_buf s)
                    (init_st s) (read_st s) wst)
  | S_ERROR =>
      (* while (1); *)
      stuck
  end.

(** [n] successive activations of the dispatcher by the scheduler. *)
Fixpoint Task_SD_Server_n (fuel : nat) (n : nat) (s : Server) : T Server :=
  match n with
  | O => ret s
  | S k =>
      let* s := Task_SD_Server fuel s in
      Task_SD_Server_n fuel k s
  end.

End Dispatcher.

(** ** Vocabulary of the specification *)

(** The bytes of a received stream whose zero-based index, counted from [i]
    for the first byte, lies in the window [ofs, ofs+cnt), in index order. *)
Fixpoint window (i ofs cnt : Z) (bs : list Z) : list Z :=
  match bs with
  | [] => []
  | b :: bs' =>
      if (ofs <=? i) && (i <? ofs + cnt)
      then b :: window (i + 1) ofs cnt bs'
      else window (i + 1) ofs cnt bs'
  end.

(** The buffer after the bytes [bs] are stored one after the other from
    position [p] on. *)
Fixpoint store_bytes (p : nat) (bs : list Z) (dat : list Z) : list Z :=
  match bs with
  | [] => dat
  | b :: bs' => store_bytes (S p) bs' (<[p := b]> dat)
  end.

(** The bytes [SD_Write] takes from the source buffer [dat], in order. *)
Definition source_bytes (dat : list Z) : list Z :=
  map (fun i => nth i dat 0) (seq 0 512).

(** The history after the bytes [outs] are sent one after the other. *)
Fixpoint SPI_RW_out (tp : Transport) (outs : list Z) (h : Hist) : Hist :=
  match outs with
  | [] => h
  | o :: os => SPI_RW_out tp os (EvRW o (BYTE (card_reply tp h o)) :: h)
  end.

(** The history of a write up to the data-response token: the data-start
    token 0xFE, the 512 bytes of the block and the two dummy CRC bytes have
    been sent. *)
Definition Write_block_sent (tp : Transport) (dat : list Z) (h : Hist) : Hist :=
  SPI_RW_out tp ([0xFE] ++ source_bytes dat ++ [0xFF; 0xFF]) h.

(** The data-response token the card sends next. *)
Definition data_response (tp : Transport) (dat : list Z) (h : Hist) : Z :=
  BYTE (card_reply tp (Write_block_sent tp dat h) 0xFF).

(** [SPI_Release] has been called at some point of the history. *)
Definition released (h : Hist) : bool :=
  existsb (fun e => match e with EvRelease => true | _ => false end) h.

(** The card is selected: the most recent chip-select call pulled the line
    low. *)
Fixpoint chip_selected (h : Hist) : bool :=
  match h with
  | [] => false
  | EvCSLow :: _ => true
  | EvCSHigh :: _ => false
  | _ :: h' => chip_selected h'
  end.

(** Timer queries since the timer was last started; [None] when the timer
    has not been started or has been stopped since. *)
Fixpoint polls_since_on (h : Hist) : option nat :=
  match h with
  | [] => None
  | EvTimerOn _ :: _ => Some 0%nat
  | EvTimerOff :: _ => None
  | EvTimerStatus _ :: h' => option_map S (polls_since_on h')
  | _ :: h' => polls_since_on h'
  end.

(** A countdown timer that counts down: at the latest after [N] queries
    since it was started it reports that it is no longer running. *)
Definition timer_expires (tp : Transport) (N : nat) : Prop :=
  forall h n, polls_since_on h = Some n -> (N <= n)%nat ->
              timer_running tp h = false.

(** A bus on which no card answers: every exchanged byte reads 0xFF. *)
Definition dead_bus (tp : Transport) : Prop :=
  forall h d, BYTE (card_reply tp h d) = 0xFF.

(** *** The CSD register as the SD specification lays it out

    The register is 128 bits wide; [csd[0]] holds bits 127..120. *)
Definition CSD_value (csd : list Z) : Z :=
  fold_left (fun acc b => acc * 256 + b) csd 0.

(** The field [hi:lo] of the register. *)
Definition CSD_field (csd : list Z) (hi lo : Z) : Z :=
  Z.land (Z.shiftr (CSD_value csd) lo) (Z.ones (hi - lo + 1)).

(** Capacity in 512-byte sectors of a version-1 register:
    ((C_SIZE+1) * 2^(C_SIZE_MULT+2) * 2^READ_BL_LEN) / 512. *)
Definition CSD_sectors_v1 (csd : list Z) : Z :=
  let C_SIZE := CSD_field csd 73 62 in
  let C_SIZE_MULT := CSD_field csd 49 47 in
  let READ_BL_LEN := CSD_field csd 83 80 in
  ((C_SIZE + 1) * 2 ^ (C_SIZE_MULT + 2) * 2 ^ READ_BL_LEN) / 512.

(** Capacity in 512-byte sectors of a version-2 register:
    (C_SIZE+1) * 1024. *)
Definition CSD_sectors_v2 (csd : list Z) : Z :=
  let C_SIZE := CSD_field csd 69 48 in
  (C_SIZE + 1) * 1024.

(** The dispatcher is inside an operation. *)
Definition in_operation (st : SDS_STATE_T) : Prop :=
  st = S_INIT \/ st = S_READ \/ st = S_WRITE.

(** The result code and the flag with which the state machine that the
    dispatcher steps in state [next_state s] returns from its next call. *)
Definition machine_call (tp : Transport) (cfg : Config) (fuel : nat)
    (s : Server) (h : Hist) : option (SDRESULTS * Z) :=
  match next_state s with
  | S_INIT =>
      match Project_2A_Base.SD_Init tp cfg fuel (sd_dev s) (init_st s) h with
      | Some ((r, _, st), _) => Some (r, Project_2A_Base.in_status st)
      | None => None
      end
  | S_READ =>
      match Project_2A_Base.SD_Read tp cfg fuel (sd_dev s) (sd_buf s)
              (Sector (cur_trans s)) 0 512 (read_st s) h with
      | Some ((r, _, _, st), _) => Some (r, Project_2A_Base.read_status st)
      | None => None
      end
  | S_WRITE =>
      match Project_2A_Base.SD_Write tp cfg fuel (sd_dev s) (sd_buf s)
              (Sector (cur_trans s)) (write_st s) h with
      | Some ((r, _, st), _) => Some (r, Project_2A_Base.idle_busy_status st)
      | None => None
      end
  | _ => None
  end.

(** The two debug counters of [d'] are those of [d]. *)
Definition same_counters (d d' : SD_DEV) : Prop :=
  debug_read d' = debug_read d /\ debug_write d' = debug_write d.

(** ** Simulated cards for the examples *)

Definition is_RW (e : Event) : bool :=
  match e with EvRW _ _ => true | _ => false end.

(** The number of bytes exchanged so far. *)
Definition count_RW (h : Hist) : nat := length (filter is_RW h).

(** A card that answers the exchanges with the bytes of [script] in turn and
    with [idle] once the script is used up. *)
Definition scripted_card (script : list Z) (idle : Z) : Hist -> Z -> Z :=
  fun h _ => nth (count_RW h) script idle.

(** A timer that, once started, runs for [N] queries; stopped (or never
    started) it reads as running, as a cleared compare flag does. *)
Fixpoint countdown (N : nat) (h : Hist) : bool :=
  match h with
  | [] => true
  | EvTimerOff :: _ => true
  | EvTimerOn _ :: _ => (0 <? N)%nat
  | EvTimerStatus _ :: h' =>
      match N with
      | O => false
      | S N' => countdown N' h'
      end
  | _ :: h' => countdown N h'
  end.

Definition sim (script : list Z) (idle : Z) (N : nat) : Transport :=
  mkTransport (scripted_card script idle) (countdown N).

(** What the card clocks out during a command frame whose response is [r]:
    eight bytes while the frame is sent, then the response. *)
Definition frame (r : Z) : list Z := repeat 0xFF 8 ++ [r].

Definition cfg0 : Config := mkConfig 3 250 0x10000.
Definition dev0 : SD_DEV := mkDev true (Z.lor SDCT_SD2 SDCT_BLOCK) 99 7 7.

(** A card that accepts the read command, keeps the bus high for two
    bytes, sends the data-start token and then a block with a known pattern
    followed by its two CRC bytes. *)
Definition pattern : list Z := map (fun i => Z.of_nat (i mod 251)) (seq 0 514).
Definition card_read : Transport :=
  sim (frame 0 ++ [0xFF; 0xFF; 0xFE] ++ pattern) 0xFF 3.

(** A 512-byte source buffer. *)
Definition buf512 : list Z := map (fun i => Z.of_nat (i mod 256)) (seq 0 512).

(** A card that rejects a first write command (illegal command, 0x04), then
    accepts a second one, accepts its data block (data response 0x05) and is
    not busy afterwards. *)
Definition card_reject_then_accept : Transport :=
  sim (frame 0x04 ++ frame 0 ++ repeat 0xFF 515 ++ [0x05]) 0xFF 3.

(** A card that accepts a command and then never drives the bus: every
    further byte reads 0xFF. *)
Definition card_silent : Transport := sim (frame 0) 0xFF 3.

(** A card that accepts a write command and its data block and then holds
    the busy line low for ever. *)
Definition card_busy : Transport :=
  sim (frame 0 ++ repeat 0xFF 515 ++ [0x05]) 0x00 3.

(** A card that accepts a write command and answers the data block with
    the data-response token 0x0B (rejected, CRC error). *)
Definition card_crc_error : Transport :=
  sim (frame 0 ++ repeat 0xFF 515 ++ [0x0B]) 0xFF 3.

(** A requester submits a transaction: it fills in the sector and raises
    the request flag of the shared descriptor. *)
Definition submit (req : nat) (sector : Z) (s : Server) : Server :=
  let g := g_trans s in
  mkServer (next_state s) (cur_trans s) (res s)
           (mkTrans req (Device g) (Data g) sector (Status g) (ErrorCode g))
           (sd_dev s) (sd_buf s) (init_st s) (read_st s) (write_st s).

(** The server at reset, serving a mounted device of 100 sectors. *)
Definition server_boot : Server :=
  mkServer S_IDLE g_trans_boot SD_OK g_trans_boot dev0 buf512
           Project_2A_Base.InitSt_boot Project_2A_Base.ReadSt_boot
           Project_2A_Base.WriteSt_boot.

(** The server at reset, with a read of sector 5 submitted. *)
Definition server_read_request : Server :=
  mkServer S_IDLE g_trans_boot SD_OK
           (mkTrans REQ_READ 0 0 5 STAT_IDLE SD_OK)
           dev0 (repeat 0 512)
           Project_2A_Base.InitSt_boot Project_2A_Base.ReadSt_boot
           Project_2A_Base.WriteSt_boot.

(** An empty slot: no card answers, every byte reads 0xFF. *)
Definition card_absent : Transport := sim [] 0xFF 3.

(** The capacity register of a 1 GiB version-1 card: READ_BL_LEN = 9,
    C_SIZE = 4095, C_SIZE_MULT = 7. *)
Definition csd_v1_1GiB : list Z :=
  [0x00; 0x26; 0x00; 0x32; 0x5F; 0x59; 0x83; 0xFF;
   0xED; 0xB7; 0xFF; 0x9F; 0x96; 0x40; 0x00; 0x01].

(** The capacity register of an 8 GB version-2 card: C_SIZE = 15159. *)
Definition csd_v2_8GB : list Z :=
  [0x40; 0x0E; 0x00; 0x32; 0x5B; 0x59; 0x00; 0x00;
   0x3B; 0x37; 0x7F; 0x80; 0x0A; 0x40; 0x40; 0x01].

(** The capacity register of a 64 GB version-2 card: C_SIZE = 121983. *)
Definition csd_v2_64GB : list Z :=
  [0x40; 0x0E; 0x00; 0x32; 0x5B; 0x59; 0x00; 0x01;
   0xDC; 0x7F; 0x7F; 0x80; 0x0A; 0x40; 0x40; 0x01].

(** A card that accepts CMD9 and sends the data-start token, the register
    [csd] and two CRC bytes. *)
Definition card_csd (csd : list Z) : Transport :=
  sim (frame 0 ++ [0xFE] ++ csd ++ [0x12; 0x34]) 0xFF 3.

(** A version-1 card that goes through the whole negotiation (idle on CMD0,
    CMD8 illegal, ACMD41 until ready, CMD59, CMD16, then its capacity
    register) and is then pulled out of the slot: once the script is used
    up every byte reads 0xFF. *)
Definition card_v1_then_removed : Transport :=
  sim (repeat 0xFF 10                      (* 80 dummy clocks *)
       ++ frame 1                          (* CMD0 *)
       ++ frame 1                          (* CMD0 *)
       ++ frame 5                          (* CMD8: illegal command *)
       ++ frame 1 ++ frame 0               (* ACMD41 *)
       ++ frame 1 ++ frame 0               (* ACMD41 *)
       ++ frame 0                          (* CMD59 *)
       ++ frame 0                          (* CMD16 *)
       ++ frame 0 ++ [0xFE] ++ csd_v1_1GiB ++ [0x12; 0x34])   (* CMD9 *)
      0xFF 2.

Definition dev_unmounted : SD_DEV := mkDev false 0 0 0 0.

(** The events of [h'] that are not yet in [h], for [h'] an extension of
    [h]. *)
Definition new_events (h h' : Hist) : list Event :=
  take (length h' - length h) h'.

(** No card answered during these events: every byte received reads 0xFF. *)
Definition all_FF (es : list Event) : bool :=
  forallb (fun e => match e with EvRW _ i => i =? 0xFF | _ => true end) es.

(** The bytes sent during these events, oldest first. *)
Definition bytes_sent (es : list Event) : list Z :=
  rev (omap (fun e => match e with EvRW o _ => Some o | _ => None end) es).

(** A card that rejects every command (illegal command, 0x04). *)
Definition card_rejects_commands : Transport := sim [] 0x04 3.

(** A card that answers the first command with R1 = 0x01 (idle). *)
Definition card_idle : Transport := sim (frame 0x01) 0xFF 3.

(** Capacity in bytes of a version-1 register:
    (C_SIZE+1) * 2^(C_SIZE_MULT+2) * 2^READ_BL_LEN. *)
Definition CSD_bytes_v1 (csd : list Z) : Z :=
  (CSD_field csd 73 62 + 1) * 2 ^ (CSD_field csd 49 47 + 2)
  * 2 ^ CSD_field csd 83 80.

(** A requester overwrites the shared descriptor. *)
Definition with_g_trans (g : SDS_TD_T) (s : Server) : Server :=
  mkServer (next_state s) (cur_trans s) (res s) g (sd_dev s) (sd_buf s)
           (init_st s) (read_st s) (write_st s).

(** The number of times the bus has been set up ([SPI_Init]), which
    [SD_Init] does once at the start of each attempt to negotiate. *)
Fixpoint attempts (h : Hist) : nat :=
  match h with
  | [] => 0
  | EvInit :: h' => S (attempts h')
  | _ :: h' => attempts h'
  end.

(** A card that, in each of three attempts, answers the first CMD0 with
    R1 = 0x01 (idle) and the second with 0x04 (illegal command). *)
Definition card_not_idle : Transport :=
  sim (concat (repeat (repeat 0xFF 10 ++ frame 1 ++ frame 4) 3)) 0xFF 3.

(** What the state machine of [SD_Init] keeps true from call to call when a
    stopped timer reads as not running: no card type is held outside the
    states S12 and S13, S10 is never entered, and S9 and S13 are entered
    with the timer just stopped. *)
Definition Init_stopped_inv (st : Project_2A_Base.InitSt) (h : Hist) : Prop :=
  match Project_2A_Base.in_states st with
  | S0 | S12 => True
  | S10 => False
  | S13 => exists tl, h = EvTimerOff :: tl
  | S9 => Project_2A_Base.Init_ct st = 0 /\ exists tl, h = EvTimerOff :: tl
  | _ => Project_2A_Base.Init_ct st = 0
  end.

(** A timer that, once started, runs for [N] queries and that reads as not
    running when it is stopped or has never been started. *)
Fixpoint countdown_off (N : nat) (h : Hist) : bool :=
  match h with
  | [] => false
  | EvTimerOff :: _ => false
  | EvTimerOn _ :: _ => (0 <? N)%nat
  | EvTimerStatus _ :: h' =>
      match N with
      | O => false
      | S N' => countdown_off N' h'
      end
  | _ :: h' => countdown_off N h'
  end.

(** A card that answers every exchange with 0x01, on a bus with such a
    timer. *)
Definition card_idle_timer_off : Transport :=
  mkTransport (scripted_card [] 0x01) (countdown_off 3).

(** The card sends the data-start token 0xFE at the [n]-th poll, after
    polls that read 0xFF and after each of which the timer reports that it is
    still running: [token_received tp n h h2] holds when, from the history
    [h], these [n] polls lead to the history [h2], whose newest event is the
    exchange that received the token. *)
Inductive token_received (tp : Transport) : nat -> Hist -> Hist -> Prop :=
| token_now h :
    BYTE (card_reply tp h 0xFF) = 0xFE ->
    token_received tp 1 h (EvRW 0xFF 0xFE :: h)
| token_later n h h2 :
    BYTE (card_reply tp h 0xFF) = 0xFF ->
    timer_running tp (EvRW 0xFF 0xFF :: h) = true ->
    token_received tp n (EvTimerStatus true :: EvRW 0xFF 0xFF :: h) h2 ->
    token_received tp (S n) h h2.

(** Neither debug counter of [d'] is below that of [d]. *)
Definition counters_not_decreased (d d' : SD_DEV) : Prop :=
  debug_read d <= debug_read d' /\ debug_write d <= debug_write d'.

(** The history after one command frame has been sent on top of [h], up
    to the start of the response timer: chip-select raised, a 0xFF sent,
    chip-select lowered, a 0xFF sent, then the six bytes [bytes] of the
    frame, and the 5 ms timer started. *)
Definition frame_sent (tp : Transport) (bytes : list Z) (h : Hist) : Hist :=
  EvTimerOn 5 ::
  SPI_RW_out tp bytes
    (SPI_RW_out tp [0xFF] (EvCSLow :: SPI_RW_out tp [0xFF] (EvCSHigh :: h))).

(** A poll for a response: an exchange that sends 0xFF, or a query of the
    timer. *)
Definition is_poll (e : Event) : bool :=
  match e with
  | EvRW o _ => o =? 0xFF
  | EvTimerStatus _ => true
  | _ => false
  end.

(** The byte received by the most recent exchange of these events. *)
Fixpoint last_received (es : list Event) : option Z :=
  match es with
  | [] => None
  | EvRW _ i :: _ => Some i
  | _ :: es' => last_received es'
  end.

(** * Verification *)

(** ** Computations over the transport *)

Lemma T_bind_Some {A B} (m : T A) (k : A -> T B) h b h' :
  bind m k h = Some (b, h') <->
  exists a h1, m h = Some (a, h1) /\ k a h1 = Some (b, h').
Proof.
  unfold bind. split.
  - destruct (m h) as [[a h1]|] eqn:E; [|discriminate].
    intros H. exists a, h1. split; [reflexivity|exact H].
  - intros (a & h1 & E & H). rewrite E. exact H.
Qed.

Lemma T_bind_eq {A B} (m : T A) (k : A -> T B) h a h1 :
  m h = Some (a, h1) -> bind m k h = k a h1.
Proof. intros E. unfold bind. rewrite E. reflexivity. Qed.

Lemma T_bind_None {A B} (m : T A) (k : A -> T B) h :
  m h = None -> bind m k h = None.
Proof. intros E. unfold bind. rewrite E. reflexivity. Qed.

Lemma T_bind_assoc {A B C} (m : T A) (f : A -> T B) (g : B -> T C) h :
  bind (bind m f) g h = bind m (fun x => bind (f x) g) h.
Proof. unfold bind. destruct (m h) as [[a h1]|]; reflexivity. Qed.

Lemma T_bind_ret {A B} (a : A) (k : A -> T B) h : bind (ret a) k h = k a h.
Proof. reflexivity. Qed.

Lemma SPI_RW_eq tp d h :
  SPI_RW tp d h =
    Some (BYTE (card_reply tp h d), EvRW d (BYTE (card_reply tp h d)) :: h).
Proof. reflexivity. Qed.

Lemma SPI_Timer_Status_eq tp h :
  SPI_Timer_Status tp h =
    Some (timer_running tp h, EvTimerStatus (timer_running tp h) :: h).
Proof. reflexivity. Qed.

Ltac step_RW :=
  rewrite ?T_bind_assoc;
  rewrite (T_bind_eq _ _ _ _ _ (SPI_RW_eq _ _ _)); cbv beta.

Lemma WORD_small x : 0 <= x < 0x10000 -> WORD x = x.
Proof. intros H. unfold WORD. apply Z.mod_small. lia. Qed.

Lemma SPI_RW_n_S tp k h bs h' :
  SPI_RW_n tp (S k) h = Some (bs, h') <->
  exists bs1, bs = BYTE (card_reply tp h 0xFF) :: bs1 /\
    SPI_RW_n tp k (EvRW 0xFF (BYTE (card_reply tp h 0xFF)) :: h) = Some (bs1, h').
Proof.
  cbn [SPI_RW_n]. unfold bind at 1, SPI_RW at 1. cbv zeta.
  unfold bind, ret.
  destruct (SPI_RW_n tp k _) as [[bs1 h1]|]; split.
  - intros H. injection H as <- <-. eauto.
  - intros (bs2 & -> & H). injection H as <- <-. reflexivity.
  - discriminate.
  - intros (bs2 & _ & H). discriminate.
Qed.

Lemma SPI_RW_n_total tp n : forall h,
  exists bs h', SPI_RW_n tp n h = Some (bs, h') /\ length bs = n.
Proof.
  induction n as [|n IH]; intros h.
  - exists [], h. split; reflexivity.
  - destruct (IH (EvRW 0xFF (BYTE (card_reply tp h 0xFF)) :: h)) as (bs & h' & E & L).
    exists (BYTE (card_reply tp h 0xFF) :: bs), h'. split.
    + apply SPI_RW_n_S. eauto.
    + cbn. lia.
Qed.

(** ** The byte window *)

Lemma window_before ofs cnt bs : forall i,
  0 <= i -> i <= ofs ->
  window i ofs cnt bs = window ofs ofs cnt (drop (Z.to_nat (ofs - i)) bs).
Proof.
  induction bs as [|b bs IH]; intros i H0 Hi.
  - rewrite drop_nil. reflexivity.
  - destruct (Z.eq_dec i ofs) as [->|Hne].
    + rewrite Z.sub_diag. reflexivity.
    + cbn [window].
      replace (ofs <=? i) with false by (symmetry; apply Z.leb_gt; lia).
      cbn [andb]. rewrite IH by lia.
      replace (Z.to_nat (ofs - i)) with (S (Z.to_nat (ofs - (i + 1)))) by lia.
      reflexivity.
Qed.

Lemma window_after ofs cnt bs : forall i,
  ofs + cnt <= i -> window i ofs cnt bs = [].
Proof.
  induction bs as [|b bs IH]; intros i Hi; [reflexivity|].
  cbn [window].
  replace (i <? ofs + cnt) with false by (symmetry; apply Z.ltb_ge; lia).
  rewrite andb_false_r. apply IH. lia.
Qed.

Lemma window_inside ofs cnt bs : forall i,
  ofs <= i -> 0 <= ofs + cnt - i ->
  window i ofs cnt bs = take (Z.to_nat (ofs + cnt - i)) bs.
Proof.
  induction bs as [|b bs IH]; intros i Hi Hc.
  - rewrite take_nil. reflexivity.
  - cbn [window].
    replace (ofs <=? i) with true by (symmetry; apply Z.leb_le; lia).
    cbn [andb].
    destruct (i <? ofs + cnt) eqn:E.
    + apply Z.ltb_lt in E. rewrite IH by lia.
      replace (Z.to_nat (ofs + cnt - i)) with (S (Z.to_nat (ofs + cnt - (i + 1)))) by lia.
      reflexivity.
    + apply Z.ltb_ge in E.
      replace (ofs + cnt - i) with 0 by lia. cbn [Z.to_nat take].
      apply window_after. lia.
Qed.

(** The window, counted from the first byte of the stream, is the slice
    [ofs, ofs+cnt) of the stream. *)
Lemma window_slice ofs cnt bs :
  0 <= ofs -> 0 <= cnt ->
  window 0 ofs cnt bs = take (Z.to_nat cnt) (drop (Z.to_nat ofs) bs).
Proof.
  intros Ho Hc. rewrite window_before by lia.
  rewrite window_inside by lia.
  f_equal; [lia | f_equal; lia].
Qed.

Lemma store_bytes_fits bs : forall p dat,
  (p + length bs <= length dat)%nat ->
  store_bytes p bs dat = take p dat ++ bs ++ drop (p + length bs) dat.
Proof.
  induction bs as [|b bs IH]; intros p dat H; cbn [store_bytes length] in *.
  - rewrite Nat.add_0_r. cbn [app]. symmetry. apply take_drop.
  - rewrite IH by (rewrite length_insert; lia).
    rewrite take_S_r with (x := b) by (apply list_lookup_insert_eq; lia).
    rewrite take_insert_ge by lia.
    rewrite drop_insert_lt by lia.
    rewrite <- app_assoc. cbn [app].
    replace (S p + length bs)%nat with (p + S (length bs))%nat by lia.
    reflexivity.
Qed.

Lemma window_length ofs cnt bs :
  0 <= ofs -> 0 <= cnt -> Z.of_nat (length (window 0 ofs cnt bs)) <= cnt.
Proof.
  intros Ho Hc. rewrite window_slice by assumption.
  rewrite length_take. lia.
Qed.

(** ** The data phase of a block read *)

(** Blocking build: the fused loop makes [S k] exchanges when it is entered
    with [byte_num = 514 - S k], and stores the window of what it receives. *)
Lemma Read_data_loop_2B tp ofs cnt : forall k fuel i dat p h bs h',
  0 <= i -> i + Z.of_nat (S k) = 514 -> (S k <= fuel)%nat ->
  SPI_RW_n tp (S k) h = Some (bs, h') ->
  Project_2B.Read_data_loop tp fuel i ofs cnt dat p h =
    Some ((store_bytes p (window i ofs cnt bs) dat,
           (p + length (window i ofs cnt bs))%nat), h').
Proof.
  induction k as [|k IH]; intros fuel i dat p h bs h' Hi Hk Hf E;
    (destruct fuel as [|f]; [lia|]);
    apply SPI_RW_n_S in E as (bs1 & -> & E);
    cbn [Project_2B.Read_data_loop window];
    unfold bind at 1, SPI_RW at 1; cbv zeta;
    rewrite WORD_small by lia.
  - injection E as <- <-.
    replace (i + 1 <? SD_BLK_SIZE + 2) with false
      by (symmetry; apply Z.ltb_ge; unfold SD_BLK_SIZE; lia).
    destruct ((ofs <=? i) && (i <? ofs + cnt)); cbn [window store_bytes length];
      unfold ret; do 3 f_equal; lia.
  - replace (i + 1 <? SD_BLK_SIZE + 2) with true
      by (symmetry; apply Z.ltb_lt; unfold SD_BLK_SIZE; lia).
    destruct ((ofs <=? i) && (i <? ofs + cnt));
      rewrite (IH f (i + 1) _ _ _ bs1 h' ltac:(lia) ltac:(lia) ltac:(lia) E);
      cbn [store_bytes length]; do 3 f_equal; lia.
Qed.

(** State-machine build: once in S5 with [byte_num = 513 - k], the operation
    makes [k] more exchanges, stores the window of what it receives, releases
    the bus, counts the read and completes with [SD_OK]. *)
Lemma SD_Read_op_S5_2A tp cfg fuel dev sector ofs cnt : forall k calls dat st h bs h',
  Project_2A_Base.rn_state st = S5 ->
  0 <= Project_2A_Base.Read_byte_num st ->
  Project_2A_Base.Read_byte_num st + Z.of_nat k = 513 ->
  (k + 2 <= calls)%nat ->
  SPI_RW_n tp k h = Some (bs, h') ->
  exists st',
    Project_2A_Base.SD_Read_op tp cfg calls fuel dev dat sector ofs cnt st h =
      Some ((SD_OK,
             set_debug_read (debug_incr cfg (debug_read dev)) dev,
             store_bytes (Project_2A_Base.Read_pointer st)
               (window (Project_2A_Base.Read_byte_num st + 1) ofs cnt bs) dat,
             st'),
            EvRelease :: h') /\
    Project_2A_Base.rn_state st' = S1 /\
    Project_2A_Base.read_status st' = 0 /\
    Project_2A_Base.Read_pointer st' =
      (Project_2A_Base.Read_pointer st +
       length (window (Project_2A_Base.Read_byte_num st + 1) ofs cnt bs))%nat.
Proof.
  induction k as [|k IH]; intros calls dat st h bs h' Hs Hi Hk Hc E;
    destruct st as [rs status res tkn data i p]; cbn in Hs, Hi, Hk; subst rs;
    cbn [Project_2A_Base.Read_pointer Project_2A_Base.Read_byte_num].
  - injection E as <- <-.
    destruct calls as [|[|c]]; [lia|lia|].
    cbn [Project_2A_Base.SD_Read_op Project_2A_Base.SD_Read
         Project_2A_Base.rn_state Project_2A_Base.Read_byte_num].
    rewrite WORD_small by lia.
    replace (i + 1 <? SD_BLK_SIZE + 2) with false
      by (symmetry; apply Z.ltb_ge; unfold SD_BLK_SIZE; lia).
    eexists. split; [reflexivity|]. cbn. repeat split; lia.
  - apply SPI_RW_n_S in E as (bs1 & -> & E).
    destruct calls as [|c]; [lia|].
    cbn [Project_2A_Base.SD_Read_op Project_2A_Base.SD_Read
         Project_2A_Base.rn_state Project_2A_Base.Read_byte_num].
    rewrite WORD_small by lia.
    replace (i + 1 <? SD_BLK_SIZE + 2) with true
      by (symmetry; apply Z.ltb_lt; unfold SD_BLK_SIZE; lia).
    unfold bind at 1. unfold bind at 1, SPI_RW at 1. cbv zeta.
    unfold Project_2A_Base.Read_store.
    cbn [Project_2A_Base.Read_byte_num Project_2A_Base.Read_pointer
         Project_2A_Base.Read_data Project_2A_Base.rn_state
         Project_2A_Base.read_status Project_2A_Base.Read_res
         Project_2A_Base.Read_tkn window].
    destruct ((ofs <=? i + 1) && (i + 1 <? ofs + cnt)); cbn [ret].
    + unfold ret at 1. cbn [Project_2A_Base.read_status].
      cbn [Project_2A_Base.Read_byte_num Project_2A_Base.Read_pointer
         Project_2A_Base.Read_data Project_2A_Base.rn_state
         Project_2A_Base.read_status Project_2A_Base.Read_res
         Project_2A_Base.Read_tkn Z.eqb Pos.eqb].
      match goal with |- context [Project_2A_Base.SD_Read_op _ _ _ _ _ ?d _ _ _ ?s ?hh] =>
        destruct (IH c d s hh bs1 h') as (st' & -> & H1 & H2 & H3)
      end; cbn; try lia; try assumption; try reflexivity.
      eexists. split; [reflexivity|]. repeat split; try assumption.
      rewrite H3. cbn. lia.
    + unfold ret at 1. cbn [Project_2A_Base.read_status].
      cbn [Project_2A_Base.Read_byte_num Project_2A_Base.Read_pointer
         Project_2A_Base.Read_data Project_2A_Base.rn_state
         Project_2A_Base.read_status Project_2A_Base.Read_res
         Project_2A_Base.Read_tkn Z.eqb Pos.eqb].
      match goal with |- context [Project_2A_Base.SD_Read_op _ _ _ _ _ ?d _ _ _ ?s ?hh] =>
        destruct (IH c d s hh bs1 h') as (st' & -> & H1 & H2 & H3)
      end; cbn; try lia; try assumption; try reflexivity.
      eexists. split; [reflexivity|]. repeat split; try assumption.
Qed.

Lemma SD_Read_2B_data tp cfg fuel dev dat sector ofs cnt h h1 h2 block h3 :
  sector <= last_sector dev -> 0 < cnt -> (514 <= fuel)%nat ->
  __SD_Send_Cmd tp fuel CMD17 sector h = Some (0, h1) ->
  Project_2B.Read_token_loop tp fuel h1 = Some (0xFE, h2) ->
  SPI_RW_n tp 514 (EvTimerOff :: h2) = Some (block, h3) ->
  Project_2B.SD_Read tp cfg fuel dev dat sector ofs cnt h =
    Some ((SD_OK, set_debug_read (debug_incr cfg (debug_read dev)) dev,
           store_bytes 0 (window 0 ofs cnt block) dat),
          EvRelease :: h3).
Proof.
  intros Hs Hc Hf E1 E2 E3. unfold Project_2B.SD_Read.
  replace (last_sector dev <? sector) with false by (symmetry; apply Z.ltb_ge; lia).
  replace (cnt =? 0) with false by (symmetry; apply Z.eqb_neq; lia).
  cbn [orb].
  rewrite (T_bind_eq _ _ _ _ _ E1). cbn [Z.eqb].
  unfold bind at 1. rewrite (T_bind_eq _ _ _ _ _ E2).
  unfold bind at 1, SPI_Timer_Off at 1, emit at 1.
  change (254 =? 254) with true. cbv iota.
  unfold bind at 1.
  rewrite (Read_data_loop_2B tp ofs cnt 513 fuel 0 dat 0%nat _ block h3)
    by (try lia; exact E3).
  reflexivity.
Qed.

Lemma SD_Read_op_S4_2A tp cfg fuel dev sector ofs cnt calls dat st h block h3 :
  Project_2A_Base.rn_state st = S4 ->
  Project_2A_Base.Read_tkn st = 0xFE ->
  (516 <= calls)%nat ->
  SPI_RW_n tp 514 h = Some (block, h3) ->
  exists st',
    Project_2A_Base.SD_Read_op tp cfg calls fuel dev dat sector ofs cnt st h =
      Some ((SD_OK,
             set_debug_read (debug_incr cfg (debug_read dev)) dev,
             store_bytes (Project_2A_Base.Read_pointer st)
               (window 0 ofs cnt block) dat,
             st'),
            EvRelease :: h3) /\
    Project_2A_Base.rn_state st' = S1 /\
    Project_2A_Base.read_status st' = 0.
Proof.
  intros Hs Ht Hc E.
  destruct st as [rs status res tkn data i p]; cbn in Hs, Ht; subst rs tkn.
  apply SPI_RW_n_S in E as (bs1 & -> & E).
  destruct calls as [|c]; [lia|].
  cbn [Project_2A_Base.SD_Read_op Project_2A_Base.SD_Read
       Project_2A_Base.rn_state Project_2A_Base.Read_tkn].
  change (254 =? 254) with true. cbv iota.
  unfold bind at 1. unfold bind at 1, SPI_RW at 1. cbv zeta.
  unfold Project_2A_Base.Read_store.
  cbn [Project_2A_Base.Read_byte_num Project_2A_Base.Read_pointer
       Project_2A_Base.Read_data Project_2A_Base.rn_state
       Project_2A_Base.read_status Project_2A_Base.Read_res
       Project_2A_Base.Read_tkn window].
  destruct ((ofs <=? 0) && (0 <? ofs + cnt)); unfold ret at 1;
    cbn [Project_2A_Base.Read_byte_num Project_2A_Base.Read_pointer
         Project_2A_Base.Read_data Project_2A_Base.rn_state
         Project_2A_Base.read_status Project_2A_Base.Read_res
         Project_2A_Base.Read_tkn Z.eqb Pos.eqb];
    match goal with |- context [Project_2A_Base.SD_Read_op _ _ _ _ _ ?d _ _ _ ?s ?hh] =>
      destruct (SD_Read_op_S5_2A tp cfg fuel dev sector ofs cnt 513 c d s hh bs1 h3
                  eq_refl ltac:(cbn; lia) ltac:(cbn; lia) ltac:(lia) E)
        as (st' & -> & H1 & H2 & H3)
    end;
    eexists; (split; [reflexivity|]); split; assumption.
Qed.

(** Acceptance of a read by the state-machine build: no transport call is
    made, the destination is untouched and [pointer] is set to its start. *)
Lemma SD_Read_S1_2A tp cfg fuel dev dat sector ofs cnt st h :
  sector <= last_sector dev -> 0 < cnt ->
  Project_2A_Base.rn_state st = S1 ->
  exists st',
    Project_2A_Base.SD_Read tp cfg fuel dev dat sector ofs cnt st h =
      Some ((SD_OK, dev, dat, st'), h) /\
    Project_2A_Base.rn_state st' = S2 /\
    Project_2A_Base.read_status st' = 1 /\
    Project_2A_Base.Read_pointer st' = 0%nat.
Proof.
  intros Hs Hc E. unfold Project_2A_Base.SD_Read. rewrite E.
  replace (last_sector dev <? sector) with false by (symmetry; apply Z.ltb_ge; lia).
  replace (cnt =? 0) with false by (symmetry; apply Z.eqb_neq; lia).
  cbn [orb]. eexists. split; [reflexivity|]. cbn. auto.
Qed.

(** While the state-machine build sends the command and waits for the token
    (S2, S3), it leaves the device, the destination and [pointer] alone. *)
Lemma SD_Read_S2_S3_2A tp cfg fuel dev dat sector ofs cnt st h r dev' dat' st' h' :
  Project_2A_Base.rn_state st = S2 \/ Project_2A_Base.rn_state st = S3 ->
  Project_2A_Base.SD_Read tp cfg fuel dev dat sector ofs cnt st h =
    Some ((r, dev', dat', st'), h') ->
  dev' = dev /\ dat' = dat /\
  Project_2A_Base.Read_pointer st' = Project_2A_Base.Read_pointer st.
Proof.
  intros [E|E]; unfold Project_2A_Base.SD_Read; rewrite E; intros H.
  - apply T_bind_Some in H as (a & h1 & _ & H).
    destruct (a =? 0).
    + apply T_bind_Some in H as (? & ? & _ & H).
      apply T_bind_Some in H as (? & ? & _ & H).
      injection H as <- <- <- <- <-. auto.
    + injection H as <- <- <- <- <-. auto.
  - apply T_bind_Some in H as (a & h1 & _ & H).
    destruct a.
    + apply T_bind_Some in H as (? & ? & _ & H).
      injection H as <- <- <- <- <-. auto.
    + apply T_bind_Some in H as (? & ? & _ & H).
      injection H as <- <- <- <- <-. auto.
Qed.

Lemma store_full_block block dat :
  length block = 514%nat -> length dat = 512%nat ->
  store_bytes 0 (window 0 0 512 block) dat = take 512 block.
Proof.
  intros Hb Hd. rewrite window_slice by lia.
  change (Z.to_nat 0) with 0%nat. rewrite drop_0.
  change (Z.to_nat 512) with 512%nat.
  rewrite store_bytes_fits by (rewrite length_take; lia).
  rewrite take_0, drop_ge by (rewrite length_take; lia).
  cbn [app]. apply app_nil_r.
Qed.

Lemma store_slice block dat :
  length block = 514%nat -> (5 <= length dat)%nat ->
  store_bytes 0 (window 0 10 5 block) dat = take 5 (drop 10 block) ++ drop 5 dat.
Proof.
  intros Hb Hd. rewrite window_slice by lia.
  change (Z.to_nat 10) with 10%nat. change (Z.to_nat 5) with 5%nat.
  rewrite store_bytes_fits by (rewrite length_take, length_drop; lia).
  rewrite take_0. cbn [app]. f_equal. f_equal.
  rewrite length_take, length_drop. lia.
Qed.

(** State-machine build: the token wait.  In S3 with the byte of the last
    poll in [tkn], the polls of [token_received] are made one call at a
    time; the call that finds the token stops the timer and the data states
    follow. *)
Lemma SD_Read_op_S3_token_2A tp cfg fuel dev sector ofs cnt n h0 h2 :
  token_received tp n h0 h2 ->
  forall calls dat st block h3,
    Project_2A_Base.rn_state st = S3 ->
    Project_2A_Base.Read_tkn st = BYTE (card_reply tp h0 0xFF) ->
    (n + 516 <= calls)%nat ->
    SPI_RW_n tp 514 (EvTimerOff :: h2) = Some (block, h3) ->
    exists st',
      Project_2A_Base.SD_Read_op tp cfg calls fuel dev dat sector ofs cnt st
        (EvRW 0xFF (BYTE (card_reply tp h0 0xFF)) :: h0) =
        Some ((SD_OK,
               set_debug_read (debug_incr cfg (debug_read dev)) dev,
               store_bytes (Project_2A_Base.Read_pointer st)
                 (window 0 ofs cnt block) dat,
               st'),
              EvRelease :: h3) /\
      Project_2A_Base.rn_state st' = S1 /\
      Project_2A_Base.read_status st' = 0.
Proof.
  induction 1 as [h Hk | n h h2 Hk Hrun _ IH];
    intros calls dat st block h3 Hs Ht Hc E.
  - destruct st as [rs status res tkn data i p]; cbn in Hs, Ht; subst rs tkn.
    destruct calls as [|c]; [lia|].
    cbn [Project_2A_Base.SD_Read_op Project_2A_Base.SD_Read
         Project_2A_Base.rn_state Project_2A_Base.Read_tkn].
    rewrite Hk. change (254 =? 255) with false.
    unfold Project_2A_Base.and_then. cbv iota.
    rewrite !T_bind_assoc, T_bind_ret. cbv iota.
    unfold SPI_Timer_Off. rewrite !T_bind_assoc.
    rewrite (T_bind_eq _ _ _ _ _ (eq_refl : emit _ _ = Some (tt, _))); cbv beta.
    rewrite T_bind_ret.
    cbn [Project_2A_Base.read_status Z.eqb Pos.eqb].
    match goal with |- context [Project_2A_Base.SD_Read_op _ _ _ _ _ _ _ _ _ ?s ?hh] =>
      destruct (SD_Read_op_S4_2A tp cfg fuel dev sector ofs cnt c dat s hh block h3
                  eq_refl eq_refl ltac:(lia) E) as (st' & -> & H1 & H2)
    end.
    exists st'. split; [reflexivity|]. split; assumption.
  - destruct st as [rs status res tkn data i p]; cbn in Hs, Ht; subst rs tkn.
    destruct calls as [|c]; [lia|].
    cbn [Project_2A_Base.SD_Read_op Project_2A_Base.SD_Read
         Project_2A_Base.rn_state Project_2A_Base.Read_tkn].
    rewrite Hk. change (255 =? 255) with true.
    unfold Project_2A_Base.and_then. cbv iota.
    rewrite !T_bind_assoc.
    rewrite (T_bind_eq _ _ _ _ _ (SPI_Timer_Status_eq _ _)); cbv beta.
    rewrite Hrun. cbv iota. step_RW. rewrite T_bind_ret.
    cbn [Project_2A_Base.read_status Z.eqb Pos.eqb].
    match goal with |- context [Project_2A_Base.SD_Read_op _ _ _ _ _ _ _ _ _ ?s ?hh] =>
      destruct (IH c dat s block h3 eq_refl eq_refl) as (st' & -> & H1 & H2);
        [lia | exact E |]
    end.
    exists st'. split; [reflexivity|]. split; assumption.
Qed.

(** State-machine build: a whole read, from acceptance in S1 to completion,
    when the card accepts the command and the token arrives. *)
Lemma SD_Read_op_2A_data tp cfg fuel dev dat sector ofs cnt calls st n h h1 h2
    block h3 :
  sector <= last_sector dev -> 0 < cnt ->
  Project_2A_Base.rn_state st = S1 ->
  __SD_Send_Cmd tp fuel CMD17 sector h = Some (0, h1) ->
  token_received tp n (EvTimerOn 100 :: h1) h2 ->
  SPI_RW_n tp 514 (EvTimerOff :: h2) = Some (block, h3) ->
  (n + 518 <= calls)%nat ->
  exists st',
    Project_2A_Base.SD_Read_op tp cfg calls fuel dev dat sector ofs cnt st h =
      Some ((SD_OK,
             set_debug_read (debug_incr cfg (debug_read dev)) dev,
             store_bytes 0 (window 0 ofs cnt block) dat,
             st'),
            EvRelease :: h3) /\
    Project_2A_Base.rn_state st' = S1 /\
    Project_2A_Base.read_status st' = 0.
Proof.
  intros Hsec Hcnt Hs E1 Htok E3 Hc.
  destruct st as [rs status res tkn data i p]; cbn in Hs; subst rs.
  destruct calls as [|[|c]]; try lia.
  cbn [Project_2A_Base.SD_Read_op Project_2A_Base.SD_Read
       Project_2A_Base.rn_state].
  replace (last_sector dev <? sector) with false
    by (symmetry; apply Z.ltb_ge; lia).
  replace (cnt =? 0) with false by (symmetry; apply Z.eqb_neq; lia).
  cbn [orb]. cbv beta iota zeta. rewrite T_bind_ret.
  cbn [Project_2A_Base.read_status Z.eqb Pos.eqb].
  cbn [Project_2A_Base.SD_Read Project_2A_Base.rn_state].
  rewrite !T_bind_assoc. rewrite (T_bind_eq _ _ _ _ _ E1); cbv beta.
  change (0 =? 0) with true. cbv iota.
  unfold SPI_Timer_On. rewrite !T_bind_assoc.
  rewrite (T_bind_eq _ _ _ _ _ (eq_refl : emit _ _ = Some (tt, _))); cbv beta.
  step_RW. rewrite T_bind_ret.
  cbn [Project_2A_Base.read_status Z.eqb Pos.eqb].
  match goal with |- context [Project_2A_Base.SD_Read_op _ _ _ _ _ _ _ _ _ ?s _] =>
    destruct (SD_Read_op_S3_token_2A tp cfg fuel dev sector ofs cnt _ _ _ Htok
                c dat s block h3 eq_refl eq_refl) as (st' & -> & H1 & H2);
      [lia | exact E3 |]
  end.
  exists st'. split; [reflexivity|]. split; assumption.
Qed.

(** C1.  A block read that has received the data-start token makes exactly
    514 further byte exchanges (512 data + 2 CRC) and then only releases the
    bus; it stores, contiguously from the start of the destination and in
    index order, exactly the received bytes whose index lies in
    [ofs, ofs+cnt), which are at most [cnt] bytes.  With [ofs = 0, cnt = 512]
    the destination becomes the 512-byte block; with [ofs = 10, cnt = 5] its
    first five bytes become bytes 10..14 of the block.  Both builds: the
    blocking [SD_Read], and the state machine, called until its busy flag
    drops, from acceptance (S1) over the command (S2) and the polls that
    receive the token (S3) to the data states (S4, S5, S6); then state by
    state. *)
Theorem SD_Read_window tp cfg fuel dev dat sector ofs cnt :
  sector <= last_sector dev -> 0 < cnt -> 0 <= ofs ->
  (* the blocking build *)
  (forall h h1 h2 block h3,
     (514 <= fuel)%nat ->
     __SD_Send_Cmd tp fuel CMD17 sector h = Some (0, h1) ->
     Project_2B.Read_token_loop tp fuel h1 = Some (0xFE, h2) ->
     SPI_RW_n tp 514 (EvTimerOff :: h2) = Some (block, h3) ->
     Project_2B.SD_Read tp cfg fuel dev dat sector ofs cnt h =
       Some ((SD_OK, set_debug_read (debug_incr cfg (debug_read dev)) dev,
              store_bytes 0 (window 0 ofs cnt block) dat),
             EvRelease :: h3)) /\
  (* the state-machine build: the whole operation *)
  (forall calls st n h h1 h2 block h3,
     Project_2A_Base.rn_state st = S1 ->
     __SD_Send_Cmd tp fuel CMD17 sector h = Some (0, h1) ->
     token_received tp n (EvTimerOn 100 :: h1) h2 ->
     SPI_RW_n tp 514 (EvTimerOff :: h2) = Some (block, h3) ->
     (n + 518 <= calls)%nat ->
     exists st',
       Project_2A_Base.SD_Read_op tp cfg calls fuel dev dat sector ofs cnt st h =
         Some ((SD_OK,
                set_debug_read (debug_incr cfg (debug_read dev)) dev,
                store_bytes 0 (window 0 ofs cnt block) dat,
                st'),
               EvRelease :: h3) /\
       Project_2A_Base.rn_state st' = S1 /\
       Project_2A_Base.read_status st' = 0) /\
  (* the state-machine build: acceptance *)
  (forall st h,
     Project_2A_Base.rn_state st = S1 ->
     exists st',
       Project_2A_Base.SD_Read tp cfg fuel dev dat sector ofs cnt st h =
         Some ((SD_OK, dev, dat, st'), h) /\
       Project_2A_Base.rn_state st' = S2 /\
       Project_2A_Base.read_status st' = 1 /\
       Project_2A_Base.Read_pointer st' = 0%nat) /\
  (* the state-machine build: command and token wait *)
  (forall st h r dev' dat' st' h',
     Project_2A_Base.rn_state st = S2 \/ Project_2A_Base.rn_state st = S3 ->
     Project_2A_Base.SD_Read tp cfg fuel dev dat sector ofs cnt st h =
       Some ((r, dev', dat', st'), h') ->
     dev' = dev /\ dat' = dat /\
     Project_2A_Base.Read_pointer st' = Project_2A_Base.Read_pointer st) /\
  (* the state-machine build: data *)
  (forall calls st h block h3,
     Project_2A_Base.rn_state st = S4 ->
     Project_2A_Base.Read_tkn st = 0xFE ->
     (516 <= calls)%nat ->
     SPI_RW_n tp 514 h = Some (block, h3) ->
     exists st',
       Project_2A_Base.SD_Read_op tp cfg calls fuel dev dat sector ofs cnt st h =
         Some ((SD_OK,
                set_debug_read (debug_incr cfg (debug_read dev)) dev,
                store_bytes (Project_2A_Base.Read_pointer st)
                  (window 0 ofs cnt block) dat,
                st'),
               EvRelease :: h3) /\
       Project_2A_Base.rn_state st' = S1 /\
       Project_2A_Base.read_status st' = 0) /\
  (* what is stored *)
  (forall block,
     window 0 ofs cnt block = take (Z.to_nat cnt) (drop (Z.to_nat ofs) block) /\
     Z.of_nat (length (window 0 ofs cnt block)) <= cnt) /\
  (forall block buf,
     length block = 514%nat -> length buf = 512%nat ->
     store_bytes 0 (window 0 0 512 block) buf = take 512 block) /\
  (forall block buf,
     length block = 514%nat -> (5 <= length buf)%nat ->
     store_bytes 0 (window 0 10 5 block) buf =
       take 5 (drop 10 block) ++ drop 5 buf).
Proof.
  intros Hs Hc Ho. repeat split.
  - intros h h1 h2 block h3 Hf E1 E2 E3.
    apply SD_Read_2B_data with (h1 := h1) (h2 := h2); assumption.
  - intros calls st n h h1 h2 block h3 E0 E1 E2 E3 Hn.
    apply SD_Read_op_2A_data with (n := n) (h1 := h1) (h2 := h2); assumption.
  - intros st h E. apply SD_Read_S1_2A; assumption.
  - eapply SD_Read_S2_S3_2A; eassumption.
  - eapply SD_Read_S2_S3_2A; eassumption.
  - eapply SD_Read_S2_S3_2A; eassumption.
  - intros calls st h block h3 E1 E2 Hn E3.
    apply SD_Read_op_S4_2A; assumption.
  - apply window_slice; lia.
  - apply window_length; lia.
  - apply store_full_block.
  - apply store_slice.
Qed.

Lemma SD_Read_window_witness :
  (exists h',
     Project_2B.SD_Read card_read cfg0 600 dev0 (repeat 0 5) 5 10 5 [] =
       Some ((SD_OK, set_debug_read 8 dev0, [10; 11; 12; 13; 14]), h') /\
     count_RW h' = 526%nat) /\
  (exists st' h',
     Project_2A_Base.SD_Read_op card_read cfg0 600 600 dev0 (repeat 0 5) 5 10 5
       Project_2A_Base.ReadSt_boot [] =
       Some ((SD_OK, set_debug_read 8 dev0, [10; 11; 12; 13; 14], st'), h') /\
     Project_2A_Base.rn_state st' = S1 /\
     Project_2A_Base.read_status st' = 0 /\
     count_RW h' = 526%nat).
Proof.
  destruct (SD_Read_window card_read cfg0 600 dev0 (repeat 0 5) 5 10 5)
    as (H2B & H2A & _); [cbn; lia | lia | lia |].
  split.
  - eexists. split.
    + eapply eq_trans.
      * eapply H2B; [lia | vm_compute; reflexivity | vm_compute; reflexivity
                    | vm_compute; reflexivity].
      * vm_compute. reflexivity.
    + vm_compute. reflexivity.
  - destruct (__SD_Send_Cmd card_read 600 CMD17 5 []) as [[r h1]|] eqn:E1;
      [|vm_compute in E1; discriminate].
    assert (r = 0) as -> by (vm_compute in E1; congruence).
    destruct (SPI_RW_n card_read 514
                (EvTimerOff :: EvRW 0xFF 0xFE :: EvTimerStatus true ::
                 EvRW 0xFF 0xFF :: EvTimerStatus true :: EvRW 0xFF 0xFF ::
                 EvTimerOn 100 :: h1)) as [[block h3]|] eqn:E3;
      [|vm_compute in E1; injection E1 as <-; vm_compute in E3; discriminate].
    destruct (H2A 600%nat Project_2A_Base.ReadSt_boot 3%nat [] h1
                (EvRW 0xFF 0xFE :: EvTimerStatus true ::
                 EvRW 0xFF 0xFF :: EvTimerStatus true :: EvRW 0xFF 0xFF ::
                 EvTimerOn 100 :: h1) block h3
                eq_refl E1) as (st' & E & Hst & Hfl); [| exact E3 | lia |].
    + vm_compute in E1. injection E1 as <-.
      apply token_later; [vm_compute; reflexivity | vm_compute; reflexivity |].
      apply token_later; [vm_compute; reflexivity | vm_compute; reflexivity |].
      apply token_now. vm_compute. reflexivity.
    + exists st', (EvRelease :: h3). split; [|split; [|split]].
      * rewrite E. vm_compute in E1. injection E1 as <-.
        vm_compute in E3. injection E3 as <- <-.
        vm_compute. reflexivity.
      * exact Hst.
      * exact Hfl.
      * vm_compute in E1. injection E1 as <-.
        vm_compute in E3. injection E3 as <- <-.
        vm_compute. reflexivity.
Defined.

(** ** Parameter checks *)

Lemma SD_Read_2B_PARERR tp cfg fuel dev dat sector ofs cnt h :
  last_sector dev < sector \/ cnt = 0 ->
  Project_2B.SD_Read tp cfg fuel dev dat sector ofs cnt h =
    Some ((SD_PARERR, dev, dat), h).
Proof.
  intros H. unfold Project_2B.SD_Read.
  replace ((last_sector dev <? sector) || (cnt =? 0)) with true; [reflexivity|].
  symmetry. apply orb_true_iff.
  destruct H as [H|H]; [left; apply Z.ltb_lt | right; apply Z.eqb_eq]; assumption.
Qed.

Lemma SD_Write_2B_PARERR tp cfg fuel dev dat sector h :
  last_sector dev < sector ->
  Project_2B.SD_Write tp cfg fuel dev dat sector h = Some ((SD_PARERR, dev), h).
Proof.
  intros H. unfold Project_2B.SD_Write.
  replace (last_sector dev <? sector) with true; [reflexivity|].
  symmetry. apply Z.ltb_lt. assumption.
Qed.

Lemma SD_Read_2A_PARERR tp cfg fuel dev dat sector ofs cnt st h :
  Project_2A_Base.rn_state st = S1 ->
  last_sector dev < sector \/ cnt = 0 ->
  exists st',
    Project_2A_Base.SD_Read tp cfg fuel dev dat sector ofs cnt st h =
      Some ((SD_PARERR, dev, dat, st'), h) /\
    Project_2A_Base.rn_state st' = S1 /\
    Project_2A_Base.read_status st' = 0.
Proof.
  intros E H. unfold Project_2A_Base.SD_Read. rewrite E.
  replace ((last_sector dev <? sector) || (cnt =? 0)) with true.
  - eexists. split; [reflexivity|]. split; reflexivity.
  - symmetry. apply orb_true_iff.
    destruct H as [H|H]; [left; apply Z.ltb_lt | right; apply Z.eqb_eq]; assumption.
Qed.

Lemma SD_Write_2A_PARERR tp cfg fuel dev dat sector st h :
  Project_2A_Base.n_state st = S1 ->
  last_sector dev < sector ->
  exists st',
    Project_2A_Base.SD_Write tp cfg fuel dev dat sector st h =
      Some ((SD_PARERR, dev, st'), h) /\
    Project_2A_Base.n_state st' = S1 /\
    Project_2A_Base.idle_busy_status st' = 0.
Proof.
  intros E H. unfold Project_2A_Base.SD_Write. rewrite E.
  replace (last_sector dev <? sector) with true.
  - eexists. split; [reflexivity|]. split; reflexivity.
  - symmetry. apply Z.ltb_lt. assumption.
Qed.

(** A read operation of the state-machine build always leaves the machine
    in S1, so the next read is checked. *)
Lemma SD_Read_2A_completes_in_S1 tp cfg fuel dev dat sector ofs cnt st h r dev' dat' st' h' :
  Project_2A_Base.SD_Read tp cfg fuel dev dat sector ofs cnt st h =
    Some ((r, dev', dat', st'), h') ->
  Project_2A_Base.read_status st' = 0 ->
  Project_2A_Base.rn_state st' = S1.
Proof.
  unfold Project_2A_Base.SD_Read, Project_2A_Base.Read_store.
  destruct (Project_2A_Base.rn_state st); try discriminate; intros H;
    repeat match goal with
    | H : bind _ _ _ = Some _ |- _ => apply T_bind_Some in H as (? & ? & ? & H)
    | H : context [if ?c then _ else _] |- _ => destruct c
    | H : ret _ _ = Some _ |- _ => injection H as <- <- <- <- <-
    | H : stuck _ = Some _ |- _ => discriminate H
    end; cbn; intros; try reflexivity; try discriminate.
Qed.

(** C2 (evaluation at the failing input).  State-machine build: a write
    whose command the card rejects completes with [SD_ERROR] and leaves
    [n_state] at S2.  The next write, for a sector beyond [last_sector], is
    then not checked: it sends CMD24 for that sector and the 512 bytes of
    data, and completes with [SD_OK].  The same through the dispatcher: a
    write request for sector 5 is answered with [SD_ERROR], the following
    write request for sector 100 of a 100-sector device with [SD_OK]. *)
Theorem SD_Write_2A_unchecked_after_error :
  (exists dev1 st1 h1,
     Project_2A_Base.SD_Write_op card_reject_then_accept cfg0 600 600
       dev0 buf512 5 Project_2A_Base.WriteSt_boot [] =
       Some ((SD_ERROR, dev1, st1), h1) /\
     Project_2A_Base.n_state st1 = S2 /\
     Project_2A_Base.idle_busy_status st1 = 0 /\
     last_sector dev1 = 99 /\
     exists dev2 st2 h2,
       Project_2A_Base.SD_Write_op card_reject_then_accept cfg0 600 600
         dev1 buf512 100 st1 h1 = Some ((SD_OK, dev2, st2), h2) /\
       count_RW h1 = 9%nat /\ count_RW h2 = 535%nat) /\
  (exists s1 h1,
     Task_SD_Server_n card_reject_then_accept cfg0 600 600
       (submit REQ_WRITE 5 server_boot) [] = Some (s1, h1) /\
     next_state s1 = S_IDLE /\
     g_trans s1 = mkTrans REQ_NONE 0 0 5 STAT_IDLE SD_ERROR /\
     last_sector (sd_dev s1) = 99 /\
     exists s2 h2,
       Task_SD_Server_n card_reject_then_accept cfg0 600 600
         (submit REQ_WRITE 100 s1) h1 = Some (s2, h2) /\
       next_state s2 = S_IDLE /\
       g_trans s2 = mkTrans REQ_NONE 0 0 100 STAT_IDLE SD_OK /\
       count_RW h1 = 9%nat /\ count_RW h2 = 535%nat).
Proof.
  split.
  - do 3 eexists. split; [vm_compute; reflexivity|].
    split; [reflexivity|]. split; [reflexivity|]. split; [reflexivity|].
    do 3 eexists. split; [vm_compute; reflexivity|].
    split; vm_compute; reflexivity.
  - do 2 eexists. split; [vm_compute; reflexivity|].
    split; [reflexivity|]. split; [reflexivity|]. split; [reflexivity|].
    do 2 eexists. split; [vm_compute; reflexivity|].
    split; [reflexivity|]. split; [reflexivity|].
    split; vm_compute; reflexivity.
Qed.

(** ** Polling loops without a timer *)

Lemma count_RW_cons_RW o i h : count_RW (EvRW o i :: h) = S (count_RW h).
Proof. reflexivity. Qed.

Lemma scripted_card_idle script idle h d :
  (length script <= count_RW h)%nat -> scripted_card script idle h d = idle.
Proof. intros H. unfold scripted_card. apply nth_overflow. exact H. Qed.

Lemma SPI_RW_idle script idle N h d :
  (length script <= count_RW h)%nat ->
  SPI_RW (sim script idle N) d h = Some (BYTE idle, EvRW d (BYTE idle) :: h).
Proof.
  intros H. unfold SPI_RW. cbn [card_reply sim].
  rewrite scripted_card_idle by exact H. reflexivity.
Qed.

Lemma Read_token_loop_silent script N : forall fuel h,
  (length script <= count_RW h)%nat ->
  Project_2B.Read_token_loop (sim script 0xFF N) fuel h = None.
Proof.
  induction fuel as [|f IH]; intros h H; [reflexivity|].
  cbn [Project_2B.Read_token_loop].
  rewrite (T_bind_eq _ _ _ _ _ (SPI_RW_idle script 0xFF N h 0xFF H)).
  change (BYTE 0xFF =? 0xFF) with true. cbv iota.
  apply IH. rewrite count_RW_cons_RW. lia.
Qed.

Lemma Sectors_wait_silent script N : forall fuel h,
  (length script <= count_RW h)%nat ->
  Sectors_wait (sim script 0xFF N) fuel h = None.
Proof.
  induction fuel as [|f IH]; intros h H; [reflexivity|].
  cbn [Sectors_wait].
  rewrite (T_bind_eq _ _ _ _ _ (SPI_RW_idle script 0xFF N h 0xFF H)).
  change (BYTE 0xFF =? 0xFF) with true. cbv iota.
  apply IH. rewrite count_RW_cons_RW. lia.
Qed.

Lemma Write_busy_loop_busy script N : forall fuel h,
  (length script <= count_RW h)%nat ->
  Project_2B.Write_busy_loop (sim script 0x00 N) fuel h = None.
Proof.
  induction fuel as [|f IH]; intros h H; [reflexivity|].
  cbn [Project_2B.Write_busy_loop].
  rewrite (T_bind_eq _ _ _ _ _ (SPI_RW_idle script 0x00 N h 0xFF H)).
  change (BYTE 0x00 =? 0) with true. cbv iota.
  apply IH. rewrite count_RW_cons_RW. lia.
Qed.

(** The data loop of the blocking write either runs out of fuel or sends
    the bytes of the source buffer from [idx] on. *)
Lemma Write_data_loop_2B tp dat : forall k fuel idx h,
  0 <= idx -> idx + Z.of_nat k = 512 ->
  Project_2B.Write_data_loop tp fuel idx dat h = None \/
  Project_2B.Write_data_loop tp fuel idx dat h =
    Some (tt, SPI_RW_out tp (map (fun i => nth i dat 0) (seq (Z.to_nat idx) k)) h).
Proof.
  induction k as [|k IH]; intros fuel idx h H0 Hk;
    (destruct fuel as [|f]; [left; reflexivity|]);
    cbn [Project_2B.Write_data_loop].
  - replace (idx =? SD_BLK_SIZE) with true
      by (symmetry; apply Z.eqb_eq; unfold SD_BLK_SIZE; lia).
    right. reflexivity.
  - replace (idx =? SD_BLK_SIZE) with false
      by (symmetry; apply Z.eqb_neq; unfold SD_BLK_SIZE; lia).
    cbn [negb]. unfold bind at 1, SPI_RW at 1. cbv zeta.
    rewrite WORD_small by lia.
    cbn [seq map SPI_RW_out].
    replace (S (Z.to_nat idx)) with (Z.to_nat (idx + 1)) by lia.
    apply IH; lia.
Qed.

Lemma Write_data_loop_2B_total tp dat fuel h :
  (512 < fuel)%nat ->
  Project_2B.Write_data_loop tp fuel 0 dat h =
    Some (tt, SPI_RW_out tp (source_bytes dat) h).
Proof.
  intros Hf. unfold source_bytes.
  assert (G : forall k f idx h, 0 <= idx -> idx + Z.of_nat k = 512 -> (k < f)%nat ->
    Project_2B.Write_data_loop tp f idx dat h =
      Some (tt, SPI_RW_out tp (map (fun i => nth i dat 0) (seq (Z.to_nat idx) k)) h)).
  { induction k as [|k IH]; intros f idx h0 H0 Hk Hlt;
      (destruct f as [|f]; [lia|]); cbn [Project_2B.Write_data_loop].
    - replace (idx =? SD_BLK_SIZE) with true
        by (symmetry; apply Z.eqb_eq; unfold SD_BLK_SIZE; lia).
      reflexivity.
    - replace (idx =? SD_BLK_SIZE) with false
        by (symmetry; apply Z.eqb_neq; unfold SD_BLK_SIZE; lia).
      cbn [negb]. unfold bind at 1, SPI_RW at 1. cbv zeta.
      rewrite WORD_small by lia.
      cbn [seq map SPI_RW_out].
      replace (S (Z.to_nat idx)) with (Z.to_nat (idx + 1)) by lia.
      apply IH; lia. }
  apply (G 512%nat fuel 0 h); lia.
Qed.

(** C3 (evaluation at the failing inputs).  In the blocking build the wait
    for the data-start token and the wait for the end of programming are not
    bounded by the timer, and in both builds the wait before the capacity
    register is not: with a card that accepts the command and then never
    answers (or never leaves busy), no amount of polling makes [SD_Read],
    [SD_Write] or [__SD_Sectors] return. *)
Theorem SD_2B_wait_unbounded :
  (forall fuel,
     Project_2B.SD_Read card_silent cfg0 fuel dev0 buf512 5 0 512 [] = None) /\
  (forall fuel,
     Project_2B.SD_Write card_busy cfg0 fuel dev0 buf512 5 [] = None) /\
  (forall fuel, __SD_Sectors card_silent fuel dev0 [] = None).
Proof.
  split; [|split]; intros fuel.
  - destruct fuel as [|[|f]]; [reflexivity|reflexivity|].
    unfold Project_2B.SD_Read.
    change ((last_sector dev0 <? 5) || (512 =? 0)) with false. cbv iota.
    match goal with |- bind ?m _ _ = _ =>
      let v := eval vm_compute in (m []) in
      assert (E : m [] = v) by (vm_compute; reflexivity)
    end.
    rewrite (T_bind_eq _ _ _ _ _ E).
    change (0 =? 0) with true. cbv iota.
    unfold bind at 1. rewrite T_bind_None; [reflexivity|].
    apply Read_token_loop_silent. apply Nat.leb_le. vm_compute. reflexivity.
  - destruct fuel as [|[|f]]; [reflexivity|reflexivity|].
    unfold Project_2B.SD_Write.
    change (last_sector dev0 <? 5) with false. cbv iota.
    match goal with |- bind ?m _ _ = _ =>
      let v := eval vm_compute in (m []) in
      assert (E : m [] = v) by (vm_compute; reflexivity)
    end.
    rewrite (T_bind_eq _ _ _ _ _ E); cbv beta. clear E.
    change (0 =? 0) with true. cbv iota.
    rewrite (T_bind_eq _ _ _ _ _ (SPI_RW_eq _ _ _)); cbv beta.
    match goal with |- bind (Project_2B.Write_data_loop _ _ _ _) _ ?hh = _ =>
      destruct (Write_data_loop_2B card_busy buf512 512 (S (S f)) 0 hh
                  ltac:(lia) ltac:(lia)) as [E | E]
    end.
    { rewrite (T_bind_None _ _ _ E). reflexivity. }
    rewrite (T_bind_eq _ _ _ _ _ E); cbv beta. clear E.
    match goal with |- context [SPI_RW_out ?a ?b ?c] =>
      let v := eval vm_compute in (SPI_RW_out a b c) in
      replace (SPI_RW_out a b c) with v by (vm_compute; reflexivity)
    end.
    rewrite (T_bind_eq _ _ _ _ _ (SPI_RW_eq _ _ _)); cbv beta.
    rewrite (T_bind_eq _ _ _ _ _ (SPI_RW_eq _ _ _)); cbv beta.
    rewrite (T_bind_eq _ _ _ _ _ (SPI_RW_eq _ _ _)); cbv beta.
    match goal with |- context [Z.land ?x 31] =>
      replace x with 5 by (vm_compute; reflexivity)
    end.
    change (negb (Z.land 5 31 =? 5)) with false. cbv iota.
    apply T_bind_None.
    apply Write_busy_loop_busy. apply Nat.leb_le. vm_compute. reflexivity.
  - destruct fuel as [|[|f]]; [reflexivity|reflexivity|].
    unfold __SD_Sectors.
    match goal with |- bind ?m _ _ = _ =>
      let v := eval vm_compute in (m []) in
      assert (E : m [] = v) by (vm_compute; reflexivity)
    end.
    rewrite (T_bind_eq _ _ _ _ _ E).
    change (0 =? 0) with true. cbv iota.
    rewrite T_bind_None; [reflexivity|].
    apply Sectors_wait_silent. apply Nat.leb_le. vm_compute. reflexivity.
Qed.

(** ** The data phase of a block write *)

Lemma SPI_RW_out_app tp a b : forall h,
  SPI_RW_out tp (a ++ b) h = SPI_RW_out tp b (SPI_RW_out tp a h).
Proof.
  induction a as [|x a IH]; intros h; cbn [app SPI_RW_out]; [reflexivity|].
  apply IH.
Qed.

(** State-machine build: from S3 with [512 - k] bytes sent, the operation
    sends the remaining [k] bytes and the two CRC bytes and reads the
    data-response token.  If the token is a rejection the operation completes
    with [SD_REJECT] right there; otherwise it goes on from S4. *)
Lemma SD_Write_op_S3_2A tp cfg fuel dev dat sector : forall k calls st h,
  Project_2A_Base.n_state st = S3 ->
  0 <= Project_2A_Base.Write_idx st ->
  Project_2A_Base.Write_idx st + Z.of_nat k = 512 ->
  (k + 1 <= calls)%nat ->
  let hb :=
    SPI_RW_out tp
      (map (fun i => nth i dat 0) (seq (Z.to_nat (Project_2A_Base.Write_idx st)) k)
       ++ [0xFF; 0xFF]) h in
  let resp := BYTE (card_reply tp hb 0xFF) in
  Project_2A_Base.SD_Write_op tp cfg calls fuel dev dat sector st h =
    if negb (Z.land resp 0x1F =? 0x05) then
      Some ((SD_REJECT, dev,
             Project_2A_Base.mkWriteSt S1 0 512 (Project_2A_Base.Write_line st)),
            EvRW 0xFF resp :: hb)
    else
      Project_2A_Base.SD_Write_op tp cfg (calls - (k + 1)) fuel dev dat sector
        (Project_2A_Base.mkWriteSt S4 1 512 (Project_2A_Base.Write_line st))
        (EvRW 0xFF resp :: hb).
Proof.
  induction k as [|k IH]; intros calls st h Hs H0 Hk Hc;
    destruct st as [ns status idx line]; cbn in Hs, H0, Hk; subst ns;
    (destruct calls as [|c]; [lia|]);
    cbn [Project_2A_Base.Write_idx Project_2A_Base.Write_line];
    cbn [Project_2A_Base.SD_Write_op Project_2A_Base.SD_Write
         Project_2A_Base.n_state Project_2A_Base.Write_idx
         Project_2A_Base.Write_line].
  - replace (idx =? SD_BLK_SIZE) with true
      by (symmetry; apply Z.eqb_eq; unfold SD_BLK_SIZE; lia).
    cbn [negb seq map app SPI_RW_out].
    assert (idx = 512) as -> by lia.
    do 3 step_RW.
    destruct (negb (Z.land _ 31 =? 5)); rewrite T_bind_ret;
      cbn [Z.eqb Pos.eqb Project_2A_Base.idle_busy_status].
    + reflexivity.
    + replace (S c - (0 + 1))%nat with c by lia. reflexivity.
  - replace (idx =? SD_BLK_SIZE) with false
      by (symmetry; apply Z.eqb_neq; unfold SD_BLK_SIZE; lia).
    cbn [negb].
    step_RW. rewrite T_bind_ret.
    cbn [Project_2A_Base.idle_busy_status Z.eqb Pos.eqb].
    rewrite WORD_small by lia.
    rewrite IH; cbn [Project_2A_Base.n_state Project_2A_Base.Write_idx
                     Project_2A_Base.Write_line]; try lia; try reflexivity.
    cbn [seq map app SPI_RW_out].
    replace (Z.to_nat (idx + 1)) with (S (Z.to_nat idx)) by lia.
    replace (S c - (S k + 1))%nat with (c - (k + 1))%nat by lia.
    reflexivity.
Qed.

Lemma released_SPI_RW_out tp outs : forall h,
  released (SPI_RW_out tp outs h) = released h.
Proof.
  induction outs as [|o os IH]; intros h; cbn [SPI_RW_out]; [reflexivity|].
  rewrite IH. reflexivity.
Qed.

Lemma Send_Cmd_response_released tp : forall fuel h r h1,
  Send_Cmd_response tp fuel h = Some (r, h1) -> released h1 = released h.
Proof.
  induction fuel as [|f IH]; intros h r h1 H; [discriminate|].
  cbn [Send_Cmd_response] in H. revert H. step_RW.
  destruct (negb (Z.land _ 128 =? 0)).
  - unfold bind, SPI_Timer_Status. cbv zeta.
    destruct (timer_running tp _).
    + intros H. apply IH in H. rewrite H. reflexivity.
    + intros H. injection H as <- <-. reflexivity.
  - intros H. injection H as <- <-. reflexivity.
Qed.

Lemma Send_Cmd_frame_released tp fuel cmd arg h r h1 :
  Send_Cmd_frame tp fuel cmd arg h = Some (r, h1) -> released h1 = released h.
Proof.
  unfold Send_Cmd_frame, __SD_Deassert, __SD_Assert, SPI_CS_High, SPI_CS_Low,
    SPI_Timer_On, SPI_Timer_Off.
  intros H.
  repeat match goal with
  | H : bind (emit _) _ _ = Some _ |- _ =>
      let E := fresh "E" in
      apply T_bind_Some in H as (? & ? & E & H);
      unfold emit in E; injection E as <- <-
  | H : bind (SPI_RW _ _) _ _ = Some _ |- _ =>
      let E := fresh "E" in
      apply T_bind_Some in H as (? & ? & E & H);
      rewrite SPI_RW_eq in E; injection E as <- <-
  | H : context [let _ := _ in _] |- _ => cbv zeta in H
  end.
  apply T_bind_Some in H as (r' & h' & E & H).
  apply Send_Cmd_response_released in E.
  apply T_bind_Some in H as (? & ? & E' & H).
  unfold emit in E'; injection E' as <- <-.
  injection H as <- <-. unfold released in *. cbn [existsb orb] in *. exact E.
Qed.

(** Sending a command never releases the bus. *)
Lemma Send_Cmd_released tp : forall fuel cmd arg h r h1,
  __SD_Send_Cmd tp fuel cmd arg h = Some (r, h1) -> released h1 = released h.
Proof.
  induction fuel as [|f IH]; intros cmd arg h r h1 H; [discriminate|].
  cbn [__SD_Send_Cmd] in H.
  destruct (negb (Z.land cmd 128 =? 0)).
  - apply T_bind_Some in H as (r' & h' & E & H). apply IH in E.
    destruct (1 <? r').
    + injection H as <- <-. exact E.
    + apply Send_Cmd_frame_released in H. congruence.
  - apply Send_Cmd_frame_released in H. exact H.
Qed.

Lemma chip_selected_SPI_RW_out tp outs : forall h,
  chip_selected (SPI_RW_out tp outs h) = chip_selected h.
Proof.
  induction outs as [|o os IH]; intros h; cbn [SPI_RW_out]; [reflexivity|].
  rewrite IH. reflexivity.
Qed.

Lemma Send_Cmd_response_selected tp : forall fuel h r h1,
  Send_Cmd_response tp fuel h = Some (r, h1) ->
  chip_selected h1 = chip_selected h.
Proof.
  induction fuel as [|f IH]; intros h r h1 H; [discriminate|].
  cbn [Send_Cmd_response] in H. revert H. step_RW.
  destruct (negb (Z.land _ 128 =? 0)).
  - rewrite (T_bind_eq _ _ _ _ _ (SPI_Timer_Status_eq _ _)); cbv beta.
    destruct (timer_running tp _).
    + intros H. apply IH in H. rewrite H. reflexivity.
    + intros H. injection H as <- <-. reflexivity.
  - intros H. injection H as <- <-. reflexivity.
Qed.

(** A command frame leaves the card selected. *)
Lemma Send_Cmd_frame_selected tp fuel cmd arg h r h1 :
  Send_Cmd_frame tp fuel cmd arg h = Some (r, h1) -> chip_selected h1 = true.
Proof.
  unfold Send_Cmd_frame, __SD_Deassert, __SD_Assert, SPI_CS_High, SPI_CS_Low,
    SPI_Timer_On, SPI_Timer_Off.
  cbv zeta.
  repeat first
    [ rewrite (T_bind_eq _ _ _ _ _ (eq_refl : emit _ _ = Some (tt, _))); cbv beta
    | rewrite (T_bind_eq _ _ _ _ _ (SPI_RW_eq _ _ _)); cbv beta ].
  intros H. apply T_bind_Some in H as (r1 & h2 & E & H).
  apply Send_Cmd_response_selected in E.
  revert H.
  rewrite (T_bind_eq _ _ _ _ _ (eq_refl : emit _ _ = Some (tt, _))); cbv beta.
  intros H. injection H as <- <-. cbn [chip_selected] in *. exact E.
Qed.

Lemma Send_Cmd_CMD24_selected tp fuel arg h r h1 :
  __SD_Send_Cmd tp fuel CMD24 arg h = Some (r, h1) -> chip_selected h1 = true.
Proof.
  destruct fuel as [|f]; [discriminate|]. cbn [__SD_Send_Cmd].
  change (negb (Z.land CMD24 128 =? 0)) with false. cbv iota.
  apply Send_Cmd_frame_selected.
Qed.

Lemma Write_block_sent_eq tp dat h :
  Write_block_sent tp dat h =
    SPI_RW_out tp [0xFF; 0xFF]
      (SPI_RW_out tp (source_bytes dat)
         (EvRW 0xFE (BYTE (card_reply tp h 0xFE)) :: h)).
Proof.
  unfold Write_block_sent. rewrite !SPI_RW_out_app. reflexivity.
Qed.

Lemma SD_Write_2B_reject tp cfg fuel dev dat sector h h1 :
  sector <= last_sector dev -> (512 < fuel)%nat ->
  __SD_Send_Cmd tp fuel CMD24 sector h = Some (0, h1) ->
  Z.land (data_response tp dat h1) 0x1F <> 0x05 ->
  Project_2B.SD_Write tp cfg fuel dev dat sector h =
    Some ((SD_REJECT, dev),
          EvRW 0xFF (data_response tp dat h1) :: Write_block_sent tp dat h1).
Proof.
  intros Hs Hf E Hr. unfold Project_2B.SD_Write.
  replace (last_sector dev <? sector) with false by (symmetry; apply Z.ltb_ge; lia).
  rewrite (T_bind_eq _ _ _ _ _ E); cbv beta. cbn [Z.eqb].
  step_RW.
  rewrite (T_bind_eq _ _ _ _ _ (Write_data_loop_2B_total tp dat fuel _ Hf)); cbv beta.
  do 3 step_RW.
  unfold data_response in *. rewrite Write_block_sent_eq in *.
  cbn [SPI_RW_out] in *.
  apply Z.eqb_neq in Hr. rewrite Hr. reflexivity.
Qed.

Lemma SD_Write_op_2A_reject tp cfg fuel dev dat sector calls st h h1 :
  sector <= last_sector dev ->
  __SD_Send_Cmd tp fuel CMD24 sector h = Some (0, h1) ->
  Z.land (data_response tp dat h1) 0x1F <> 0x05 ->
  Project_2A_Base.n_state st = S1 -> (515 <= calls)%nat ->
  exists st',
    Project_2A_Base.SD_Write_op tp cfg calls fuel dev dat sector st h =
      Some ((SD_REJECT, dev, st'),
            EvRW 0xFF (data_response tp dat h1) :: Write_block_sent tp dat h1) /\
    Project_2A_Base.n_state st' = S1 /\
    Project_2A_Base.idle_busy_status st' = 0.
Proof.
  intros Hs E Hr Hn Hc.
  destruct st as [ns status idx line]; cbn in Hn; subst ns.
  destruct calls as [|[|c]]; [lia|lia|].
  cbn [Project_2A_Base.SD_Write_op Project_2A_Base.SD_Write
       Project_2A_Base.n_state Project_2A_Base.Write_idx
       Project_2A_Base.Write_line].
  replace (last_sector dev <? sector) with false by (symmetry; apply Z.ltb_ge; lia).
  rewrite T_bind_ret. cbn [Project_2A_Base.idle_busy_status Z.eqb Pos.eqb].
  cbn [Project_2A_Base.SD_Write_op Project_2A_Base.SD_Write
       Project_2A_Base.n_state Project_2A_Base.Write_idx
       Project_2A_Base.Write_line].
  rewrite T_bind_assoc.
  rewrite (T_bind_eq _ _ _ _ _ E); cbv beta. cbn [Z.eqb].
  step_RW. rewrite T_bind_ret.
  cbn [Project_2A_Base.idle_busy_status Z.eqb Pos.eqb].
  rewrite (SD_Write_op_S3_2A tp cfg fuel dev dat sector 512 c);
    cbn [Project_2A_Base.n_state Project_2A_Base.Write_idx
         Project_2A_Base.Write_line]; try lia; try reflexivity.
  unfold data_response in *. rewrite Write_block_sent_eq in *.
  change (Z.to_nat 0) with 0%nat. fold (source_bytes dat).
  rewrite SPI_RW_out_app.
  apply Z.eqb_neq in Hr. rewrite Hr. cbn [negb].
  eexists. split; [reflexivity|]. split; reflexivity.
Qed.

(** C4 (amended).  A write whose command is accepted and whose data-response
    token has low five bits other than 0b00101 completes with [SD_REJECT]
    right after reading that token: the last transport call is the exchange
    that read the token, so no busy-line byte is exchanged; the device
    descriptor is unchanged; and [SPI_Release] is not called by the write.
    Both builds. *)
Theorem SD_Write_reject tp cfg fuel dev dat sector h h1 :
  sector <= last_sector dev -> (512 < fuel)%nat ->
  __SD_Send_Cmd tp fuel CMD24 sector h = Some (0, h1) ->
  Z.land (data_response tp dat h1) 0x1F <> 0x05 ->
  let h' := EvRW 0xFF (data_response tp dat h1) :: Write_block_sent tp dat h1 in
  Project_2B.SD_Write tp cfg fuel dev dat sector h = Some ((SD_REJECT, dev), h') /\
  (forall calls st,
     Project_2A_Base.n_state st = S1 -> (515 <= calls)%nat ->
     exists st',
       Project_2A_Base.SD_Write_op tp cfg calls fuel dev dat sector st h =
         Some ((SD_REJECT, dev, st'), h') /\
       Project_2A_Base.n_state st' = S1 /\
       Project_2A_Base.idle_busy_status st' = 0) /\
  released h' = released h /\
  chip_selected h' = true.
Proof.
  intros Hs Hf E Hr h'. split; [|split; [|split]].
  - apply SD_Write_2B_reject; assumption.
  - intros calls st Hn Hc. apply SD_Write_op_2A_reject; assumption.
  - subst h'. unfold Write_block_sent. cbn [released existsb orb].
    fold (released (SPI_RW_out tp ([254] ++ source_bytes dat ++ [255; 255]) h1)).
    rewrite released_SPI_RW_out. eapply Send_Cmd_released. exact E.
  - subst h'. unfold Write_block_sent. cbn [chip_selected].
    rewrite chip_selected_SPI_RW_out. eapply Send_Cmd_CMD24_selected. exact E.
Qed.

Lemma SD_Write_reject_witness :
  exists h',
    Project_2B.SD_Write card_crc_error cfg0 600 dev0 buf512 5 [] =
      Some ((SD_REJECT, dev0), h') /\
    released h' = false.
Proof.
  eexists.
  destruct (SD_Write_reject card_crc_error cfg0 600 dev0 buf512 5 [])
    with (h1 := match __SD_Send_Cmd card_crc_error 600 CMD24 5 [] with
                | Some (_, h1) => h1
                | None => []
                end) as (H2B & _ & Hrel);
    [cbn; lia | lia | vm_compute; reflexivity | vm_compute; discriminate |].
  split; [exact H2B | exact (proj1 Hrel)].
Defined.

(** C4 (counterexample).  The write of a block that the card rejects with a
    CRC-error token returns [SD_REJECT] without having released the bus
    ([SPI_Release] was not called and the card is still selected), in the
    blocking build and in the state-machine build. *)
Lemma SD_Write_reject_not_released :
  (exists h',
     Project_2B.SD_Write card_crc_error cfg0 600 dev0 buf512 5 [] =
       Some ((SD_REJECT, dev0), h') /\
     released h' = false /\ chip_selected h' = true) /\
  (exists st' h',
     Project_2A_Base.SD_Write_op card_crc_error cfg0 600 600 dev0 buf512 5
       Project_2A_Base.WriteSt_boot [] = Some ((SD_REJECT, dev0, st'), h') /\
     released h' = false /\ chip_selected h' = true).
Proof.
  split.
  - eexists. split; [vm_compute; reflexivity|].
    split; vm_compute; reflexivity.
  - do 2 eexists. split; [vm_compute; reflexivity|].
    split; vm_compute; reflexivity.
Qed.

(** ** The busy wait of a block write *)

(** State-machine build: the busy wait (S5, S6) counts the write once and
    completes with [SD_BUSY] only after the timer has answered that it is no
    longer running while the line still read 0, and with [SD_OK] when the
    last byte read from the line is not 0. *)
Lemma SD_Write_op_S5_2A tp cfg fuel dev dat sector : forall calls st h r dev' st' h',
  Project_2A_Base.n_state st = S5 ->
  Project_2A_Base.SD_Write_op tp cfg calls fuel dev dat sector st h =
    Some ((r, dev', st'), h') ->
  dev' = set_debug_write (debug_incr cfg (debug_write dev)) dev /\
  Project_2A_Base.n_state st' = S1 /\
  ((r = SD_BUSY /\ Project_2A_Base.Write_line st' = 0 /\
    exists h0, h' = EvTimerOff :: EvTimerStatus false :: h0) \/
   (r = SD_OK /\ Project_2A_Base.Write_line st' <> 0)).
Proof.
  induction calls as [|c IH]; intros st h r dev' st' h' Hs H; [discriminate|].
  destruct st as [ns status idx line]; cbn in Hs; subst ns.
  cbn [Project_2A_Base.SD_Write_op Project_2A_Base.SD_Write
       Project_2A_Base.n_state Project_2A_Base.Write_idx
       Project_2A_Base.Write_line] in H.
  unfold Project_2A_Base.and_then in H.
  destruct (line =? 0) eqn:El.
  - rewrite !T_bind_assoc in H.
    apply T_bind_Some in H as (running & h1 & E & H).
    unfold SPI_Timer_Status in E. cbv zeta in E. injection E as <- <-.
    destruct (timer_running tp h); cbv beta iota in H.
    + revert H. step_RW. rewrite T_bind_ret.
      cbn [Project_2A_Base.idle_busy_status Z.eqb Pos.eqb].
      intros H. apply IH in H; [exact H | reflexivity].
    + revert H. unfold SPI_Timer_Off. rewrite ?T_bind_assoc.
      rewrite (T_bind_eq _ _ _ _ _ (eq_refl : emit EvTimerOff _ = Some (tt, _)));
        cbv beta.
      rewrite T_bind_ret.
      cbn [Project_2A_Base.idle_busy_status Z.eqb Pos.eqb].
      destruct c as [|c']; [discriminate|].
      cbn [Project_2A_Base.SD_Write_op Project_2A_Base.SD_Write
           Project_2A_Base.n_state Project_2A_Base.Write_idx
           Project_2A_Base.Write_line].
      rewrite El. rewrite T_bind_ret.
      cbn [Project_2A_Base.idle_busy_status Z.eqb Pos.eqb].
      intros H. injection H as <- <- <- <-.
      apply Z.eqb_eq in El. subst line.
      split; [reflexivity|]. split; [reflexivity|]. left. eauto.
  - cbv beta iota in H. revert H. rewrite T_bind_assoc, T_bind_ret.
    cbv beta iota. unfold SPI_Timer_Off.
    rewrite ?T_bind_assoc.
    rewrite (T_bind_eq _ _ _ _ _ (eq_refl : emit EvTimerOff _ = Some (tt, _)));
      cbv beta.
    rewrite T_bind_ret.
    cbn [Project_2A_Base.idle_busy_status Z.eqb Pos.eqb].
    destruct c as [|c']; [discriminate|].
    cbn [Project_2A_Base.SD_Write_op Project_2A_Base.SD_Write
         Project_2A_Base.n_state Project_2A_Base.Write_idx
         Project_2A_Base.Write_line].
    rewrite El. rewrite T_bind_ret.
    cbn [Project_2A_Base.idle_busy_status Z.eqb Pos.eqb].
    intros H. injection H as <- <- <- <-.
    apply Z.eqb_neq in El.
    split; [reflexivity|]. split; [reflexivity|]. right. auto.
Qed.

Lemma Write_busy_loop_nonzero tp : forall fuel h line h1,
  Project_2B.Write_busy_loop tp fuel h = Some (line, h1) -> line <> 0.
Proof.
  induction fuel as [|f IH]; intros h line h1 E; [discriminate|].
  cbn [Project_2B.Write_busy_loop] in E. revert E. step_RW.
  destruct (_ =? 0) eqn:Z0.
  - apply IH.
  - intros E. injection E as <- <-. apply Z.eqb_neq in Z0. exact Z0.
Qed.

(** Blocking build: whatever the card and the timer do, a write that
    returns never returns [SD_BUSY]. *)
Lemma SD_Write_2B_never_BUSY tp cfg fuel dev dat sector h r dev' h' :
  Project_2B.SD_Write tp cfg fuel dev dat sector h = Some ((r, dev'), h') ->
  r <> SD_BUSY.
Proof.
  unfold Project_2B.SD_Write. intros H.
  destruct (last_sector dev <? sector); [injection H as <- <- <-; discriminate|].
  apply T_bind_Some in H as (r0 & h0 & _ & H).
  destruct (r0 =? 0); [|injection H as <- <- <-; discriminate].
  do 5 (apply T_bind_Some in H as (? & ? & _ & H)).
  destruct (negb _); [injection H as <- <- <-; discriminate|].
  apply T_bind_Some in H as (line & h1 & E & H).
  apply Write_busy_loop_nonzero in E.
  apply Z.eqb_neq in E. rewrite E in H.
  injection H as <- <- <-. discriminate.
Qed.

(** C5 (evaluation at the failing input).  Blocking build: with a card that
    accepts the block and then holds the busy line at 0, the write polls for
    ever, however long the timer is set to run; it does not return
    [SD_BUSY]. *)
Theorem SD_Write_2B_busy_unbounded :
  forall N fuel,
    Project_2B.SD_Write (sim (frame 0 ++ repeat 0xFF 515 ++ [0x05]) 0x00 N)
      cfg0 fuel dev0 buf512 5 [] = None.
Proof.
  intros N fuel.
  destruct fuel as [|[|f]]; [reflexivity|reflexivity|].
  unfold Project_2B.SD_Write.
  change (last_sector dev0 <? 5) with false. cbv iota.
  match goal with |- bind ?m _ _ = _ =>
    let v := eval vm_compute in (m []) in
    assert (E : m [] = v) by (vm_compute; reflexivity)
  end.
  rewrite (T_bind_eq _ _ _ _ _ E); cbv beta. clear E.
  change (0 =? 0) with true. cbv iota.
  step_RW.
  match goal with |- bind (Project_2B.Write_data_loop ?t _ _ _) _ ?hh = _ =>
    destruct (Write_data_loop_2B t buf512 512 (S (S f)) 0 hh
                ltac:(lia) ltac:(lia)) as [E | E]
  end.
  { rewrite (T_bind_None _ _ _ E). reflexivity. }
  rewrite (T_bind_eq _ _ _ _ _ E); cbv beta. clear E.
  match goal with |- context [SPI_RW_out ?a ?b ?c] =>
    let v := eval vm_compute in (SPI_RW_out a b c) in
    replace (SPI_RW_out a b c) with v by (vm_compute; reflexivity)
  end.
  do 3 step_RW.
  match goal with |- context [Z.land ?x 31] =>
    replace x with 5 by (vm_compute; reflexivity)
  end.
  change (negb (Z.land 5 31 =? 5)) with false. cbv iota.
  apply T_bind_None.
  apply Write_busy_loop_busy. apply Nat.leb_le. vm_compute. reflexivity.
Qed.

(** ** The transaction dispatcher *)

Lemma Task_SD_Server_accept tp cfg fuel s h :
  next_state s = S_IDLE ->
  Request (g_trans s) = REQ_INIT \/ Request (g_trans s) = REQ_READ \/
  Request (g_trans s) = REQ_WRITE ->
  exists s',
    Task_SD_Server tp cfg fuel s h = Some (s', h) /\
    cur_trans s' = g_trans s /\
    g_trans s' = mkTrans (Request (g_trans s)) (Device (g_trans s))
                   (Data (g_trans s)) (Sector (g_trans s)) STAT_BUSY
                   (ErrorCode (g_trans s)) /\
    next_state s' = nth (Request (g_trans s)) Req_to_State S_IDLE /\
    in_operation (next_state s').
Proof.
  intros Hs Hr. unfold Task_SD_Server. rewrite Hs.
  destruct Hr as [Hr | [Hr | Hr]]; rewrite Hr; cbn;
    (eexists; split; [reflexivity|]); cbn; unfold in_operation;
    repeat split; auto.
Qed.

Lemma Task_SD_Server_step tp cfg fuel s h s' h' :
  in_operation (next_state s) ->
  Task_SD_Server tp cfg fuel s h = Some (s', h') ->
  cur_trans s' = cur_trans s /\
  exists flag,
    machine_call tp cfg fuel s h = Some (res s', flag) /\
    ((flag = 1 /\ next_state s' = next_state s /\ g_trans s' = g_trans s) \/
     (flag <> 1 /\ next_state s' = S_IDLE /\
      g_trans s' = Update_Trans (g_trans s) (res s'))).
Proof.
  unfold in_operation, Task_SD_Server, machine_call.
  intros [E | [E | E]]; rewrite E; intros H;
    apply T_bind_Some in H as (a & h1 & Ea & H); rewrite Ea.
  - destruct a as [[r dev] ist]. unfold ret in H.
    destruct (Project_2A_Base.in_status ist =? 1) eqn:F;
      injection H as <- <-; cbn; (split; [reflexivity|]);
      eexists; (split; [reflexivity|]).
    + apply Z.eqb_eq in F. left. auto.
    + apply Z.eqb_neq in F. right. auto.
  - destruct a as [[[r dev] buf] rst]. unfold ret in H.
    destruct (Project_2A_Base.read_status rst =? 1) eqn:F;
      injection H as <- <-; cbn; (split; [reflexivity|]);
      eexists; (split; [reflexivity|]).
    + apply Z.eqb_eq in F. left. auto.
    + apply Z.eqb_neq in F. right. auto.
  - destruct a as [[r dev] wst]. unfold ret in H.
    destruct (Project_2A_Base.idle_busy_status wst =? 1) eqn:F;
      injection H as <- <-; cbn; (split; [reflexivity|]);
      eexists; (split; [reflexivity|]).
    + apply Z.eqb_eq in F. left. auto.
    + apply Z.eqb_neq in F. right. auto.
Qed.

Lemma Task_SD_Server_idle tp cfg fuel s h :
  next_state s = S_IDLE -> Request (g_trans s) = REQ_NONE ->
  Task_SD_Server tp cfg fuel s h = Some (s, h).
Proof.
  intros Hs Hr. unfold Task_SD_Server. rewrite Hs, Hr. reflexivity.
Qed.

Lemma Task_SD_Server_n_idle tp cfg fuel : forall n s h,
  next_state s = S_IDLE -> Request (g_trans s) = REQ_NONE ->
  Task_SD_Server_n tp cfg fuel n s h = Some (s, h).
Proof.
  induction n as [|n IH]; intros s h Hs Hr; [reflexivity|].
  cbn [Task_SD_Server_n].
  rewrite (T_bind_eq _ _ _ _ _ (Task_SD_Server_idle tp cfg fuel s h Hs Hr)).
  apply IH; assumption.
Qed.

Lemma Task_SD_Server_n_busy tp cfg fuel : forall n s h s' h',
  in_operation (next_state s) ->
  Task_SD_Server_n tp cfg fuel n s h = Some (s', h') ->
  (next_state s' = next_state s /\ g_trans s' = g_trans s /\
   cur_trans s' = cur_trans s) \/
  (next_state s' = S_IDLE /\
   exists r, g_trans s' = Update_Trans (g_trans s) r).
Proof.
  induction n as [|n IH]; intros s h s' h' Hop H.
  - injection H as <- <-. left. auto.
  - cbn [Task_SD_Server_n] in H.
    apply T_bind_Some in H as (s1 & h1 & E & H).
    destruct (Task_SD_Server_step _ _ _ _ _ _ _ Hop E)
      as (Hc & flag & _ & [(_ & Hn & Hg) | (_ & Hn & Hg)]).
    + rewrite <- Hn in Hop. apply IH in H; [|exact Hop].
      rewrite Hn, Hg, Hc in H. exact H.
    + rewrite (Task_SD_Server_n_idle tp cfg fuel n s1 h1 Hn
                 ltac:(rewrite Hg; reflexivity)) in H.
      injection H as <- <-. right. split; [exact Hn|]. eauto.
Qed.

(** The accepting activation, in full: only the dispatcher's state, the
    snapshot and the status of the shared descriptor change. *)
Lemma Task_SD_Server_accept_eq tp cfg fuel s h :
  next_state s = S_IDLE ->
  Request (g_trans s) = REQ_INIT \/ Request (g_trans s) = REQ_READ \/
  Request (g_trans s) = REQ_WRITE ->
  Task_SD_Server tp cfg fuel s h =
    Some (mkServer (nth (Request (g_trans s)) Req_to_State S_IDLE)
            (g_trans s) (res s)
            (mkTrans (Request (g_trans s)) (Device (g_trans s))
               (Data (g_trans s)) (Sector (g_trans s)) STAT_BUSY
               (ErrorCode (g_trans s)))
            (sd_dev s) (sd_buf s) (init_st s) (read_st s) (write_st s), h).
Proof.
  intros Hs Hr. unfold Task_SD_Server. rewrite Hs.
  destruct Hr as [Hr | [Hr | Hr]]; rewrite Hr; reflexivity.
Qed.

(** One activation inside an operation, machine by machine: the dispatcher
    makes the call, keeps what the call returns, and by the flag either
    stays or completes the transaction. *)
Lemma Task_SD_Server_init_step tp cfg fuel s h r dev ist h' :
  next_state s = S_INIT ->
  Project_2A_Base.SD_Init tp cfg fuel (sd_dev s) (init_st s) h =
    Some ((r, dev, ist), h') ->
  Task_SD_Server tp cfg fuel s h =
    Some (mkServer
            (if Project_2A_Base.in_status ist =? 1 then S_INIT else S_IDLE)
            (cur_trans s) r
            (if Project_2A_Base.in_status ist =? 1 then g_trans s
             else Update_Trans (g_trans s) r)
            dev (sd_buf s) ist (read_st s) (write_st s), h').
Proof.
  intros Hs E. unfold Task_SD_Server. rewrite Hs.
  rewrite (T_bind_eq _ _ _ _ _ E); cbv beta iota.
  destruct (Project_2A_Base.in_status ist =? 1); reflexivity.
Qed.

Lemma Task_SD_Server_read_step tp cfg fuel s h r dev buf rst h' :
  next_state s = S_READ ->
  Project_2A_Base.SD_Read tp cfg fuel (sd_dev s) (sd_buf s)
    (Sector (cur_trans s)) 0 512 (read_st s) h =
    Some ((r, dev, buf, rst), h') ->
  Task_SD_Server tp cfg fuel s h =
    Some (mkServer
            (if Project_2A_Base.read_status rst =? 1 then S_READ else S_IDLE)
            (cur_trans s) r
            (if Project_2A_Base.read_status rst =? 1 then g_trans s
             else Update_Trans (g_trans s) r)
            dev buf (init_st s) rst (write_st s), h').
Proof.
  intros Hs E. unfold Task_SD_Server. rewrite Hs.
  rewrite (T_bind_eq _ _ _ _ _ E); cbv beta iota.
  destruct (Project_2A_Base.read_status rst =? 1); reflexivity.
Qed.

Lemma Task_SD_Server_write_step tp cfg fuel s h r dev wst h' :
  next_state s = S_WRITE ->
  Project_2A_Base.SD_Write tp cfg fuel (sd_dev s) (sd_buf s)
    (Sector (cur_trans s)) (write_st s) h =
    Some ((r, dev, wst), h') ->
  Task_SD_Server tp cfg fuel s h =
    Some (mkServer
            (if Project_2A_Base.idle_busy_status wst =? 1 then S_WRITE
             else S_IDLE)
            (cur_trans s) r
            (if Project_2A_Base.idle_busy_status wst =? 1 then g_trans s
             else Update_Trans (g_trans s) r)
            dev (sd_buf s) (init_st s) (read_st s) wst, h').
Proof.
  intros Hs E. unfold Task_SD_Server. rewrite Hs.
  rewrite (T_bind_eq _ _ _ _ _ E); cbv beta iota.
  destruct (Project_2A_Base.idle_busy_status wst =? 1); reflexivity.
Qed.

(** One activation inside an operation, in the vocabulary of
    [machine_call]: when the call returns, so does the activation, with the
    call's result in [res]; flag 1 keeps the state and the shared descriptor,
    any other flag completes the transaction. *)
Lemma Task_SD_Server_call tp cfg fuel s h r flag :
  in_operation (next_state s) ->
  machine_call tp cfg fuel s h = Some (r, flag) ->
  exists s' h',
    Task_SD_Server tp cfg fuel s h = Some (s', h') /\
    res s' = r /\ cur_trans s' = cur_trans s /\
    (flag = 1 -> next_state s' = next_state s /\ g_trans s' = g_trans s) /\
    (flag <> 1 ->
     next_state s' = S_IDLE /\
     g_trans s' = mkTrans REQ_NONE (Device (g_trans s)) (Data (g_trans s))
                    (Sector (g_trans s)) STAT_IDLE r).
Proof.
  unfold in_operation, machine_call. intros [Hs | [Hs | Hs]]; rewrite Hs.
  - destruct (Project_2A_Base.SD_Init tp cfg fuel (sd_dev s) (init_st s) h)
      as [[[[r1 dev] ist] h1]|] eqn:E; [|discriminate].
    intros H. injection H as -> <-.
    rewrite (Task_SD_Server_init_step _ _ _ _ _ _ _ _ _ Hs E).
    eexists _, _. split; [reflexivity|]. cbn [res cur_trans next_state g_trans].
    split; [reflexivity|]. split; [reflexivity|]. split.
    + intros ->. change (1 =? 1) with true. cbv iota. auto.
    + intros Hf. apply Z.eqb_neq in Hf. rewrite Hf. auto.
  - destruct (Project_2A_Base.SD_Read tp cfg fuel (sd_dev s) (sd_buf s)
                (Sector (cur_trans s)) 0 512 (read_st s) h)
      as [[[[[r1 dev] buf] rst] h1]|] eqn:E; [|discriminate].
    intros H. injection H as -> <-.
    rewrite (Task_SD_Server_read_step _ _ _ _ _ _ _ _ _ _ Hs E).
    eexists _, _. split; [reflexivity|]. cbn [res cur_trans next_state g_trans].
    split; [reflexivity|]. split; [reflexivity|]. split.
    + intros ->. change (1 =? 1) with true. cbv iota. auto.
    + intros Hf. apply Z.eqb_neq in Hf. rewrite Hf. auto.
  - destruct (Project_2A_Base.SD_Write tp cfg fuel (sd_dev s) (sd_buf s)
                (Sector (cur_trans s)) (write_st s) h)
      as [[[[r1 dev] wst] h1]|] eqn:E; [|discriminate].
    intros H. injection H as -> <-.
    rewrite (Task_SD_Server_write_step _ _ _ _ _ _ _ _ _ Hs E).
    eexists _, _. split; [reflexivity|]. cbn [res cur_trans next_state g_trans].
    split; [reflexivity|]. split; [reflexivity|]. split.
    + intros ->. change (1 =? 1) with true. cbv iota. auto.
    + intros Hf. apply Z.eqb_neq in Hf. rewrite Hf. auto.
Qed.

(** The activations of the dispatcher in [S_INIT] make the calls of one
    initialisation. *)
Lemma Task_SD_Server_n_init tp cfg fuel :
  forall calls s h r dev' st' h',
  next_state s = S_INIT ->
  Project_2A_Base.SD_Init_op tp cfg calls fuel (sd_dev s) (init_st s) h =
    Some ((r, dev', st'), h') ->
  exists n,
    (n <= calls)%nat /\
    Task_SD_Server_n tp cfg fuel n s h =
      Some (mkServer S_IDLE (cur_trans s) r (Update_Trans (g_trans s) r)
              dev' (sd_buf s) st' (read_st s) (write_st s), h').
Proof.
  induction calls as [|c IH]; intros s h r dev' st' h' Hs H; [discriminate|].
  cbn [Project_2A_Base.SD_Init_op] in H.
  apply T_bind_Some in H as ([[r1 dev1] st1] & h1 & E & H).
  pose proof (Task_SD_Server_init_step _ _ _ _ _ _ _ _ _ Hs E) as E1.
  destruct (Project_2A_Base.in_status st1 =? 1).
  - apply (IH (mkServer S_INIT (cur_trans s) r1 (g_trans s) dev1 (sd_buf s)
                 st1 (read_st s) (write_st s))) in H as (n & Hn & En);
      [|reflexivity].
    exists (S n). split; [lia|].
    cbn [Task_SD_Server_n]. rewrite (T_bind_eq _ _ _ _ _ E1); cbv beta.
    exact En.
  - injection H as <- <- <- <-. exists 1%nat. split; [lia|].
    cbn [Task_SD_Server_n]. rewrite (T_bind_eq _ _ _ _ _ E1); cbv beta.
    reflexivity.
Qed.


(** The activations of the dispatcher in [S_READ] make the calls of one read
    operation. *)
Lemma Task_SD_Server_n_read tp cfg fuel :
  forall calls s h r dev' dat' st' h',
  next_state s = S_READ ->
  Project_2A_Base.SD_Read_op tp cfg calls fuel (sd_dev s) (sd_buf s)
    (Sector (cur_trans s)) 0 512 (read_st s) h =
    Some ((r, dev', dat', st'), h') ->
  exists n,
    (n <= calls)%nat /\
    Task_SD_Server_n tp cfg fuel n s h =
      Some (mkServer S_IDLE (cur_trans s) r (Update_Trans (g_trans s) r)
              dev' dat' (init_st s) st' (write_st s), h').
Proof.
  induction calls as [|c IH]; intros s h r dev' dat' st' h' Hs H;
    [discriminate|].
  cbn [Project_2A_Base.SD_Read_op] in H.
  apply T_bind_Some in H as ([[[r1 dev1] dat1] st1] & h1 & E & H).
  assert (E1 : Task_SD_Server tp cfg fuel s h =
    Some (mkServer
            (if Project_2A_Base.read_status st1 =? 1 then S_READ else S_IDLE)
            (cur_trans s) r1
            (if Project_2A_Base.read_status st1 =? 1 then g_trans s
             else Update_Trans (g_trans s) r1)
            dev1 dat1 (init_st s) st1 (write_st s), h1)).
  { unfold Task_SD_Server. rewrite Hs.
    rewrite (T_bind_eq _ _ _ _ _ E); cbv beta iota.
    destruct (Project_2A_Base.read_status st1 =? 1); reflexivity. }
  destruct (Project_2A_Base.read_status st1 =? 1).
  - apply (IH (mkServer S_READ (cur_trans s) r1 (g_trans s) dev1 dat1
                 (init_st s) st1 (write_st s))) in H as (n & Hn & En);
      [|reflexivity].
    exists (S n). split; [lia|].
    cbn [Task_SD_Server_n]. rewrite (T_bind_eq _ _ _ _ _ E1); cbv beta.
    exact En.
  - injection H as <- <- <- <- <-. exists 1%nat. split; [lia|].
    cbn [Task_SD_Server_n]. rewrite (T_bind_eq _ _ _ _ _ E1); cbv beta.
    reflexivity.
Qed.

Lemma Task_SD_Server_n_write tp cfg fuel :
  forall calls s h r dev' st' h',
  next_state s = S_WRITE ->
  Project_2A_Base.SD_Write_op tp cfg calls fuel (sd_dev s) (sd_buf s)
    (Sector (cur_trans s)) (write_st s) h =
    Some ((r, dev', st'), h') ->
  exists n,
    (n <= calls)%nat /\
    Task_SD_Server_n tp cfg fuel n s h =
      Some (mkServer S_IDLE (cur_trans s) r (Update_Trans (g_trans s) r)
              dev' (sd_buf s) (init_st s) (read_st s) st', h').
Proof.
  induction calls as [|c IH]; intros s h r dev' st' h' Hs H; [discriminate|].
  cbn [Project_2A_Base.SD_Write_op] in H.
  apply T_bind_Some in H as ([[r1 dev1] st1] & h1 & E & H).
  assert (E1 : Task_SD_Server tp cfg fuel s h =
    Some (mkServer
            (if Project_2A_Base.idle_busy_status st1 =? 1 then S_WRITE
             else S_IDLE)
            (cur_trans s) r1
            (if Project_2A_Base.idle_busy_status st1 =? 1 then g_trans s
             else Update_Trans (g_trans s) r1)
            dev1 (sd_buf s) (init_st s) (read_st s) st1, h1)).
  { unfold Task_SD_Server. rewrite Hs.
    rewrite (T_bind_eq _ _ _ _ _ E); cbv beta iota.
    destruct (Project_2A_Base.idle_busy_status st1 =? 1); reflexivity. }
  destruct (Project_2A_Base.idle_busy_status st1 =? 1).
  - apply (IH (mkServer S_WRITE (cur_trans s) r1 (g_trans s) dev1 (sd_buf s)
                 (init_st s) (read_st s) st1)) in H as (n & Hn & En);
      [|reflexivity].
    exists (S n). split; [lia|].
    cbn [Task_SD_Server_n]. rewrite (T_bind_eq _ _ _ _ _ E1); cbv beta.
    exact En.
  - injection H as <- <- <- <-. exists 1%nat. split; [lia|].
    cbn [Task_SD_Server_n]. rewrite (T_bind_eq _ _ _ _ _ E1); cbv beta.
    reflexivity.
Qed.

(** C8.  A well-formed request (init, read or write) found by the dispatcher
    in its Idle state is accepted in that activation: the shared descriptor
    is copied into [cur_trans], its status is set to busy, and the dispatcher
    enters the state of the request.  In every later activation the
    dispatcher calls the state machine once, on the device, the buffer and
    the sector of the snapshot, and keeps what the call returns; while the
    machine's flag reads 1 the dispatcher stays in that state and leaves the
    shared descriptor (hence its busy status) and the snapshot untouched; on
    the call that drops the flag it writes the value returned by that call
    into the error code, sets the status to idle, clears the request and
    returns to Idle.  So when the operation, called until its flag drops,
    returns [r] within [calls] calls, the transaction is complete after at
    most [calls] activations following the acceptance, with [r] as its error
    code. *)
Theorem Task_SD_Server_transaction tp cfg fuel s h :
  next_state s = S_IDLE ->
  Request (g_trans s) = REQ_INIT \/ Request (g_trans s) = REQ_READ \/
  Request (g_trans s) = REQ_WRITE ->
  exists s1,
    (* acceptance *)
    Task_SD_Server tp cfg fuel s h = Some (s1, h) /\
    cur_trans s1 = g_trans s /\
    Status (g_trans s1) = STAT_BUSY /\
    Request (g_trans s1) = Request (g_trans s) /\
    next_state s1 = nth (Request (g_trans s)) Req_to_State S_IDLE /\
    in_operation (next_state s1) /\
    (* any number of activations later *)
    (forall n sn hn,
       Task_SD_Server_n tp cfg fuel n s1 h = Some (sn, hn) ->
       (* still in the operation: busy, snapshot intact *)
       (next_state sn = next_state s1 /\ Status (g_trans sn) = STAT_BUSY /\
        g_trans sn = g_trans s1 /\ cur_trans sn = g_trans s) \/
       (* completed *)
       (next_state sn = S_IDLE /\ Status (g_trans sn) = STAT_IDLE /\
        Request (g_trans sn) = REQ_NONE)) /\
    (* the completing activation *)
    (forall sn hn sn' hn',
       next_state sn = next_state s1 -> g_trans sn = g_trans s1 ->
       Task_SD_Server tp cfg fuel sn hn = Some (sn', hn') ->
       next_state sn' = S_IDLE ->
       exists r flag,
         machine_call tp cfg fuel sn hn = Some (r, flag) /\ flag <> 1 /\
         ErrorCode (g_trans sn') = r /\
         Status (g_trans sn') = STAT_IDLE /\
         Request (g_trans sn') = REQ_NONE) /\
    (* every activation inside the operation: it returns when the call of
       the machine does, and by the flag stays busy or completes *)
    (forall sn hn r flag,
       next_state sn = next_state s1 -> g_trans sn = g_trans s1 ->
       machine_call tp cfg fuel sn hn = Some (r, flag) ->
       exists sn' hn',
         Task_SD_Server tp cfg fuel sn hn = Some (sn', hn') /\
         res sn' = r /\ cur_trans sn' = cur_trans sn /\
         (flag = 1 ->
          next_state sn' = next_state s1 /\ g_trans sn' = g_trans s1 /\
          Status (g_trans sn') = STAT_BUSY) /\
         (flag <> 1 ->
          next_state sn' = S_IDLE /\
          g_trans sn' = mkTrans REQ_NONE (Device (g_trans s))
                          (Data (g_trans s)) (Sector (g_trans s))
                          STAT_IDLE r)) /\
    (* the machine is stepped: what its call returns is kept *)
    (forall sn hn r dev ist hn',
       next_state sn = S_INIT ->
       Project_2A_Base.SD_Init tp cfg fuel (sd_dev sn) (init_st sn) hn =
         Some ((r, dev, ist), hn') ->
       exists sn',
         Task_SD_Server tp cfg fuel sn hn = Some (sn', hn') /\
         res sn' = r /\ sd_dev sn' = dev /\ init_st sn' = ist /\
         sd_buf sn' = sd_buf sn /\ read_st sn' = read_st sn /\
         write_st sn' = write_st sn) /\
    (forall sn hn r dev buf rst hn',
       next_state sn = S_READ ->
       Project_2A_Base.SD_Read tp cfg fuel (sd_dev sn) (sd_buf sn)
         (Sector (cur_trans sn)) 0 512 (read_st sn) hn =
         Some ((r, dev, buf, rst), hn') ->
       exists sn',
         Task_SD_Server tp cfg fuel sn hn = Some (sn', hn') /\
         res sn' = r /\ sd_dev sn' = dev /\ sd_buf sn' = buf /\
         read_st sn' = rst /\ init_st sn' = init_st sn /\
         write_st sn' = write_st sn) /\
    (forall sn hn r dev wst hn',
       next_state sn = S_WRITE ->
       Project_2A_Base.SD_Write tp cfg fuel (sd_dev sn) (sd_buf sn)
         (Sector (cur_trans sn)) (write_st sn) hn =
         Some ((r, dev, wst), hn') ->
       exists sn',
         Task_SD_Server tp cfg fuel sn hn = Some (sn', hn') /\
         res sn' = r /\ sd_dev sn' = dev /\ write_st sn' = wst /\
         sd_buf sn' = sd_buf sn /\ init_st sn' = init_st sn /\
         read_st sn' = read_st sn) /\
    (* the whole transaction, request by request *)
    (Request (g_trans s) = REQ_INIT ->
     forall calls r dev' st' h',
       Project_2A_Base.SD_Init_op tp cfg calls fuel (sd_dev s) (init_st s) h =
         Some ((r, dev', st'), h') ->
       exists n,
         (n <= calls)%nat /\
         Task_SD_Server_n tp cfg fuel (S n) s h =
           Some (mkServer S_IDLE (g_trans s) r
                   (mkTrans REQ_NONE (Device (g_trans s)) (Data (g_trans s))
                      (Sector (g_trans s)) STAT_IDLE r)
                   dev' (sd_buf s) st' (read_st s) (write_st s), h')) /\
    (Request (g_trans s) = REQ_READ ->
     forall calls r dev' dat' st' h',
       Project_2A_Base.SD_Read_op tp cfg calls fuel (sd_dev s) (sd_buf s)
         (Sector (g_trans s)) 0 512 (read_st s) h =
         Some ((r, dev', dat', st'), h') ->
       exists n,
         (n <= calls)%nat /\
         Task_SD_Server_n tp cfg fuel (S n) s h =
           Some (mkServer S_IDLE (g_trans s) r
                   (mkTrans REQ_NONE (Device (g_trans s)) (Data (g_trans s))
                      (Sector (g_trans s)) STAT_IDLE r)
                   dev' dat' (init_st s) st' (write_st s), h')) /\
    (Request (g_trans s) = REQ_WRITE ->
     forall calls r dev' st' h',
       Project_2A_Base.SD_Write_op tp cfg calls fuel (sd_dev s) (sd_buf s)
         (Sector (g_trans s)) (write_st s) h =
         Some ((r, dev', st'), h') ->
       exists n,
         (n <= calls)%nat /\
         Task_SD_Server_n tp cfg fuel (S n) s h =
           Some (mkServer S_IDLE (g_trans s) r
                   (mkTrans REQ_NONE (Device (g_trans s)) (Data (g_trans s))
                      (Sector (g_trans s)) STAT_IDLE r)
                   dev' (sd_buf s) (init_st s) (read_st s) st', h')).
Proof.
  intros Hs Hr.
  pose proof (Task_SD_Server_accept_eq tp cfg fuel s h Hs Hr) as Eq.
  destruct (Task_SD_Server_accept tp cfg fuel s h Hs Hr)
    as (s1 & E & Hc & Hg & Hn & Hop).
  exists s1. split; [exact E|]. split; [exact Hc|].
  split; [rewrite Hg; reflexivity|]. split; [rewrite Hg; reflexivity|].
  split; [exact Hn|]. split; [exact Hop|]. split; [|split; [|split]].
  - intros n sn hn H.
    destruct (Task_SD_Server_n_busy _ _ _ _ _ _ _ _ Hop H)
      as [(H1 & H2 & H3) | (H1 & r & H2)].
    + left. rewrite H2, H3, Hg, Hc. auto.
    + right. rewrite H2. auto.
  - intros sn hn sn' hn' H1 H2 H Hidle.
    rewrite <- H1 in Hop.
    destruct (Task_SD_Server_step _ _ _ _ _ _ _ Hop H)
      as (_ & flag & Hm & [(_ & Hn' & _) | (Hf & _ & Hg')]).
    + exfalso. rewrite Hidle in Hn'. rewrite <- Hn' in Hop.
      destruct Hop as [?|[?|?]]; discriminate.
    + exists (res sn'), flag. rewrite Hg'. auto.
  - intros sn hn r flag H1 H2 Hm.
    rewrite <- H1 in Hop.
    destruct (Task_SD_Server_call _ _ _ _ _ _ _ Hop Hm)
      as (sn' & hn' & Et & Hres & Hcur & Hbusy & Hdone).
    exists sn', hn'. split; [exact Et|]. split; [exact Hres|].
    split; [exact Hcur|]. split.
    + intros Hf. destruct (Hbusy Hf) as (Ha & Hb).
      rewrite Ha, Hb, H1, H2, Hg. auto.
    + intros Hf. destruct (Hdone Hf) as (Ha & Hb).
      split; [exact Ha|]. rewrite Hb, H2, Hg. reflexivity.
  - split; [|split; [|split; [|split; [|split]]]].
    + intros sn hn r dev ist hn' H1 H2.
      rewrite (Task_SD_Server_init_step _ _ _ _ _ _ _ _ _ H1 H2).
      eexists. split; [reflexivity|]. cbn. tauto.
    + intros sn hn r dev buf rst hn' H1 H2.
      rewrite (Task_SD_Server_read_step _ _ _ _ _ _ _ _ _ _ H1 H2).
      eexists. split; [reflexivity|]. cbn. tauto.
    + intros sn hn r dev wst hn' H1 H2.
      rewrite (Task_SD_Server_write_step _ _ _ _ _ _ _ _ _ H1 H2).
      eexists. split; [reflexivity|]. cbn. tauto.
    + intros Hq calls r dev' st' h' Hrun.
      rewrite E in Eq. injection Eq as ->. rewrite Hq in *.
      destruct (Task_SD_Server_n_init tp cfg fuel calls _ h r dev' st' h'
                  Hn Hrun) as (n & Hle & En).
      exists n. split; [exact Hle|].
      cbn [Task_SD_Server_n]. rewrite (T_bind_eq _ _ _ _ _ E); cbv beta.
      rewrite En. reflexivity.
    + intros Hq calls r dev' dat' st' h' Hrun.
      rewrite E in Eq. injection Eq as ->. rewrite Hq in *.
      destruct (Task_SD_Server_n_read tp cfg fuel calls _ h r dev' dat' st' h'
                  Hn Hrun) as (n & Hle & En).
      exists n. split; [exact Hle|].
      cbn [Task_SD_Server_n]. rewrite (T_bind_eq _ _ _ _ _ E); cbv beta.
      rewrite En. reflexivity.
    + intros Hq calls r dev' st' h' Hrun.
      rewrite E in Eq. injection Eq as ->. rewrite Hq in *.
      destruct (Task_SD_Server_n_write tp cfg fuel calls _ h r dev' st' h'
                  Hn Hrun) as (n & Hle & En).
      exists n. split; [exact Hle|].
      cbn [Task_SD_Server_n]. rewrite (T_bind_eq _ _ _ _ _ E); cbv beta.
      rewrite En. reflexivity.
Qed.

Lemma Task_SD_Server_transaction_witness :
  (exists s1,
     Task_SD_Server card_read cfg0 600 server_read_request [] = Some (s1, []) /\
     Status (g_trans s1) = STAT_BUSY /\ next_state s1 = S_READ) /\
  (exists n s' h',
     Task_SD_Server_n card_read cfg0 600 (S n) server_read_request [] =
       Some (s', h') /\
     next_state s' = S_IDLE /\
     g_trans s' = mkTrans REQ_NONE 0 0 5 STAT_IDLE SD_OK /\
     sd_buf s' = take 512 pattern).
Proof.
  destruct (Task_SD_Server_transaction card_read cfg0 600 server_read_request [])
    as (s1 & E & _ & Hb & _ & Hn & _ & _ & _ & _ & _ & _ & _ & _ & Hread & _);
    [reflexivity | right; left; reflexivity |].
  split.
  - exists s1. split; [exact E|]. split; [exact Hb | exact Hn].
  - destruct (Project_2A_Base.SD_Read_op card_read cfg0 600 600 dev0
                (repeat 0 512) 5 0 512 Project_2A_Base.ReadSt_boot [])
      as [[[[[r dev'] dat'] st'] h']|] eqn:Er;
      [|vm_compute in Er; discriminate].
    destruct (Hread eq_refl 600%nat r dev' dat' st' h' Er) as (n & _ & En).
    exists n. eexists _, h'. split; [exact En|].
    vm_compute in Er. injection Er as <- <- <- <- <-.
    split; [reflexivity|]. split; [reflexivity|].
    vm_compute. reflexivity.
Defined.

(** ** Command responses *)

Lemma countdown_expires script idle N : timer_expires (sim script idle N) N.
Proof.
  unfold timer_expires. cbn [timer_running sim]. intros h.
  revert N. induction h as [|e h IH]; intros N n Hp Hn; [discriminate|].
  destruct e; cbn [polls_since_on countdown] in *; try (eapply IH; eassumption);
    try discriminate.
  - injection Hp as <-. apply Nat.ltb_ge. lia.
  - destruct (polls_since_on h) as [m|] eqn:Em; [|discriminate].
    injection Hp as <-. destruct N as [|N']; [reflexivity|].
    apply (IH N' m); [reflexivity | lia].
Qed.

(** With a timer that counts down, the response loop of [__SD_Send_Cmd]
    returns. *)
Lemma Send_Cmd_response_total tp N :
  timer_expires tp N ->
  forall f h n, polls_since_on h = Some n -> (N <= f + n)%nat ->
  exists r h', Send_Cmd_response tp (S f) h = Some (r, h').
Proof.
  intros Ht. induction f as [|f IH]; intros h n Hp Hn;
    cbn [Send_Cmd_response]; step_RW;
    (destruct (negb (Z.land _ 128 =? 0)); [|eauto]);
    unfold bind at 1, SPI_Timer_Status at 1; cbv zeta.
  - rewrite (Ht _ n); [eauto | exact Hp | lia].
  - destruct (timer_running tp _) eqn:Er; [|eauto].
    apply (IH _ (S n)).
    + cbn [polls_since_on]. rewrite Hp. reflexivity.
    + destruct (Nat.le_gt_cases N n) as [Hle|Hgt]; [|lia].
      rewrite (Ht (EvRW 0xFF _ :: h) n Hp Hle) in Er. discriminate.
Qed.

Lemma Send_Cmd_frame_total tp N fuel cmd arg h :
  timer_expires tp N -> (N < fuel)%nat ->
  exists r h', Send_Cmd_frame tp fuel cmd arg h = Some (r, h').
Proof.
  intros Ht Hf. destruct fuel as [|f]; [lia|].
  unfold Send_Cmd_frame, __SD_Deassert, __SD_Assert, SPI_CS_High, SPI_CS_Low,
    SPI_Timer_On, SPI_Timer_Off.
  cbv zeta.
  repeat first
    [ rewrite (T_bind_eq _ _ _ _ _ (eq_refl : emit _ _ = Some (tt, _))); cbv beta
    | rewrite (T_bind_eq _ _ _ _ _ (SPI_RW_eq _ _ _)); cbv beta ].
  match goal with |- context [bind (Send_Cmd_response tp (S f)) _ ?hh] =>
    destruct (Send_Cmd_response_total tp N Ht f hh 0%nat eq_refl ltac:(lia))
      as (r & h' & E)
  end.
  rewrite (T_bind_eq _ _ _ _ _ E); cbv beta.
  rewrite (T_bind_eq _ _ _ _ _ (eq_refl : emit _ _ = Some (tt, _))); cbv beta.
  eauto.
Qed.

Lemma Send_Cmd_total tp N fuel cmd arg h :
  timer_expires tp N -> (N + 2 < fuel)%nat ->
  exists r h', __SD_Send_Cmd tp fuel cmd arg h = Some (r, h').
Proof.
  intros Ht Hf. destruct fuel as [|[|f]]; [lia|lia|].
  cbn [__SD_Send_Cmd]. change (negb (Z.land CMD55 128 =? 0)) with false.
  cbv iota.
  destruct (negb (Z.land cmd 128 =? 0)).
  - destruct (Send_Cmd_frame_total tp N f CMD55 0 h Ht ltac:(lia)) as (r & h1 & E).
    rewrite (T_bind_eq _ _ _ _ _ E); cbv beta.
    destruct (1 <? r); [eauto|].
    apply Send_Cmd_frame_total with (N := N); [exact Ht | lia].
  - apply Send_Cmd_frame_total with (N := N); [exact Ht | lia].
Qed.

(** On a bus where every byte reads 0xFF the response is 0xFF. *)
Lemma Send_Cmd_response_dead tp : dead_bus tp ->
  forall fuel h r h', Send_Cmd_response tp fuel h = Some (r, h') -> r = 0xFF.
Proof.
  intros Hd. induction fuel as [|f IH]; intros h r h' H; [discriminate|].
  cbn [Send_Cmd_response] in H. revert H. step_RW. rewrite Hd.
  change (negb (Z.land 255 128 =? 0)) with true. cbv iota.
  unfold bind at 1, SPI_Timer_Status at 1. cbv zeta.
  destruct (timer_running tp _).
  - apply IH.
  - intros H. injection H as <- <-. reflexivity.
Qed.

Lemma Send_Cmd_frame_dead tp fuel cmd arg h r h' :
  dead_bus tp ->
  Send_Cmd_frame tp fuel cmd arg h = Some (r, h') -> r = 0xFF.
Proof.
  intros Hd.
  unfold Send_Cmd_frame, __SD_Deassert, __SD_Assert, SPI_CS_High, SPI_CS_Low,
    SPI_Timer_On, SPI_Timer_Off.
  cbv zeta.
  repeat first
    [ rewrite (T_bind_eq _ _ _ _ _ (eq_refl : emit _ _ = Some (tt, _))); cbv beta
    | rewrite (T_bind_eq _ _ _ _ _ (SPI_RW_eq _ _ _)); cbv beta ].
  intros H. apply T_bind_Some in H as (r1 & h1 & E & H).
  apply (Send_Cmd_response_dead tp Hd) in E. subst r1.
  revert H.
  rewrite (T_bind_eq _ _ _ _ _ (eq_refl : emit _ _ = Some (tt, _))); cbv beta.
  intros H. injection H as <- <-. reflexivity.
Qed.

Lemma Send_Cmd_dead tp : dead_bus tp ->
  forall fuel cmd arg h r h',
    __SD_Send_Cmd tp fuel cmd arg h = Some (r, h') -> r = 0xFF.
Proof.
  intros Hd. induction fuel as [|f IH]; intros cmd arg h r h' H; [discriminate|].
  cbn [__SD_Send_Cmd] in H.
  destruct (negb (Z.land cmd 128 =? 0)).
  - apply T_bind_Some in H as (r1 & h1 & E & H). apply IH in E. subst r1.
    change (1 <? 255) with true in H. injection H as <- <-. reflexivity.
  - eapply Send_Cmd_frame_dead; eassumption.
Qed.

(** C10.  [SD_Status] returns [SD_OK] exactly when the response byte to the
    CMD0 it sends is not zero and [SD_NORESPONSE] exactly when that byte is
    zero.  On a bus where no card answers (every byte reads 0xFF) the
    response stays 0xFF, so [SD_Status], which returns once the 5 ms timer
    has run out, reports [SD_OK]. *)
Theorem SD_Status_result tp fuel h :
  (forall res h',
     SD_Status tp fuel h = Some (res, h') <->
     exists r, __SD_Send_Cmd tp fuel CMD0 0 h = Some (r, h') /\
               ((r <> 0 /\ res = SD_OK) \/ (r = 0 /\ res = SD_NORESPONSE))) /\
  (forall N,
     dead_bus tp -> timer_expires tp N -> (N + 2 < fuel)%nat ->
     exists h',
       __SD_Send_Cmd tp fuel CMD0 0 h = Some (0xFF, h') /\
       SD_Status tp fuel h = Some (SD_OK, h')).
Proof.
  split.
  - intros res h'. unfold SD_Status. split.
    + intros H. apply T_bind_Some in H as (r & h1 & E & H).
      injection H as <- <-. exists r. split; [exact E|].
      destruct (r =? 0) eqn:Er.
      * apply Z.eqb_eq in Er. right. auto.
      * apply Z.eqb_neq in Er. left. auto.
    + intros (r & E & Hr). rewrite (T_bind_eq _ _ _ _ _ E).
      destruct Hr as [(Hr & ->) | (-> & ->)]; [|reflexivity].
      apply Z.eqb_neq in Hr. unfold ret. rewrite Hr. reflexivity.
  - intros N Hd Ht Hf.
    destruct (Send_Cmd_total tp N fuel CMD0 0 h Ht Hf) as (r & h' & E).
    pose proof (Send_Cmd_dead tp Hd _ _ _ _ _ _ E) as ->.
    exists h'. split; [exact E|].
    unfold SD_Status. rewrite (T_bind_eq _ _ _ _ _ E). reflexivity.
Qed.

Lemma dead_bus_card_absent : dead_bus card_absent.
Proof.
  intros h d. cbn [card_reply card_absent sim]. unfold scripted_card.
  destruct (count_RW h); reflexivity.
Qed.

Lemma SD_Status_result_witness :
  exists h', SD_Status card_absent 10 [] = Some (SD_OK, h').
Proof.
  destruct (SD_Status_result card_absent 10 []) as (_ & H).
  destruct (H 3%nat dead_bus_card_absent (countdown_expires [] 0xFF 3) ltac:(lia))
    as (h' & _ & E).
  exists h'. exact E.
Defined.

(** ** Capacity *)

(** C7 (evaluation at the failing inputs).  For the register of a 1 GiB
    version-1 card (C_SIZE = 4095, C_SIZE_MULT = 7, READ_BL_LEN = 9) the
    decoder returns 1073741824, the capacity in bytes, where the reference
    formula gives 2097152 sectors; [SD_Init] then stores 1073741823 as
    [last_sector].  For a version-2 register the decoder returns
    (C_SIZE+1)*1024 sectors as the reference does, as long as C_SIZE fits
    the 16-bit variable it is assembled in (8 GB card); for the 64 GB card,
    whose C_SIZE does not fit, it returns 57802752 where the reference gives
    124911616. *)
Theorem Sectors_decode_units :
  (* version 1: bytes, not sectors *)
  CSD_field csd_v1_1GiB 73 62 = 4095 /\
  CSD_field csd_v1_1GiB 49 47 = 7 /\
  CSD_field csd_v1_1GiB 83 80 = 9 /\
  CSD_sectors_v1 csd_v1_1GiB = 2097152 /\
  Sectors_decode SDCT_SD1 csd_v1_1GiB = 1073741824 /\
  Sectors_decode SDCT_SD1 csd_v1_1GiB = 512 * CSD_sectors_v1 csd_v1_1GiB /\
  (exists h',
     Init_finish (card_csd csd_v1_1GiB) 10 SDCT_SD1 dev_unmounted [] =
       Some ((SD_OK, mkDev true SDCT_SD1 1073741823 0 0), h')) /\
  (* version 2: sectors *)
  CSD_field csd_v2_8GB 69 48 = 15159 /\
  CSD_sectors_v2 csd_v2_8GB = 15523840 /\
  Sectors_decode (Z.lor SDCT_SD2 SDCT_BLOCK) csd_v2_8GB = 15523840 /\
  (* version 2: C_SIZE cut to 16 bits *)
  CSD_field csd_v2_64GB 69 48 = 121983 /\
  CSD_sectors_v2 csd_v2_64GB = 124911616 /\
  Sectors_decode (Z.lor SDCT_SD2 SDCT_BLOCK) csd_v2_64GB = 57802752.
Proof.
  repeat split; try (vm_compute; reflexivity).
  eexists. vm_compute. reflexivity.
Qed.

(** ** Negotiation *)

(** C6 (evaluation at the failing input).  State-machine build: a first
    [SD_Init] negotiates with a version-1 card and completes with [SD_OK];
    the card is then removed.  A second [SD_Init] finds the stale [ct] of the
    first one, makes no attempt to negotiate (no bus reset, no CMD0: the only
    command it sends is CMD9, to which nothing answers) and completes with
    [SD_OK] and the device mounted, with [last_sector] 0 - 1. *)
Theorem SD_Init_2A_stale_card_type :
  exists dev1 st1 h1,
    Project_2A_Base.SD_Init_op card_v1_then_removed cfg0 100 100
      dev_unmounted Project_2A_Base.InitSt_boot [] = Some ((SD_OK, dev1, st1), h1) /\
    Project_2A_Base.in_states st1 = S1 /\
    Project_2A_Base.Init_ct st1 = SDCT_SD1 /\
    exists dev2 st2 h2,
      Project_2A_Base.SD_Init_op card_v1_then_removed cfg0 100 100
        dev1 st1 h1 = Some ((SD_OK, dev2, st2), h2) /\
      all_FF (new_events h1 h2) = true /\
      bytes_sent (new_events h1 h2) =
        [0xFF; 0xFF; CMD9; 0; 0; 0; 0; 0x01; 0xFF; 0xFF; 0xFF] /\
      existsb (fun e => match e with EvInit => true | _ => false end)
        (new_events h1 h2) = false /\
      dev2 = mkDev true SDCT_SD1 0xFFFFFFFF 0 0.
Proof.
  do 3 eexists. split; [vm_compute; reflexivity|].
  split; [reflexivity|]. split; [reflexivity|].
  do 3 eexists. split; [vm_compute; reflexivity|].
  repeat split; vm_compute; reflexivity.
Qed.

(** ** Debug counters *)

Ltac T_inv H :=
  repeat first
    [ progress cbv beta zeta in H
    | apply T_bind_Some in H as (? & ? & _ & H)
    | match type of H with
      | context [if ?c then _ else _] => destruct c
      | context [let '(_, _) := ?p in _] => destruct p
      end ].

Ltac T_done H := unfold ret, stuck in H; inversion H; subst; clear H.

Lemma SD_Read_2B_counters tp cfg fuel dev dat sector ofs cnt h r dev' dat' h' :
  Project_2B.SD_Read tp cfg fuel dev dat sector ofs cnt h =
    Some ((r, dev', dat'), h') ->
  (r = SD_PARERR /\ dev' = dev) \/
  (r <> SD_PARERR /\
   dev' = set_debug_read (debug_incr cfg (debug_read dev)) dev).
Proof.
  unfold Project_2B.SD_Read. intros H.
  destruct ((last_sector dev <? sector) || (cnt =? 0)).
  - T_done H. left. auto.
  - right. apply T_bind_Some in H as (r0 & h0 & _ & H).
    apply T_bind_Some in H as ([r1 d1] & h1 & E & H).
    apply T_bind_Some in H as (? & ? & _ & H). T_done H.
    split; [|reflexivity].
    destruct (r0 =? 0).
    + T_inv E; T_done E; discriminate.
    + T_done E. discriminate.
Qed.

Lemma SD_Write_2B_counters tp cfg fuel dev dat sector h r dev' h' :
  Project_2B.SD_Write tp cfg fuel dev dat sector h = Some ((r, dev'), h') ->
  ((r = SD_PARERR \/ r = SD_ERROR \/ r = SD_REJECT) /\ dev' = dev) \/
  (r = SD_OK /\
   dev' = set_debug_write (debug_incr cfg (debug_write dev)) dev).
Proof.
  intros H. pose proof (SD_Write_2B_never_BUSY _ _ _ _ _ _ _ _ _ _ H) as NB.
  unfold Project_2B.SD_Write in H.
  T_inv H; T_done H; auto. exfalso. apply NB. reflexivity.
Qed.

(** What one call of the read state machine does to the device and to its
    own position. *)
Lemma SD_Read_2A_call tp cfg fuel dev dat sector ofs cnt st h r dev' dat' st' h' :
  Project_2A_Base.SD_Read tp cfg fuel dev dat sector ofs cnt st h =
    Some ((r, dev', dat', st'), h') ->
  match Project_2A_Base.rn_state st with
  | S1 =>
      dev' = dev /\ Project_2A_Base.Read_res st' = SD_ERROR /\
      ((r = SD_PARERR /\ Project_2A_Base.read_status st' = 0) \/
       (Project_2A_Base.read_status st' = 1 /\
        Project_2A_Base.rn_state st' = S2))
  | S2 | S3 | S4 | S5 =>
      dev' = dev /\ Project_2A_Base.read_status st' = 1 /\
      (Project_2A_Base.rn_state st' = S3 \/ Project_2A_Base.rn_state st' = S4 \/
       Project_2A_Base.rn_state st' = S5 \/ Project_2A_Base.rn_state st' = S6) /\
      (Project_2A_Base.Read_res st' = Project_2A_Base.Read_res st \/
       Project_2A_Base.Read_res st' = SD_OK)
  | S6 =>
      dev' = set_debug_read (debug_incr cfg (debug_read dev)) dev /\
      Project_2A_Base.read_status st' = 0 /\
      r = Project_2A_Base.Read_res st
  | _ => False
  end.
Proof.
  unfold Project_2A_Base.SD_Read, Project_2A_Base.Read_store.
  destruct st as [rs status res tkn data i p].
  cbn [Project_2A_Base.rn_state Project_2A_Base.Read_res
       Project_2A_Base.Read_tkn Project_2A_Base.Read_data
       Project_2A_Base.Read_byte_num Project_2A_Base.Read_pointer
       Project_2A_Base.read_status].
  destruct rs; intros H; try discriminate; T_inv H; T_done H; cbn; auto 10.
Qed.

Lemma SD_Read_op_2A_counters_mid tp cfg fuel sector ofs cnt :
  forall calls dev dat st h r dev' dat' st' h',
  Project_2A_Base.rn_state st = S2 \/ Project_2A_Base.rn_state st = S3 \/
  Project_2A_Base.rn_state st = S4 \/ Project_2A_Base.rn_state st = S5 \/
  Project_2A_Base.rn_state st = S6 ->
  Project_2A_Base.Read_res st <> SD_PARERR ->
  Project_2A_Base.SD_Read_op tp cfg calls fuel dev dat sector ofs cnt st h =
    Some ((r, dev', dat', st'), h') ->
  r <> SD_PARERR /\
  dev' = set_debug_read (debug_incr cfg (debug_read dev)) dev.
Proof.
  induction calls as [|c IH]; intros dev dat st h r dev' dat' st' h' Hs Hr H;
    [discriminate|].
  cbn [Project_2A_Base.SD_Read_op] in H.
  apply T_bind_Some in H as ([[[r1 dev1] dat1] st1] & h1 & E & H).
  apply SD_Read_2A_call in E.
  destruct Hs as [Hs|[Hs|[Hs|[Hs|Hs]]]]; rewrite Hs in E.
  1-4: destruct E as (-> & F & Hn & Hres); rewrite F in H; cbn [Z.eqb Pos.eqb] in H;
       apply IH in H; [exact H | tauto | destruct Hres as [-> | ->]; [exact Hr | discriminate]].
  destruct E as (-> & F & ->). rewrite F in H. cbn [Z.eqb] in H.
  T_done H. auto.
Qed.

Lemma SD_Read_op_2A_counters tp cfg fuel sector ofs cnt calls dev dat st h r dev' dat' st' h' :
  Project_2A_Base.rn_state st = S1 ->
  Project_2A_Base.SD_Read_op tp cfg calls fuel dev dat sector ofs cnt st h =
    Some ((r, dev', dat', st'), h') ->
  (r = SD_PARERR /\ dev' = dev) \/
  (r <> SD_PARERR /\
   dev' = set_debug_read (debug_incr cfg (debug_read dev)) dev).
Proof.
  intros Hs H. destruct calls as [|c]; [discriminate|].
  cbn [Project_2A_Base.SD_Read_op] in H.
  apply T_bind_Some in H as ([[[r1 dev1] dat1] st1] & h1 & E & H).
  apply SD_Read_2A_call in E. rewrite Hs in E.
  destruct E as (-> & Hres & [(-> & F) | (F & Hn)]); rewrite F in H;
    cbn [Z.eqb Pos.eqb] in H.
  - T_done H. left. auto.
  - right. eapply SD_Read_op_2A_counters_mid; [| |exact H].
    + auto.
    + rewrite Hres. discriminate.
Qed.

(** What one call of the write state machine does to the device and to its
    own position. *)
Lemma SD_Write_2A_call tp cfg fuel dev dat sector st h r dev' st' h' :
  Project_2A_Base.SD_Write tp cfg fuel dev dat sector st h =
    Some ((r, dev', st'), h') ->
  match Project_2A_Base.n_state st with
  | S1 =>
      dev' = dev /\
      ((r = SD_PARERR /\ Project_2A_Base.idle_busy_status st' = 0) \/
       (Project_2A_Base.idle_busy_status st' = 1 /\
        Project_2A_Base.n_state st' = S2))
  | S2 =>
      dev' = dev /\
      ((r = SD_ERROR /\ Project_2A_Base.idle_busy_status st' = 0) \/
       (Project_2A_Base.idle_busy_status st' = 1 /\
        Project_2A_Base.n_state st' = S3))
  | S3 =>
      dev' = dev /\
      ((r = SD_REJECT /\ Project_2A_Base.idle_busy_status st' = 0) \/
       (Project_2A_Base.idle_busy_status st' = 1 /\
        (Project_2A_Base.n_state st' = S3 \/ Project_2A_Base.n_state st' = S4)))
  | S4 =>
      dev' = dev /\ Project_2A_Base.idle_busy_status st' = 1 /\
      Project_2A_Base.n_state st' = S5
  | S5 =>
      Project_2A_Base.idle_busy_status st' = 1 /\
      ((Project_2A_Base.n_state st' = S5 /\ dev' = dev) \/
       (Project_2A_Base.n_state st' = S6 /\
        dev' = set_debug_write (debug_incr cfg (debug_write dev)) dev))
  | S6 =>
      dev' = dev /\ Project_2A_Base.idle_busy_status st' = 0 /\
      (r = SD_BUSY \/ r = SD_OK)
  | _ => False
  end.
Proof.
  unfold Project_2A_Base.SD_Write, Project_2A_Base.and_then.
  destruct st as [ns status idx line].
  cbn [Project_2A_Base.n_state Project_2A_Base.Write_idx
       Project_2A_Base.Write_line Project_2A_Base.idle_busy_status].
  destruct ns; intros H; try discriminate; T_inv H; T_done H; cbn; auto 10.
Qed.

Lemma SD_Write_op_2A_counters_mid tp cfg fuel dat sector :
  forall calls dev st h r dev' st' h',
  Project_2A_Base.n_state st = S2 \/ Project_2A_Base.n_state st = S3 \/
  Project_2A_Base.n_state st = S4 \/ Project_2A_Base.n_state st = S5 ->
  Project_2A_Base.SD_Write_op tp cfg calls fuel dev dat sector st h =
    Some ((r, dev', st'), h') ->
  ((r = SD_ERROR \/ r = SD_REJECT) /\ dev' = dev) \/
  ((r = SD_OK \/ r = SD_BUSY) /\
   dev' = set_debug_write (debug_incr cfg (debug_write dev)) dev).
Proof.
  induction calls as [|c IH]; intros dev st h r dev' st' h' Hs H; [discriminate|].
  destruct Hs as [Hs|[Hs|[Hs|Hs]]].
  4: { apply SD_Write_op_S5_2A in H; [|exact Hs].
       destruct H as (-> & _ & [(-> & _) | (-> & _)]); right; auto. }
  all: cbn [Project_2A_Base.SD_Write_op] in H;
    apply T_bind_Some in H as ([[r1 dev1] st1] & h1 & E & H);
    apply SD_Write_2A_call in E; rewrite Hs in E.
  - destruct E as (-> & [(-> & F) | (F & Hn)]); rewrite F in H;
      cbn [Z.eqb Pos.eqb] in H.
    + T_done H. left. auto.
    + apply IH in H; [exact H | auto].
  - destruct E as (-> & [(-> & F) | (F & Hn)]); rewrite F in H;
      cbn [Z.eqb Pos.eqb] in H.
    + T_done H. left. auto.
    + apply IH in H; [exact H | tauto].
  - destruct E as (-> & F & Hn); rewrite F in H; cbn [Z.eqb Pos.eqb] in H.
    apply IH in H; [exact H | auto].
Qed.

Lemma SD_Write_op_2A_counters tp cfg fuel dat sector calls dev st h r dev' st' h' :
  Project_2A_Base.n_state st = S1 ->
  Project_2A_Base.SD_Write_op tp cfg calls fuel dev dat sector st h =
    Some ((r, dev', st'), h') ->
  ((r = SD_PARERR \/ r = SD_ERROR \/ r = SD_REJECT) /\ dev' = dev) \/
  ((r = SD_OK \/ r = SD_BUSY) /\
   dev' = set_debug_write (debug_incr cfg (debug_write dev)) dev).
Proof.
  intros Hs H. destruct calls as [|c]; [discriminate|].
  cbn [Project_2A_Base.SD_Write_op] in H.
  apply T_bind_Some in H as ([[r1 dev1] st1] & h1 & E & H).
  apply SD_Write_2A_call in E. rewrite Hs in E.
  destruct E as (-> & [(-> & F) | (F & Hn)]); rewrite F in H;
    cbn [Z.eqb Pos.eqb] in H.
  - T_done H. left. auto.
  - apply SD_Write_op_2A_counters_mid in H; [|auto].
    destruct H as [([-> | ->] & ->) | H]; [left; auto | left; auto | right; exact H].
Qed.

(** The tail of [SD_Init]: with a card type it fills the descriptor, zeroes
    the counters and selects the high clock; without one it leaves the
    descriptor alone.  It always ends by releasing the bus. *)
Lemma Init_finish_result tp fuel ct dev h r dev' h' :
  Init_finish tp fuel ct dev h = Some ((r, dev'), h') ->
  (ct <> 0 /\ r = SD_OK /\
   exists ss h1,
     __SD_Sectors tp fuel (set_mount true (set_cardtype ct dev)) h = Some (ss, h1) /\
     dev' = mkDev true ct (DWORD (ss - 1)) 0 0 /\
     h' = EvRelease :: EvFreqHigh :: h1) \/
  (ct = 0 /\ r = SD_NOINIT /\ dev' = dev /\ h' = EvRelease :: h).
Proof.
  unfold Init_finish. intros H.
  destruct (ct =? 0) eqn:Ec; cbn [negb] in H.
  - apply Z.eqb_eq in Ec. right. T_done H. auto.
  - apply Z.eqb_neq in Ec. left.
    rewrite T_bind_assoc in H.
    apply T_bind_Some in H as (ss & h1 & E & H).
    T_done H. split; [exact Ec|]. split; [reflexivity|].
    exists ss, h1. auto.
Qed.

Lemma Init_attempt_2B_dev tp fuel ct dev h ct' dev' h' :
  Project_2B.Init_attempt tp fuel ct dev h = Some ((ct', dev'), h') ->
  dev' = set_mount false dev.
Proof.
  unfold Project_2B.Init_attempt. intros H.
  T_inv H; T_done H; reflexivity.
Qed.

Lemma Init_trys_loop_2B_dev tp cfg : forall fuel init_trys ct dev h ct' dev' h',
  Project_2B.Init_trys_loop tp cfg fuel init_trys ct dev h = Some ((ct', dev'), h') ->
  (dev' = set_mount false dev \/ (dev' = dev /\ ct' = ct)) /\
  (init_trys <> SD_INIT_TRYS cfg -> ct = 0 -> dev' = set_mount false dev).
Proof.
  induction fuel as [|f IH]; intros init_trys ct dev h ct' dev' h' H; [discriminate|].
  cbn [Project_2B.Init_trys_loop] in H.
  destruct (negb (init_trys =? SD_INIT_TRYS cfg) && (ct =? 0)) eqn:Ec.
  - apply T_bind_Some in H as ([ct1 dev1] & h1 & E & H).
    apply Init_attempt_2B_dev in E. subst dev1.
    apply IH in H. destruct H as ([-> | (-> & ->)] & _); cbn; auto.
  - T_done H. split; [auto|]. intros Ht Hc.
    apply Z.eqb_neq in Ht. apply Z.eqb_eq in Hc.
    rewrite Ht, Hc in Ec. discriminate.
Qed.

(** Blocking build: [SD_Init] returns [SD_OK] exactly when its retry loop
    ends with a card type, and then the descriptor holds that type, is
    mounted, has [last_sector] one less than the decoded capacity and both
    counters at zero, and the high clock is selected; otherwise it returns
    [SD_NOINIT] and the descriptor is unmounted and otherwise unchanged. *)
Lemma SD_Init_2B_result tp cfg fuel dev h r dev' h' :
  SD_INIT_TRYS cfg <> 0 ->
  Project_2B.SD_Init tp cfg fuel dev h = Some ((r, dev'), h') ->
  exists ct dev1 h1,
    Project_2B.Init_trys_loop tp cfg fuel 0 0 dev h = Some ((ct, dev1), h1) /\
    ((ct <> 0 /\ r = SD_OK /\
      exists ss h2,
        __SD_Sectors tp fuel (set_mount true (set_cardtype ct dev1)) h1 =
          Some (ss, h2) /\
        dev' = mkDev true ct (DWORD (ss - 1)) 0 0 /\
        h' = EvRelease :: EvFreqHigh :: h2) \/
     (ct = 0 /\ r = SD_NOINIT /\ dev' = set_mount false dev /\
      h' = EvRelease :: h1)).
Proof.
  intros Ht H. unfold Project_2B.SD_Init in H.
  apply T_bind_Some in H as ([ct dev1] & h1 & E & H).
  exists ct, dev1, h1. split; [exact E|].
  apply Init_finish_result in H.
  destruct H as [H | (Hc & -> & -> & ->)]; [left; exact H|].
  right. apply Init_trys_loop_2B_dev in E.
  destruct E as (_ & E). rewrite E; auto.
Qed.

(** State-machine build: what one call of [SD_Init] does to the device. *)
Lemma SD_Init_2A_call tp cfg fuel dev st h r dev' st' h' :
  Project_2A_Base.SD_Init tp cfg fuel dev st h = Some ((r, dev', st'), h') ->
  (Project_2A_Base.in_states st <> S14 /\
   Project_2A_Base.in_status st' = 1 /\
   (dev' = dev \/ dev' = set_mount false dev)) \/
  (Project_2A_Base.in_states st = S14 /\
   Project_2A_Base.in_status st' = 0 /\
   Init_finish tp fuel (Project_2A_Base.Init_ct st) dev h = Some ((r, dev'), h')).
Proof.
  unfold Project_2A_Base.SD_Init, Project_2A_Base.and_then.
  destruct st as [s status n k cmd ct ocr idx trys].
  cbn [Project_2A_Base.in_states Project_2A_Base.in_status
       Project_2A_Base.Init_n Project_2A_Base.Init_k Project_2A_Base.Init_cmd
       Project_2A_Base.Init_ct Project_2A_Base.Init_ocr
       Project_2A_Base.Init_idx Project_2A_Base.Init_init_trys].
  destruct s; intros H.
  15: { right. apply T_bind_Some in H as ([r1 d1] & h1 & E & H).
        T_done H. auto. }
  all: left; T_inv H; T_done H; cbn; repeat split; auto; discriminate.
Qed.

Lemma SD_Init_op_2A_counters tp cfg fuel : forall calls dev st h r dev' st' h',
  Project_2A_Base.SD_Init_op tp cfg calls fuel dev st h =
    Some ((r, dev', st'), h') ->
  (r = SD_OK /\ mount dev' = true /\
   debug_read dev' = 0 /\ debug_write dev' = 0) \/
  (r = SD_NOINIT /\ same_counters dev dev').
Proof.
  induction calls as [|c IH]; intros dev st h r dev' st' h' H; [discriminate|].
  cbn [Project_2A_Base.SD_Init_op] in H.
  apply T_bind_Some in H as ([[r1 dev1] st1] & h1 & E & H).
  apply SD_Init_2A_call in E.
  destruct E as [(_ & F & Hd) | (_ & F & E)]; rewrite F in H;
    cbn [Z.eqb Pos.eqb] in H.
  - apply IH in H. destruct H as [H | (-> & Hr & Hw)]; [left; exact H|].
    right. split; [reflexivity|].
    destruct Hd as [-> | ->]; split; assumption.
  - T_done H. apply Init_finish_result in E.
    destruct E as [(_ & -> & ss & h2 & _ & -> & _) | (_ & -> & -> & _)].
    + left. auto.
    + right. split; [reflexivity|]. split; reflexivity.
Qed.

(** Blocking build: a read whose command the card rejects releases the bus,
    counts the read and returns [SD_ERROR]. *)
Lemma SD_Read_2B_cmd_rejected tp cfg fuel dev dat sector ofs cnt h r0 h1 :
  sector <= last_sector dev -> cnt <> 0 ->
  __SD_Send_Cmd tp fuel CMD17 sector h = Some (r0, h1) -> r0 <> 0 ->
  Project_2B.SD_Read tp cfg fuel dev dat sector ofs cnt h =
    Some ((SD_ERROR, set_debug_read (debug_incr cfg (debug_read dev)) dev, dat),
          EvRelease :: h1).
Proof.
  intros Hs Hc E Hr. unfold Project_2B.SD_Read.
  replace (last_sector dev <? sector) with false by (symmetry; apply Z.ltb_ge; lia).
  replace (cnt =? 0) with false by (symmetry; apply Z.eqb_neq; lia).
  cbn [orb]. rewrite (T_bind_eq _ _ _ _ _ E); cbv beta.
  apply Z.eqb_neq in Hr. rewrite Hr. reflexivity.
Qed.

(** The increment of a debug counter: one more below the top of the
    counter's type, 0 at the top. *)
Lemma debug_incr_below cfg n :
  0 <= n -> n + 1 < DEBUG_MOD cfg -> debug_incr cfg n = n + 1.
Proof.
  intros H0 H1. unfold debug_incr. apply Z.mod_small. lia.
Qed.

Lemma debug_incr_wraps cfg n :
  0 < DEBUG_MOD cfg -> n = DEBUG_MOD cfg - 1 -> debug_incr cfg n = 0.
Proof.
  intros H0 ->. unfold debug_incr.
  replace (DEBUG_MOD cfg - 1 + 1) with (DEBUG_MOD cfg) by lia.
  apply Z.mod_same. lia.
Qed.

Lemma counters_after_read cfg dev dev' :
  0 <= debug_read dev -> debug_read dev + 1 < DEBUG_MOD cfg ->
  dev' = dev \/ dev' = set_debug_read (debug_incr cfg (debug_read dev)) dev ->
  counters_not_decreased dev dev'.
Proof.
  intros H0 H1 [-> | ->]; unfold counters_not_decreased.
  - lia.
  - cbn [set_debug_read debug_read debug_write].
    rewrite debug_incr_below by assumption. lia.
Qed.

Lemma counters_after_write cfg dev dev' :
  0 <= debug_write dev -> debug_write dev + 1 < DEBUG_MOD cfg ->
  dev' = dev \/ dev' = set_debug_write (debug_incr cfg (debug_write dev)) dev ->
  counters_not_decreased dev dev'.
Proof.
  intros H0 H1 [-> | ->]; unfold counters_not_decreased.
  - lia.
  - cbn [set_debug_write debug_read debug_write].
    rewrite debug_incr_below by assumption. lia.
Qed.

(** C9 (amended).  A read increments the read counter once, in the
    counter's unsigned type, whenever it gets past the parameter check:
    when it succeeds, when the token is not the data-start token, and also
    when the card rejects the read command; it leaves the descriptor alone
    when it returns [SD_PARERR].  A write increments the write counter once
    when it reaches the end of the busy wait (result [SD_OK] or [SD_BUSY])
    and leaves the descriptor alone when it returns [SD_PARERR], [SD_ERROR]
    (command rejected) or [SD_REJECT] (data-response token).  Neither
    touches the other counter.  [SD_Init] sets both counters to 0 when it
    returns [SD_OK] and leaves them as they are when it returns
    [SD_NOINIT].  A counter never decreases except when a successful
    [SD_Init] resets it and when an increment at the top of its unsigned
    type wraps it to 0: below the top an increment is one more, and no read
    and no write, whatever it returns, leaves a counter lower than it found
    it.  Both builds. *)
Theorem debug_counters tp cfg fuel dev dat :
  (* reads *)
  (forall sector ofs cnt h r dev' dat' h',
     Project_2B.SD_Read tp cfg fuel dev dat sector ofs cnt h =
       Some ((r, dev', dat'), h') ->
     (r = SD_PARERR /\ dev' = dev) \/
     (r <> SD_PARERR /\
      dev' = set_debug_read (debug_incr cfg (debug_read dev)) dev)) /\
  (forall calls sector ofs cnt st h r dev' dat' st' h',
     Project_2A_Base.rn_state st = S1 ->
     Project_2A_Base.SD_Read_op tp cfg calls fuel dev dat sector ofs cnt st h =
       Some ((r, dev', dat', st'), h') ->
     (r = SD_PARERR /\ dev' = dev) \/
     (r <> SD_PARERR /\
      dev' = set_debug_read (debug_incr cfg (debug_read dev)) dev)) /\
  (forall sector ofs cnt h r0 h1,
     sector <= last_sector dev -> cnt <> 0 ->
     __SD_Send_Cmd tp fuel CMD17 sector h = Some (r0, h1) -> r0 <> 0 ->
     Project_2B.SD_Read tp cfg fuel dev dat sector ofs cnt h =
       Some ((SD_ERROR,
              set_debug_read (debug_incr cfg (debug_read dev)) dev, dat),
             EvRelease :: h1)) /\
  (* writes *)
  (forall sector h r dev' h',
     Project_2B.SD_Write tp cfg fuel dev dat sector h = Some ((r, dev'), h') ->
     ((r = SD_PARERR \/ r = SD_ERROR \/ r = SD_REJECT) /\ dev' = dev) \/
     (r = SD_OK /\
      dev' = set_debug_write (debug_incr cfg (debug_write dev)) dev)) /\
  (forall calls sector st h r dev' st' h',
     Project_2A_Base.n_state st = S1 ->
     Project_2A_Base.SD_Write_op tp cfg calls fuel dev dat sector st h =
       Some ((r, dev', st'), h') ->
     ((r = SD_PARERR \/ r = SD_ERROR \/ r = SD_REJECT) /\ dev' = dev) \/
     ((r = SD_OK \/ r = SD_BUSY) /\
      dev' = set_debug_write (debug_incr cfg (debug_write dev)) dev)) /\
  (* initialisation *)
  (forall h r dev' h',
     Project_2B.SD_Init tp cfg fuel dev h = Some ((r, dev'), h') ->
     (r = SD_OK /\ debug_read dev' = 0 /\ debug_write dev' = 0) \/
     (r = SD_NOINIT /\ same_counters dev dev')) /\
  (forall calls st h r dev' st' h',
     Project_2A_Base.SD_Init_op tp cfg calls fuel dev st h =
       Some ((r, dev', st'), h') ->
     (r = SD_OK /\ debug_read dev' = 0 /\ debug_write dev' = 0) \/
     (r = SD_NOINIT /\ same_counters dev dev')) /\
  (* the increment: one more below the top of the counter's type, 0 at it *)
  (forall n, 0 <= n -> n + 1 < DEBUG_MOD cfg -> debug_incr cfg n = n + 1) /\
  (forall n, 0 < DEBUG_MOD cfg -> n = DEBUG_MOD cfg - 1 ->
     debug_incr cfg n = 0) /\
  (* below the top, no read and no write decreases a counter *)
  (forall sector ofs cnt h r dev' dat' h',
     0 <= debug_read dev -> debug_read dev + 1 < DEBUG_MOD cfg ->
     Project_2B.SD_Read tp cfg fuel dev dat sector ofs cnt h =
       Some ((r, dev', dat'), h') ->
     counters_not_decreased dev dev') /\
  (forall calls sector ofs cnt st h r dev' dat' st' h',
     0 <= debug_read dev -> debug_read dev + 1 < DEBUG_MOD cfg ->
     Project_2A_Base.rn_state st = S1 ->
     Project_2A_Base.SD_Read_op tp cfg calls fuel dev dat sector ofs cnt st h =
       Some ((r, dev', dat', st'), h') ->
     counters_not_decreased dev dev') /\
  (forall sector h r dev' h',
     0 <= debug_write dev -> debug_write dev + 1 < DEBUG_MOD cfg ->
     Project_2B.SD_Write tp cfg fuel dev dat sector h = Some ((r, dev'), h') ->
     counters_not_decreased dev dev') /\
  (forall calls sector st h r dev' st' h',
     0 <= debug_write dev -> debug_write dev + 1 < DEBUG_MOD cfg ->
     Project_2A_Base.n_state st = S1 ->
     Project_2A_Base.SD_Write_op tp cfg calls fuel dev dat sector st h =
       Some ((r, dev', st'), h') ->
     counters_not_decreased dev dev').
Proof.
  repeat apply conj.
  - intros. eapply SD_Read_2B_counters; eassumption.
  - intros. eapply SD_Read_op_2A_counters; eassumption.
  - intros. eapply SD_Read_2B_cmd_rejected; eassumption.
  - intros. eapply SD_Write_2B_counters; eassumption.
  - intros. eapply SD_Write_op_2A_counters; eassumption.
  - intros h r dev' h' H. unfold Project_2B.SD_Init in H.
    apply T_bind_Some in H as ([ct dev1] & h1 & E & H).
    apply Init_finish_result in H.
    destruct H as [(_ & -> & ss & h2 & _ & -> & _) | (_ & -> & -> & _)].
    + left. auto.
    + right. split; [reflexivity|].
      apply Init_trys_loop_2B_dev in E.
      destruct E as ([-> | (-> & _)] & _); split; reflexivity.
  - intros calls st h r dev' st' h' H.
    apply SD_Init_op_2A_counters in H.
    destruct H as [(-> & _ & H) | H]; [left; auto | right; exact H].
  - apply debug_incr_below.
  - apply debug_incr_wraps.
  - intros sector ofs cnt h r dev' dat' h' H0 H1 H.
    apply SD_Read_2B_counters in H.
    apply (counters_after_read cfg); [assumption | assumption | tauto].
  - intros calls sector ofs cnt st h r dev' dat' st' h' H0 H1 Hs H.
    apply SD_Read_op_2A_counters in H; [|exact Hs].
    apply (counters_after_read cfg); [assumption | assumption | tauto].
  - intros sector h r dev' h' H0 H1 H.
    apply SD_Write_2B_counters in H.
    apply (counters_after_write cfg); [assumption | assumption | tauto].
  - intros calls sector st h r dev' st' h' H0 H1 Hs H.
    apply SD_Write_op_2A_counters in H; [|exact Hs].
    apply (counters_after_write cfg); [assumption | assumption | tauto].
Qed.

Lemma debug_counters_witness :
  (exists dev' h',
     Project_2B.SD_Read card_rejects_commands cfg0 10 dev0 buf512 5 0 512 [] =
       Some ((SD_ERROR, dev', buf512), h') /\
     debug_read dev' = 8) /\
  (exists r dev' st' h',
     Project_2A_Base.SD_Write_op card_crc_error cfg0 600 600 dev0 buf512 5
       Project_2A_Base.WriteSt_boot [] = Some ((r, dev', st'), h') /\
     counters_not_decreased dev0 dev').
Proof.
  destruct (debug_counters card_rejects_commands cfg0 10 dev0 buf512)
    as (_ & _ & H & _).
  destruct (debug_counters card_crc_error cfg0 600 dev0 buf512)
    as (_ & _ & _ & _ & _ & _ & _ & _ & _ & _ & _ & _ & Hw).
  split.
  - eexists _, _. split.
    + eapply H; [cbn; lia | lia | vm_compute; reflexivity | lia].
    + reflexivity.
  - destruct (Project_2A_Base.SD_Write_op card_crc_error cfg0 600 600 dev0
                buf512 5 Project_2A_Base.WriteSt_boot [])
      as [[[[r dev'] st'] h']|] eqn:E; [|vm_compute in E; discriminate].
    exists r, dev', st', h'. split; [reflexivity|].
    apply (Hw 600%nat 5 Project_2A_Base.WriteSt_boot [] r dev' st' h');
      [cbn; lia | cbn; lia | reflexivity | exact E].
Defined.

(** C9 (counterexample).  A read whose command the card rejects returns
    [SD_ERROR] and has incremented the read counter; a write whose block the
    card rejects at the data-response token, after having accepted the
    command, returns [SD_REJECT] and has not incremented the write
    counter; a successful read that finds the read counter at the top of
    its type (65535 under [cfg0]) leaves it at 0, without any
    initialisation. *)
Lemma debug_counters_not_as_claimed :
  (exists dev' h',
     Project_2B.SD_Read card_rejects_commands cfg0 10 dev0 buf512 5 0 512 [] =
       Some ((SD_ERROR, dev', buf512), h') /\
     debug_read dev0 = 7 /\ debug_read dev' = 8) /\
  (exists dev' h',
     Project_2B.SD_Write card_crc_error cfg0 600 dev0 buf512 5 [] =
       Some ((SD_REJECT, dev'), h') /\
     debug_write dev0 = 7 /\ debug_write dev' = 7) /\
  (exists dev' dat' h',
     Project_2B.SD_Read card_read cfg0 600 (set_debug_read 65535 dev0)
       (repeat 0 5) 5 10 5 [] = Some ((SD_OK, dev', dat'), h') /\
     debug_read (set_debug_read 65535 dev0) = 65535 /\ debug_read dev' = 0).
Proof.
  split; [|split].
  - do 2 eexists. split; [vm_compute; reflexivity|]. split; reflexivity.
  - do 2 eexists. split; [vm_compute; reflexivity|]. split; reflexivity.
  - do 3 eexists. split; [vm_compute; reflexivity|]. split; reflexivity.
Qed.

(** ** The token wait of the state-machine build *)

(** State-machine build: the wait for the data-start token (S3) is bounded
    by the timer.  If the bus stays at 0xFF and the timer counts down, the
    read completes with [SD_ERROR] after at most [N - n] more polls, having
    released the bus and counted the read. *)
Lemma SD_Read_op_S3_timeout_2A tp cfg fuel dev dat sector ofs cnt N :
  timer_expires tp N -> dead_bus tp ->
  forall k calls st h n,
    Project_2A_Base.rn_state st = S3 ->
    Project_2A_Base.Read_tkn st = 0xFF ->
    Project_2A_Base.Read_res st = SD_ERROR ->
    polls_since_on h = Some n -> (N <= k + n)%nat -> (k + 3 <= calls)%nat ->
    exists st' h',
      Project_2A_Base.SD_Read_op tp cfg calls fuel dev dat sector ofs cnt st h =
        Some ((SD_ERROR, set_debug_read (debug_incr cfg (debug_read dev)) dev,
               dat, st'), h') /\
      Project_2A_Base.rn_state st' = S1 /\
      Project_2A_Base.read_status st' = 0.
Proof.
  intros Ht Hd.
  assert (Hexit : forall calls st h,
    Project_2A_Base.rn_state st = S3 ->
    Project_2A_Base.Read_tkn st = 0xFF ->
    Project_2A_Base.Read_res st = SD_ERROR ->
    timer_running tp h = false -> (3 <= calls)%nat ->
    exists st' h',
      Project_2A_Base.SD_Read_op tp cfg calls fuel dev dat sector ofs cnt st h =
        Some ((SD_ERROR, set_debug_read (debug_incr cfg (debug_read dev)) dev,
               dat, st'), h') /\
      Project_2A_Base.rn_state st' = S1 /\
      Project_2A_Base.read_status st' = 0).
  { intros calls st h Hs Hk Hr Hrun Hc.
    destruct st as [rs status res tkn data i p]; cbn in Hs, Hk, Hr; subst.
    destruct calls as [|[|[|c]]]; try lia.
    cbn [Project_2A_Base.SD_Read_op Project_2A_Base.SD_Read
         Project_2A_Base.rn_state Project_2A_Base.Read_tkn].
    change (255 =? 255) with true. unfold Project_2A_Base.and_then. cbv iota.
    rewrite !T_bind_assoc.
    rewrite (T_bind_eq _ _ _ _ _ (SPI_Timer_Status_eq _ _)); cbv beta.
    rewrite Hrun. cbv iota.
    do 2 eexists. split; [reflexivity|]. split; reflexivity. }
  induction k as [|k IH]; intros calls st h n Hs Hk Hr Hp Hn Hc.
  - apply Hexit; try assumption; try lia. apply (Ht h n Hp). lia.
  - destruct (timer_running tp h) eqn:Hrun; [|apply Hexit; try assumption; lia].
    destruct st as [rs status res tkn data i p]; cbn in Hs, Hk, Hr; subst.
    destruct calls as [|c]; [lia|].
    cbn [Project_2A_Base.SD_Read_op Project_2A_Base.SD_Read
         Project_2A_Base.rn_state Project_2A_Base.Read_tkn].
    change (255 =? 255) with true. unfold Project_2A_Base.and_then. cbv iota.
    rewrite !T_bind_assoc.
    rewrite (T_bind_eq _ _ _ _ _ (SPI_Timer_Status_eq _ _)); cbv beta.
    rewrite Hrun. cbv iota. step_RW. rewrite T_bind_ret.
    cbn [Project_2A_Base.read_status Z.eqb Pos.eqb].
    rewrite Hd.
    apply (IH c _ _ (S n)); try reflexivity; try lia.
    cbn [polls_since_on]. rewrite Hp. reflexivity.
Qed.

(** * Further properties of the driver *)

(** ** [__SD_Power_Of_Two] *)

Lemma Power_Of_Two_iter (n : nat) :
  Nat.iter n (fun partial => DWORD (partial * 2)) 1 = 2 ^ Z.of_nat n mod 2 ^ 32.
Proof.
  induction n as [|n IH].
  - reflexivity.
  - rewrite Nat.iter_succ, IH. unfold DWORD.
    change 0x100000000 with (2 ^ 32).
    rewrite Z.mul_mod_idemp_l by lia.
    rewrite Nat2Z.inj_succ, Z.pow_succ_r by lia.
    f_equal. lia.
Qed.

(** X1.  [__SD_Power_Of_Two e] is 2^e for an exponent below 32; from 32 on
    the doubling has overflowed the DWORD and the result is 0. *)
Theorem Power_Of_Two_value e :
  0 <= e ->
  (e < 32 -> __SD_Power_Of_Two e = 2 ^ e) /\
  (32 <= e -> __SD_Power_Of_Two e = 0).
Proof.
  intros He. unfold __SD_Power_Of_Two. rewrite Power_Of_Two_iter.
  rewrite Z2Nat.id by lia. split; intros H.
  - apply Z.mod_small. split; [apply Z.pow_nonneg; lia|].
    apply Z.pow_lt_mono_r; lia.
  - replace e with (32 + (e - 32)) by lia.
    rewrite Z.pow_add_r by lia.
    rewrite Z.mul_comm. apply Z.mod_mul. lia.
Qed.

Lemma Power_Of_Two_value_witness :
  __SD_Power_Of_Two 9 = 512 /\ __SD_Power_Of_Two 40 = 0.
Proof.
  split.
  - apply (proj1 (Power_Of_Two_value 9 ltac:(lia))). lia.
  - apply (proj2 (Power_Of_Two_value 40 ltac:(lia))). lia.
Defined.

(** ** The parameter check of the blocking build *)

(** X2.  Blocking build: a read that returns has returned [SD_PARERR]
    exactly when the sector lies beyond [last_sector] or the count is 0, a
    write exactly when the sector lies beyond [last_sector]; and in that case
    nothing was done: no transport call, and the descriptor and the buffer
    are as they were. *)
Theorem SD_2B_PARERR_iff tp cfg fuel dev dat sector ofs cnt h :
  (forall r dev' dat' h',
     Project_2B.SD_Read tp cfg fuel dev dat sector ofs cnt h =
       Some ((r, dev', dat'), h') ->
     (r = SD_PARERR <-> (last_sector dev < sector \/ cnt = 0)) /\
     (r = SD_PARERR -> dev' = dev /\ dat' = dat /\ h' = h)) /\
  (forall r dev' h',
     Project_2B.SD_Write tp cfg fuel dev dat sector h = Some ((r, dev'), h') ->
     (r = SD_PARERR <-> last_sector dev < sector) /\
     (r = SD_PARERR -> dev' = dev /\ h' = h)).
Proof.
  split.
  - intros r dev' dat' h' H.
    destruct (Z.ltb_spec (last_sector dev) sector) as [Hlt|Hge].
    + rewrite SD_Read_2B_PARERR in H by auto. T_done H. tauto.
    + destruct (Z.eq_dec cnt 0) as [Hc|Hc].
      * rewrite SD_Read_2B_PARERR in H by auto. T_done H. tauto.
      * assert (Hn : r <> SD_PARERR).
        { revert H. unfold Project_2B.SD_Read.
          replace (last_sector dev <? sector) with false
            by (symmetry; apply Z.ltb_ge; lia).
          replace (cnt =? 0) with false by (symmetry; apply Z.eqb_neq; lia).
          cbn [orb]. intros H.
          apply T_bind_Some in H as (r0 & h0 & _ & H).
          apply T_bind_Some in H as ([r1 d1] & h1 & E & H).
          apply T_bind_Some in H as (? & ? & _ & H). T_done H.
          destruct (r0 =? 0); [T_inv E; T_done E; discriminate|].
          T_done E. discriminate. }
        split; [split; [tauto | lia] | tauto].
  - intros r dev' h' H.
    destruct (Z.ltb_spec (last_sector dev) sector) as [Hlt|Hge].
    + rewrite SD_Write_2B_PARERR in H by auto. T_done H. tauto.
    + assert (Hn : r <> SD_PARERR).
      { revert H. unfold Project_2B.SD_Write.
        replace (last_sector dev <? sector) with false
          by (symmetry; apply Z.ltb_ge; lia).
        intros H. T_inv H; T_done H; discriminate. }
      split; [split; [tauto | lia] | tauto].
Qed.

Lemma SD_2B_PARERR_iff_witness : last_sector dev0 < 100 \/ 512 = 0.
Proof.
  destruct (SD_2B_PARERR_iff card_read cfg0 600 dev0 buf512 100 0 512 [])
    as (H & _).
  destruct (H SD_PARERR dev0 buf512 [] ltac:(vm_compute; reflexivity)) as (Hi & _).
  apply Hi. reflexivity.
Defined.

(** ** The command frame *)

Lemma bytes_sent_RW o i es : bytes_sent (EvRW o i :: es) = bytes_sent es ++ [o].
Proof. reflexivity. Qed.

Lemma bytes_sent_app es1 es2 :
  bytes_sent (es1 ++ es2) = bytes_sent es2 ++ bytes_sent es1.
Proof. unfold bytes_sent. rewrite omap_app. apply rev_app_distr. Qed.

(** The response loop only sends 0xFF, at least once, and returns the last
    byte it received: either a byte with bit 7 clear, and then the timer was
    not asked again, or a byte with bit 7 set after the timer had answered
    that it is no longer running. *)
Lemma Send_Cmd_response_shape tp : forall fuel h r h',
  Send_Cmd_response tp fuel h = Some (r, h') ->
  exists es k,
    h' = es ++ h /\ bytes_sent es = repeat 0xFF (S k) /\
    ((Z.land r 0x80 = 0 /\ exists tl, es = EvRW 0xFF r :: tl) \/
     (Z.land r 0x80 <> 0 /\
      exists tl, es = EvTimerStatus false :: EvRW 0xFF r :: tl)).
Proof.
  induction fuel as [|f IH]; intros h r h' H; [discriminate|].
  cbn [Send_Cmd_response] in H. revert H. step_RW.
  destruct (Z.land _ 128 =? 0) eqn:Eb; cbn [negb].
  - intros H. injection H as <- <-. apply Z.eqb_eq in Eb.
    exists [EvRW 0xFF (BYTE (card_reply tp h 0xFF))], 0%nat.
    split; [reflexivity|]. split; [reflexivity|]. left. eauto.
  - rewrite (T_bind_eq _ _ _ _ _ (SPI_Timer_Status_eq _ _)); cbv beta.
    destruct (timer_running tp _) eqn:Er.
    + intros H. apply IH in H as (es & k & -> & Hb & Hr).
      exists (es ++ [EvTimerStatus true; EvRW 0xFF (BYTE (card_reply tp h 0xFF))]),
             (S k).
      split; [rewrite <- app_assoc; reflexivity|].
      split.
      * rewrite bytes_sent_app, Hb. reflexivity.
      * destruct Hr as [(Hz & tl & ->) | (Hz & tl & ->)]; [left | right];
          (split; [exact Hz|]); eexists; reflexivity.
    + intros H. injection H as <- <-. apply Z.eqb_neq in Eb.
      exists [EvTimerStatus false; EvRW 0xFF (BYTE (card_reply tp h 0xFF))], 0%nat.
      split; [reflexivity|]. split; [reflexivity|]. right. eauto.
Qed.

Lemma arg_bytes arg :
  0 <= arg < 2 ^ 32 ->
  ((BYTE (Z.shiftr arg 24) * 256 + BYTE (Z.shiftr arg 16)) * 256
   + BYTE (Z.shiftr arg 8)) * 256 + BYTE (Z.shiftr arg 0) = arg.
Proof.
  intros H. unfold BYTE. rewrite !Z.shiftr_div_pow2 by lia.
  change (2 ^ 24) with 16777216. change (2 ^ 16) with 65536.
  change (2 ^ 8) with 256. change (2 ^ 0) with 1.
  change (2 ^ 32) with 4294967296 in H.
  Z.div_mod_to_equations. lia.
Qed.

Lemma SPI_RW_out_events tp outs : forall h,
  exists es, SPI_RW_out tp outs h = es ++ h /\ bytes_sent es = outs.
Proof.
  induction outs as [|o os IH]; intros h; cbn [SPI_RW_out].
  - exists []. split; reflexivity.
  - destruct (IH (EvRW o (BYTE (card_reply tp h o)) :: h)) as (es & -> & Hb).
    exists (es ++ [EvRW o (BYTE (card_reply tp h o))]). split.
    + rewrite <- app_assoc. reflexivity.
    + rewrite bytes_sent_app, Hb. reflexivity.
Qed.

(** The check byte of a command frame: valid CRCs for CMD0 and CMD8, a dummy
    with the stop bit otherwise. *)
Lemma Send_Cmd_frame_eq tp fuel cmd arg h :
  Send_Cmd_frame tp fuel cmd arg h =
    bind (Send_Cmd_response tp fuel) (fun res => SPI_Timer_Off ;; ret res)
      (EvTimerOn 5 ::
       SPI_RW_out tp
         [cmd; BYTE (Z.shiftr arg 24); BYTE (Z.shiftr arg 16);
          BYTE (Z.shiftr arg 8); BYTE (Z.shiftr arg 0);
          if cmd =? CMD8 then 0x87 else if cmd =? CMD0 then 0x95 else 0x01]
         (SPI_RW_out tp [0xFF] (EvCSLow :: SPI_RW_out tp [0xFF] (EvCSHigh :: h)))).
Proof. reflexivity. Qed.

Lemma Send_Cmd_frame_shape tp fuel cmd arg h r h' :
  Send_Cmd_frame tp fuel cmd arg h = Some (r, h') ->
  exists es k,
    h' = es ++ h /\
    bytes_sent es =
      [0xFF; 0xFF; cmd;
       BYTE (Z.shiftr arg 24); BYTE (Z.shiftr arg 16);
       BYTE (Z.shiftr arg 8); BYTE (Z.shiftr arg 0);
       if cmd =? CMD8 then 0x87 else if cmd =? CMD0 then 0x95 else 0x01]
      ++ repeat 0xFF (S k) /\
    ((Z.land r 0x80 = 0 /\ exists tl, es = EvTimerOff :: EvRW 0xFF r :: tl) \/
     (Z.land r 0x80 <> 0 /\
      exists tl, es = EvTimerOff :: EvTimerStatus false :: EvRW 0xFF r :: tl)).
Proof.
  rewrite Send_Cmd_frame_eq.
  match goal with |- bind _ _ ?hf = _ -> _ =>
    assert (Hf : exists ef, hf = ef ++ h /\
      bytes_sent ef =
        [0xFF; 0xFF; cmd;
         BYTE (Z.shiftr arg 24); BYTE (Z.shiftr arg 16);
         BYTE (Z.shiftr arg 8); BYTE (Z.shiftr arg 0);
         if cmd =? CMD8 then 0x87 else if cmd =? CMD0 then 0x95 else 0x01])
  end.
  { destruct (SPI_RW_out_events tp [0xFF] (EvCSHigh :: h)) as (e1 & -> & B1).
    destruct (SPI_RW_out_events tp [0xFF] (EvCSLow :: e1 ++ EvCSHigh :: h))
      as (e3 & -> & B3).
    match goal with |- context [SPI_RW_out tp ?o ?hh] =>
      destruct (SPI_RW_out_events tp o hh) as (e4 & -> & B4)
    end.
    exists ([EvTimerOn 5] ++ e4 ++ e3 ++ [EvCSLow] ++ e1 ++ [EvCSHigh]). split.
    - rewrite <- !app_assoc. reflexivity.
    - rewrite !bytes_sent_app, B1, B3, B4. reflexivity. }
  destruct Hf as (ef & -> & Bf). intros H.
  apply T_bind_Some in H as (r1 & h2 & E & H).
  apply Send_Cmd_response_shape in E as (es & k & -> & Hb & Hr).
  revert H. unfold SPI_Timer_Off.
  rewrite (T_bind_eq _ _ _ _ _ (eq_refl : emit _ _ = Some (tt, _))); cbv beta.
  intros H. injection H as <- <-.
  exists ([EvTimerOff] ++ es ++ ef), k.
  split; [|split].
  - rewrite <- !app_assoc. reflexivity.
  - rewrite !bytes_sent_app, Hb, Bf.
    change (bytes_sent [EvTimerOff]) with (@nil Z).
    rewrite app_nil_r. reflexivity.
  - destruct Hr as [(Hz & tl & ->) | (Hz & tl & ->)]; [left | right];
      (split; [exact Hz|]); eexists; reflexivity.
Qed.

(** The response loop makes only polls, at least one exchange, and returns
    the byte received by the last exchange. *)
Lemma Send_Cmd_response_polls tp : forall fuel h r h',
  Send_Cmd_response tp fuel h = Some (r, h') ->
  exists polls k,
    h' = polls ++ h /\ forallb is_poll polls = true /\
    bytes_sent polls = repeat 0xFF (S k) /\
    last_received polls = Some r.
Proof.
  induction fuel as [|f IH]; intros h r h' H; [discriminate|].
  cbn [Send_Cmd_response] in H. revert H. step_RW.
  destruct (Z.land _ 128 =? 0) eqn:Eb; cbn [negb].
  - intros H. injection H as <- <-.
    exists [EvRW 0xFF (BYTE (card_reply tp h 0xFF))], 0%nat.
    repeat split; reflexivity.
  - rewrite (T_bind_eq _ _ _ _ _ (SPI_Timer_Status_eq _ _)); cbv beta.
    destruct (timer_running tp _) eqn:Er.
    + intros H. apply IH in H as (polls & k & -> & Hp & Hb & Hl).
      exists (polls ++ [EvTimerStatus true;
                        EvRW 0xFF (BYTE (card_reply tp h 0xFF))]), (S k).
      split; [rewrite <- app_assoc; reflexivity|]. split; [|split].
      * rewrite forallb_app, Hp. reflexivity.
      * rewrite bytes_sent_app, Hb. reflexivity.
      * clear -Hl. induction polls as [|e es IHes]; [discriminate|].
        destruct e; cbn [last_received app] in *; auto.
    + intros H. injection H as <- <-.
      exists [EvTimerStatus false; EvRW 0xFF (BYTE (card_reply tp h 0xFF))],
             0%nat.
      repeat split; reflexivity.
Qed.

(** The events of one command frame, chip-select included. *)
Lemma Send_Cmd_frame_events tp fuel cmd arg h r h' :
  Send_Cmd_frame tp fuel cmd arg h = Some (r, h') ->
  exists polls k,
    h' = EvTimerOff :: polls ++
         frame_sent tp
           [cmd; BYTE (Z.shiftr arg 24); BYTE (Z.shiftr arg 16);
            BYTE (Z.shiftr arg 8); BYTE (Z.shiftr arg 0);
            if cmd =? CMD8 then 0x87 else if cmd =? CMD0 then 0x95 else 0x01]
           h /\
    forallb is_poll polls = true /\
    bytes_sent polls = repeat 0xFF (S k) /\
    last_received polls = Some r.
Proof.
  rewrite Send_Cmd_frame_eq. intros H.
  apply T_bind_Some in H as (r1 & h2 & E & H).
  apply Send_Cmd_response_polls in E as (polls & k & -> & Hp & Hb & Hl).
  revert H. unfold SPI_Timer_Off.
  rewrite (T_bind_eq _ _ _ _ _ (eq_refl : emit _ _ = Some (tt, _))); cbv beta.
  intros H. injection H as <- <-.
  exists polls, k. repeat split; assumption.
Qed.

Lemma frame_sent_events tp bytes h :
  exists ef,
    frame_sent tp bytes h = ef ++ h /\ bytes_sent ef = [0xFF; 0xFF] ++ bytes.
Proof.
  unfold frame_sent.
  destruct (SPI_RW_out_events tp [0xFF] (EvCSHigh :: h)) as (e1 & -> & B1).
  destruct (SPI_RW_out_events tp [0xFF] (EvCSLow :: e1 ++ EvCSHigh :: h))
    as (e3 & -> & B3).
  match goal with |- context [SPI_RW_out tp ?o ?hh] =>
    destruct (SPI_RW_out_events tp o hh) as (e4 & -> & B4)
  end.
  exists ([EvTimerOn 5] ++ e4 ++ e3 ++ [EvCSLow] ++ e1 ++ [EvCSHigh]). split.
  - rewrite <- !app_assoc. reflexivity.
  - rewrite !bytes_sent_app, B1, B3, B4.
    change (bytes_sent [EvCSHigh]) with (@nil Z).
    change (bytes_sent [EvCSLow]) with (@nil Z).
    change (bytes_sent [EvTimerOn 5]) with (@nil Z).
    rewrite app_nil_r. reflexivity.
Qed.

Lemma chip_selected_polls polls h :
  forallb is_poll polls = true ->
  chip_selected (polls ++ h) = chip_selected h.
Proof.
  induction polls as [|e es IH]; [reflexivity|].
  cbn [forallb app]. intros H. apply andb_true_iff in H as (He & Hes).
  destruct e; try discriminate; cbn [chip_selected]; auto.
Qed.

Lemma chip_selected_RW_out tp : forall bytes h,
  chip_selected (SPI_RW_out tp bytes h) = chip_selected h.
Proof.
  induction bytes as [|b bs IH]; intros h; [reflexivity|].
  cbn [SPI_RW_out]. rewrite IH. reflexivity.
Qed.

(** When a frame has been sent and polled for, the card is selected. *)
Lemma chip_selected_frame tp polls bytes h :
  forallb is_poll polls = true ->
  chip_selected (EvTimerOff :: polls ++ frame_sent tp bytes h) = true.
Proof.
  intros Hp. cbn [chip_selected]. rewrite chip_selected_polls by exact Hp.
  unfold frame_sent. cbn [chip_selected].
  rewrite !chip_selected_RW_out. reflexivity.
Qed.

(** X3.  A command without the application flag is sent as one frame: the
    chip-select is raised and a 0xFF sent, the chip-select is lowered and a
    0xFF sent, then the command byte, the four bytes of the argument most
    significant first, and the check byte (0x87 for CMD8, 0x95 for CMD0,
    0x01 otherwise); the 5 ms timer is started, and what follows are only
    polls (0xFF exchanges and timer queries), at least one exchange, until
    the timer is stopped.  The value returned is the byte received by the
    last poll, the chip-select is not touched again, so the card is selected
    when the command returns.  The four argument bytes reassemble to the
    argument. *)
Theorem Send_Cmd_wire tp fuel cmd arg h r h' :
  Z.land cmd 0x80 = 0 -> 0 <= arg < 2 ^ 32 ->
  __SD_Send_Cmd tp fuel cmd arg h = Some (r, h') ->
  exists es b3 b2 b1 b0 k,
    h' = es ++ h /\
    bytes_sent es =
      [0xFF; 0xFF; cmd; b3; b2; b1; b0;
       if cmd =? CMD8 then 0x87 else if cmd =? CMD0 then 0x95 else 0x01]
      ++ repeat 0xFF (S k) /\
    ((b3 * 256 + b2) * 256 + b1) * 256 + b0 = arg /\
    0 <= b3 < 256 /\ 0 <= b2 < 256 /\ 0 <= b1 < 256 /\ 0 <= b0 < 256 /\
    (* the events, chip-select included *)
    exists polls,
      h' = EvTimerOff :: polls ++
           EvTimerOn 5 ::
           SPI_RW_out tp
             [cmd; b3; b2; b1; b0;
              if cmd =? CMD8 then 0x87 else if cmd =? CMD0 then 0x95 else 0x01]
             (SPI_RW_out tp [0xFF]
                (EvCSLow :: SPI_RW_out tp [0xFF] (EvCSHigh :: h))) /\
      forallb is_poll polls = true /\
      bytes_sent polls = repeat 0xFF (S k) /\
      last_received polls = Some r /\
      chip_selected h' = true.
Proof.
  intros Hc Ha H. destruct fuel as [|f]; [discriminate|].
  cbn [__SD_Send_Cmd] in H. rewrite Hc in H. cbn [Z.eqb negb] in H.
  apply Send_Cmd_frame_events in H as (polls & k & -> & Hp & Hb & Hl).
  match goal with |- context [frame_sent tp ?bs h] =>
    destruct (frame_sent_events tp bs h) as (ef & Ef & Bf)
  end.
  exists (EvTimerOff :: polls ++ ef),
    (BYTE (Z.shiftr arg 24)), (BYTE (Z.shiftr arg 16)),
    (BYTE (Z.shiftr arg 8)), (BYTE (Z.shiftr arg 0)), k.
  split; [rewrite Ef, app_comm_cons, app_assoc; reflexivity|].
  split.
  { change (EvTimerOff :: polls ++ ef) with ([EvTimerOff] ++ polls ++ ef).
    rewrite !bytes_sent_app, Hb, Bf.
    change (bytes_sent [EvTimerOff]) with (@nil Z).
    rewrite app_nil_r. reflexivity. }
  split; [apply arg_bytes; exact Ha|].
  unfold BYTE.
  do 4 (split; [apply Z.mod_pos_bound; lia|]).
  exists polls. split; [reflexivity|]. split; [exact Hp|].
  split; [exact Hb|]. split; [exact Hl|].
  apply chip_selected_frame. exact Hp.
Qed.

Lemma Send_Cmd_wire_witness :
  exists es polls,
    bytes_sent es =
      [0xFF; 0xFF; CMD17; 0x12; 0x34; 0x56; 0x78; 0x01; 0xFF] /\
    __SD_Send_Cmd card_read 600 CMD17 0x12345678 [] =
      Some (0, EvTimerOff :: polls ++
               frame_sent card_read [CMD17; 0x12; 0x34; 0x56; 0x78; 0x01] []) /\
    last_received polls = Some 0 /\
    chip_selected es = true.
Proof.
  destruct (__SD_Send_Cmd card_read 600 CMD17 0x12345678 [])
    as [[r h']|] eqn:E; [|vm_compute in E; discriminate].
  assert (r = 0) as -> by (vm_compute in E; congruence).
  destruct (Send_Cmd_wire card_read 600 CMD17 0x12345678 [] 0 h')
    as (es & b3 & b2 & b1 & b0 & k & Eh & Hb & _ & _ & _ & _ & _ &
        polls & Ep & _ & _ & Hl & Hcs);
    [reflexivity | lia | exact E |].
  exists es, polls.
  rewrite app_nil_r in Eh. subst h'.
  vm_compute in E. injection E as <-.
  vm_compute in Hb. injection Hb as Hb3 Hb2 Hb1 Hb0 _. subst b3 b2 b1 b0.
  split; [vm_compute; reflexivity|].
  split; [exact (f_equal (fun x => Some (0, x)) Ep)|].
  split; [exact Hl | exact Hcs].
Defined.

(** X4.  With a timer that counts down within [N] queries, every command
    returns (the wait for the response is bounded), an application command
    included.  The value returned is the last byte received: either a byte
    with bit 7 clear, after which the timer is only stopped, or a byte with
    bit 7 set, and then the timer had just answered that it is no longer
    running.  The bus is never released by a command. *)
Theorem Send_Cmd_bounded tp N fuel cmd arg h :
  timer_expires tp N -> (N + 2 < fuel)%nat ->
  exists r h',
    __SD_Send_Cmd tp fuel cmd arg h = Some (r, h') /\
    released h' = released h /\
    ((Z.land r 0x80 = 0 /\ exists tl, h' = EvTimerOff :: EvRW 0xFF r :: tl) \/
     (Z.land r 0x80 <> 0 /\
      exists tl, h' = EvTimerOff :: EvTimerStatus false :: EvRW 0xFF r :: tl)).
Proof.
  intros Ht Hf.
  destruct (Send_Cmd_total tp N fuel cmd arg h Ht Hf) as (r & h' & E).
  exists r, h'. split; [exact E|]. split; [eapply Send_Cmd_released; exact E|].
  clear Hf. revert cmd arg h r h' E.
  induction fuel as [|f IH]; intros cmd arg h r h' E; [discriminate|].
  cbn [__SD_Send_Cmd] in E.
  assert (F : forall c a h0 r0 h0',
    Send_Cmd_frame tp f c a h0 = Some (r0, h0') ->
    (Z.land r0 0x80 = 0 /\ exists tl, h0' = EvTimerOff :: EvRW 0xFF r0 :: tl) \/
    (Z.land r0 0x80 <> 0 /\
     exists tl, h0' = EvTimerOff :: EvTimerStatus false :: EvRW 0xFF r0 :: tl)).
  { intros c a h0 r0 h0' H.
    apply Send_Cmd_frame_shape in H as (es & k & -> & _ & Hr).
    destruct Hr as [(Hz & tl & ->) | (Hz & tl & ->)]; [left | right];
      (split; [exact Hz|]); eexists; reflexivity. }
  destruct (negb (Z.land cmd 128 =? 0)).
  - apply T_bind_Some in E as (r1 & h1 & E1 & E).
    destruct (1 <? r1).
    + injection E as <- <-. eapply IH. exact E1.
    + eapply F. exact E.
  - eapply F. exact E.
Qed.

Lemma Send_Cmd_bounded_witness :
  exists h', __SD_Send_Cmd card_absent 10 ACMD41 0 [] = Some (0xFF, h').
Proof.
  destruct (Send_Cmd_bounded card_absent 3 10 ACMD41 0 []
              (countdown_expires [] 0xFF 3) ltac:(lia))
    as (r & h' & E & _).
  exists h'. rewrite E. f_equal. f_equal.
  apply (Send_Cmd_dead card_absent dead_bus_card_absent _ _ _ _ _ _ E).
Defined.

(** ** The capacity register, in general *)

Lemma field_unique V lo n q f r :
  0 <= lo -> 0 <= n ->
  V = (q * 2 ^ n + f) * 2 ^ lo + r -> 0 <= r < 2 ^ lo -> 0 <= f < 2 ^ n ->
  Z.land (Z.shiftr V lo) (Z.ones n) = f.
Proof.
  intros Hlo Hn -> Hr Hf.
  rewrite Z.land_ones, Z.shiftr_div_pow2 by lia.
  rewrite Z.div_add_l by lia. rewrite (Z.div_small r) by lia.
  rewrite Z.add_0_r, Z.add_comm, Z.mod_add by lia.
  apply Z.mod_small. lia.
Qed.

Lemma lor_shifted x y k :
  0 <= x -> 0 <= k -> 0 <= y < 2 ^ k -> Z.lor (x * 2 ^ k) y = x * 2 ^ k + y.
Proof.
  intros Hx Hk Hy.
  assert (L : Z.land (x * 2 ^ k) y = 0).
  { apply Z.bits_inj'. intros n Hn. rewrite Z.land_spec, Z.bits_0.
    destruct (Z.lt_ge_cases n k) as [Hlt|Hge].
    - rewrite Z.mul_pow2_bits_low by lia. reflexivity.
    - destruct (Z.eq_dec y 0) as [->|Hy0].
      + rewrite Z.bits_0. apply andb_false_r.
      + rewrite (Z.bits_above_log2 y n); [apply andb_false_r | lia |].
        apply Z.log2_lt_pow2; [lia|].
        apply Z.lt_le_trans with (2 ^ k); [lia|]. apply Z.pow_le_mono_r; lia. }
  rewrite <- Z.lxor_lor by exact L. symmetry. apply Z.add_nocarry_lxor. exact L.
Qed.

Lemma CSD_value_bound acc l :
  0 <= acc -> Forall (fun b => 0 <= b < 256) l ->
  0 <= fold_left (fun a b => a * 256 + b) l acc
     < (acc + 1) * 2 ^ (8 * Z.of_nat (length l)).
Proof.
  intros Ha Hb. revert acc Ha.
  induction Hb as [|b l Hb _ IH]; intros acc Ha.
  - cbn. lia.
  - cbn [fold_left length]. specialize (IH (acc * 256 + b) ltac:(lia)).
    replace (8 * Z.of_nat (S (length l))) with (8 + 8 * Z.of_nat (length l))
      by lia.
    rewrite Z.pow_add_r by lia. change (2 ^ 8) with 256.
    assert (0 < 2 ^ (8 * Z.of_nat (length l))) by (apply Z.pow_pos_nonneg; lia).
    nia.
Qed.

Ltac csd_bytes H :=
  repeat match type of H with
  | Forall _ (_ :: _) => let B := fresh "B" in apply Forall_cons in H as [B H]
  end.

Ltac csd_list csd Hl :=
  do 16 (destruct csd as [|? csd]; [discriminate Hl|]);
  destruct csd; [|discriminate Hl].

Ltac csd_tail l :=
  let R := fresh "R" in
  assert (R : 0 <= fold_left (fun a b => a * 256 + b) l 0
                < (0 + 1) * 2 ^ (8 * Z.of_nat (length l)))
    by (apply CSD_value_bound; [lia | repeat constructor; lia]);
  cbn [fold_left length] in R;
  rewrite Z.add_0_l, Z.mul_1_l in R.

Lemma CSD_fields_v1 csd :
  length csd = 16%nat -> Forall (fun b => 0 <= b < 256) csd ->
  CSD_field csd 83 80 = nth 5 csd 0 mod 16 /\
  CSD_field csd 73 62 =
    ((nth 6 csd 0 mod 4) * 256 + nth 7 csd 0) * 4 + nth 8 csd 0 / 64 /\
  CSD_field csd 49 47 = (nth 9 csd 0 mod 4) * 2 + nth 10 csd 0 / 128.
Proof.
  intros Hl Hb. csd_list csd Hl. csd_bytes Hb. cbn [nth].
  unfold CSD_field, CSD_value. cbn [fold_left].
  change (83 - 80 + 1) with 4. change (73 - 62 + 1) with 12.
  change (49 - 47 + 1) with 3.
  repeat split.
  - csd_tail [z5; z6; z7; z8; z9; z10; z11; z12; z13; z14].
    change (8 * Z.of_nat 10) with 80 in R.
    apply field_unique with
      (q := (((((z*256+z0)*256+z1)*256+z2)*256+z3)*16 + z4 / 16))
      (r := (((((((((z5*256+z6)*256+z7)*256+z8)*256+z9)*256+z10)*256+z11)*256+z12)*256+z13)*256+z14));
      try lia.
    + change (2 ^ 4) with 16. change (2 ^ 80) with 1208925819614629174706176.
      Z.div_mod_to_equations; lia.
    + change (2 ^ 4) with 16. Z.div_mod_to_equations; lia.
  - csd_tail [z8; z9; z10; z11; z12; z13; z14].
    change (8 * Z.of_nat 7) with 56 in R.
    apply field_unique with
      (q := (((((z*256+z0)*256+z1)*256+z2)*256+z3)*256+z4)*64 + z5 / 4)
      (r := (z7 mod 64) * 2^56 + ((((((z8*256+z9)*256+z10)*256+z11)*256+z12)*256+z13)*256+z14));
      try lia.
    + change (2 ^ 12) with 4096. change (2 ^ 62) with 4611686018427387904.
      change (2 ^ 56) with 72057594037927936.
      Z.div_mod_to_equations; lia.
    + change (2 ^ 62) with 4611686018427387904.
      change (2 ^ 56) with 72057594037927936 in *.
      Z.div_mod_to_equations; lia.
    + change (2 ^ 12) with 4096. Z.div_mod_to_equations; lia.
  - csd_tail [z10; z11; z12; z13; z14].
    change (8 * Z.of_nat 5) with 40 in R.
    apply field_unique with
      (q := ((((((((z*256+z0)*256+z1)*256+z2)*256+z3)*256+z4)*256+z5)*256+z6)*256+z7)*64 + z8 / 4)
      (r := (z9 mod 128) * 2^40 + ((((z10*256+z11)*256+z12)*256+z13)*256+z14));
      try lia.
    + change (2 ^ 3) with 8. change (2 ^ 47) with 140737488355328.
      change (2 ^ 40) with 1099511627776.
      Z.div_mod_to_equations; lia.
    + change (2 ^ 47) with 140737488355328.
      change (2 ^ 40) with 1099511627776 in *.
      Z.div_mod_to_equations; lia.
    + change (2 ^ 3) with 8. Z.div_mod_to_equations; lia.
Qed.

Lemma CSD_field_v2 csd :
  length csd = 16%nat -> Forall (fun b => 0 <= b < 256) csd ->
  CSD_field csd 69 48 =
    ((nth 7 csd 0 mod 64) * 256 + nth 8 csd 0) * 256 + nth 9 csd 0.
Proof.
  intros Hl Hb. csd_list csd Hl. csd_bytes Hb. cbn [nth].
  unfold CSD_field, CSD_value. cbn [fold_left].
  change (69 - 48 + 1) with 22.
  csd_tail [z9; z10; z11; z12; z13; z14].
  change (8 * Z.of_nat 6) with 48 in R.
  apply field_unique with
    (q := ((((((z*256+z0)*256+z1)*256+z2)*256+z3)*256+z4)*256+z5)*4 + z6 / 64)
    (r := (((((z9*256+z10)*256+z11)*256+z12)*256+z13)*256+z14));
    try lia.
  - change (2 ^ 22) with 4194304. change (2 ^ 48) with 281474976710656.
    Z.div_mod_to_equations; lia.
  - change (2 ^ 22) with 4194304. Z.div_mod_to_equations; lia.
Qed.

Lemma Power_Of_Two_small e : 0 <= e < 32 -> __SD_Power_Of_Two e = 2 ^ e.
Proof.
  intros He. unfold __SD_Power_Of_Two. rewrite Power_Of_Two_iter.
  rewrite Z2Nat.id by lia. apply Z.mod_small.
  split; [apply Z.pow_nonneg; lia | apply Z.pow_lt_mono_r; lia].
Qed.

Lemma land_masks x :
  Z.land x 0x01 = x mod 2 /\ Z.land x 0x03 = x mod 4 /\
  Z.land x 0x0F = x mod 16 /\ Z.land x 0x3F = x mod 64 /\
  Z.land x 0xFF = x mod 256.
Proof.
  repeat split.
  - apply (Z.land_ones x 1). lia.
  - apply (Z.land_ones x 2). lia.
  - apply (Z.land_ones x 4). lia.
  - apply (Z.land_ones x 6). lia.
  - apply (Z.land_ones x 8). lia.
Qed.

(** The three fields as the version-1 branch assembles them. *)
Lemma Sectors_decode_v1_fields b5 b6 b7 b8 b9 b10 :
  0 <= b5 < 256 -> 0 <= b6 < 256 -> 0 <= b7 < 256 -> 0 <= b8 < 256 ->
  0 <= b9 < 256 -> 0 <= b10 < 256 ->
  BYTE (Z.land b5 0x0F) = b5 mod 16 /\
  WORD (Z.lor (WORD (Z.shiftl (WORD (Z.lor (WORD (Z.shiftl
      (WORD (Z.land b6 0x03)) 8)) b7)) 2))
      (Z.land (Z.shiftr b8 6) 0x03)) =
    ((b6 mod 4) * 256 + b7) * 4 + b8 / 64 /\
  BYTE (Z.lor (BYTE (Z.shiftl (BYTE (Z.land b9 0x03)) 1))
      (Z.land (Z.shiftr b10 7) 0x01)) =
    (b9 mod 4) * 2 + b10 / 128.
Proof.
  intros H5 H6 H7 H8 H9 H10.
  destruct (land_masks b5) as (_ & _ & -> & _).
  destruct (land_masks b6) as (_ & -> & _).
  destruct (land_masks b9) as (_ & -> & _).
  destruct (land_masks (Z.shiftr b8 6)) as (_ & -> & _).
  destruct (land_masks (Z.shiftr b10 7)) as (-> & _).
  rewrite !Z.shiftr_div_pow2 by lia.
  change (2 ^ 6) with 64. change (2 ^ 7) with 128.
  assert (E8 : (b8 / 64) mod 4 = b8 / 64)
    by (apply Z.mod_small; Z.div_mod_to_equations; lia).
  assert (E10 : (b10 / 128) mod 2 = b10 / 128)
    by (apply Z.mod_small; Z.div_mod_to_equations; lia).
  rewrite E8, E10.
  assert (R6 : 0 <= b6 mod 4 < 4) by (apply Z.mod_pos_bound; lia).
  assert (R9 : 0 <= b9 mod 4 < 4) by (apply Z.mod_pos_bound; lia).
  assert (R5 : 0 <= b5 mod 16 < 16) by (apply Z.mod_pos_bound; lia).
  assert (R8 : 0 <= b8 / 64 < 4) by (Z.div_mod_to_equations; lia).
  assert (R10 : 0 <= b10 / 128 < 2) by (Z.div_mod_to_equations; lia).
  repeat split.
  - apply Z.mod_small. lia.
  - rewrite (WORD_small (b6 mod 4)) by lia.
    rewrite (Z.shiftl_mul_pow2 (b6 mod 4) 8) by lia.
    rewrite (WORD_small (b6 mod 4 * 2 ^ 8)) by lia.
    rewrite (lor_shifted (b6 mod 4) b7 8) by lia.
    rewrite (WORD_small (b6 mod 4 * 2 ^ 8 + b7)) by lia.
    rewrite (Z.shiftl_mul_pow2 (b6 mod 4 * 2 ^ 8 + b7) 2) by lia.
    rewrite (WORD_small ((b6 mod 4 * 2 ^ 8 + b7) * 2 ^ 2)) by lia.
    rewrite (lor_shifted (b6 mod 4 * 2 ^ 8 + b7) (b8 / 64) 2) by lia.
    apply WORD_small. lia.
  - unfold BYTE. rewrite (Z.mod_small (b9 mod 4)) by lia.
    rewrite (Z.shiftl_mul_pow2 (b9 mod 4) 1) by lia.
    rewrite (Z.mod_small (b9 mod 4 * 2 ^ 1)) by lia.
    rewrite (lor_shifted (b9 mod 4) (b10 / 128) 1) by lia.
    apply Z.mod_small. lia.
Qed.

(** The field as the version-2 branch assembles it: the six bits taken from
    byte 7 are shifted out of the WORD again. *)
Lemma Sectors_decode_v2_field b7 b8 b9 :
  0 <= b7 < 256 -> 0 <= b8 < 256 -> 0 <= b9 < 256 ->
  WORD (Z.lor (WORD (Z.shiftl (WORD (Z.lor (WORD (Z.shiftl
      (WORD (Z.land b7 0x3F)) 8)) (Z.land b8 0xFF))) 8))
      (Z.land b9 0xFF)) =
    b8 * 256 + b9.
Proof.
  intros H7 H8 H9.
  destruct (land_masks b7) as (_ & _ & _ & -> & _).
  destruct (land_masks b8) as (_ & _ & _ & _ & ->).
  destruct (land_masks b9) as (_ & _ & _ & _ & ->).
  rewrite (Z.mod_small b8 256), (Z.mod_small b9 256) by lia.
  assert (R7 : 0 <= b7 mod 64 < 64) by (apply Z.mod_pos_bound; lia).
  rewrite (WORD_small (b7 mod 64)) by lia.
  rewrite (Z.shiftl_mul_pow2 (b7 mod 64) 8) by lia.
  rewrite (WORD_small (b7 mod 64 * 2 ^ 8)) by lia.
  rewrite (lor_shifted (b7 mod 64) b8 8) by lia.
  rewrite (WORD_small (b7 mod 64 * 2 ^ 8 + b8)) by lia.
  rewrite (Z.shiftl_mul_pow2 (b7 mod 64 * 2 ^ 8 + b8) 8) by lia.
  assert (E : WORD ((b7 mod 64 * 2 ^ 8 + b8) * 2 ^ 8) = b8 * 2 ^ 8).
  { unfold WORD.
    replace ((b7 mod 64 * 2 ^ 8 + b8) * 2 ^ 8)
      with (b8 * 2 ^ 8 + (b7 mod 64) * 0x10000) by lia.
    rewrite Z.mod_add by lia. apply Z.mod_small. lia. }
  rewrite E. rewrite (lor_shifted b8 b9 8) by lia.
  apply WORD_small. lia.
Qed.

Lemma DWORD_small x : 0 <= x < 0x100000000 -> DWORD x = x.
Proof. intros H. unfold DWORD. apply Z.mod_small. lia. Qed.

Lemma DWORD_mul_l a b : DWORD (DWORD a * b) = DWORD (a * b).
Proof. unfold DWORD. apply Z.mul_mod_idemp_l. lia. Qed.

(** X5.  What [__SD_Sectors] makes of any sixteen-byte register.  For a
    version-1 card type the result is the capacity in bytes, cut to 32 bits,
    computed from the fields C_SIZE [73:62], C_SIZE_MULT [49:47] and
    READ_BL_LEN [83:80]; with blocks of 512 bytes or more that is 512 times
    the number of sectors.  For a version-2 card type it is
    (C_SIZE mod 65536 + 1) * 1024, which is the number of sectors exactly
    when C_SIZE [69:48] fits sixteen bits.  For any other card type (MMC)
    the register is ignored and the result is 4. *)
Theorem Sectors_decode_fields ct csd :
  length csd = 16%nat -> Forall (fun b => 0 <= b < 256) csd ->
  (Z.land ct SDCT_SD1 <> 0 ->
     Sectors_decode ct csd = DWORD (CSD_bytes_v1 csd) /\
     (9 <= CSD_field csd 83 80 ->
      CSD_bytes_v1 csd = 512 * CSD_sectors_v1 csd)) /\
  (Z.land ct SDCT_SD1 = 0 -> Z.land ct SDCT_SD2 <> 0 ->
     Sectors_decode ct csd = (CSD_field csd 69 48 mod 0x10000 + 1) * 1024 /\
     (Sectors_decode ct csd = CSD_sectors_v2 csd <->
      CSD_field csd 69 48 < 0x10000)) /\
  (Z.land ct SDCT_SD1 = 0 -> Z.land ct SDCT_SD2 = 0 ->
     Sectors_decode ct csd = 4).
Proof.
  intros Hl Hb.
  destruct (CSD_fields_v1 csd Hl Hb) as (EBL & EC & EM).
  pose proof (CSD_field_v2 csd Hl Hb) as EC2.
  assert (Hn : forall i, 0 <= nth i csd 0 < 256).
  { clear -Hb. induction Hb as [|b l Hb0 _ IH]; intros [|i]; cbn [nth];
      try lia; apply IH. }
  pose proof (Hn 5%nat) as H5. pose proof (Hn 6%nat) as H6.
  pose proof (Hn 7%nat) as H7. pose proof (Hn 8%nat) as H8.
  pose proof (Hn 9%nat) as H9. pose proof (Hn 10%nat) as H10.
  destruct (Sectors_decode_v1_fields _ _ _ _ _ _ H5 H6 H7 H8 H9 H10)
    as (FBL & FC & FM).
  pose proof (Sectors_decode_v2_field _ _ _ H7 H8 H9) as FC2.
  assert (RBL : 0 <= CSD_field csd 83 80 < 16)
    by (rewrite EBL; apply Z.mod_pos_bound; lia).
  assert (RM : 0 <= CSD_field csd 49 47 < 8)
    by (rewrite EM; Z.div_mod_to_equations; lia).
  assert (RC : 0 <= CSD_field csd 73 62 < 4096)
    by (rewrite EC; Z.div_mod_to_equations; lia).
  split; [|split].
  - intros H1. split.
    + unfold Sectors_decode.
      apply Z.eqb_neq in H1. rewrite H1. cbn [negb].
      cbv zeta. rewrite FBL, FC, FM, <- EBL, <- EC, <- EM.
      unfold CSD_bytes_v1.
      unfold BYTE at 1. rewrite (Z.mod_small (_ + 2)) by lia.
      rewrite !Power_Of_Two_small by lia.
      rewrite (DWORD_small (_ + 1)) by lia.
      rewrite DWORD_mul_l. reflexivity.
    + intros H9'. unfold CSD_sectors_v1, CSD_bytes_v1.
      set (C := CSD_field csd 73 62) in *. set (M := CSD_field csd 49 47) in *.
      set (BL := CSD_field csd 83 80) in *.
      assert (Ep : 2 ^ BL = 512 * 2 ^ (BL - 9)).
      { change 512 with (2 ^ 9). rewrite <- Z.pow_add_r by lia.
        f_equal. lia. }
      rewrite Ep.
      replace ((C + 1) * 2 ^ (M + 2) * (512 * 2 ^ (BL - 9)))
        with ((C + 1) * 2 ^ (M + 2) * 2 ^ (BL - 9) * 512) by ring.
      rewrite Z.div_mul by lia. ring.
  - intros H1 H2.
    assert (E : Sectors_decode ct csd
                = (CSD_field csd 69 48 mod 0x10000 + 1) * 1024).
    { unfold Sectors_decode. rewrite H1. change (0 =? 0) with true.
      apply Z.eqb_neq in H2. rewrite H2. cbn [negb].
      cbv zeta. rewrite FC2.
      replace (CSD_field csd 69 48 mod 0x10000)
        with (nth 8 csd 0 * 256 + nth 9 csd 0).
      2:{ rewrite EC2.
          replace ((nth 7 csd 0 mod 64 * 256 + nth 8 csd 0) * 256 + nth 9 csd 0)
            with (nth 8 csd 0 * 256 + nth 9 csd 0
                  + (nth 7 csd 0 mod 64) * 0x10000) by lia.
          rewrite Z.mod_add by lia. symmetry. apply Z.mod_small. lia. }
      change (BYTE (8 + 2)) with 10.
      rewrite !Power_Of_Two_small by lia.
      change (2 ^ 10) with 1024. change (2 ^ 0) with 1.
      rewrite (DWORD_small (_ + 1)) by lia.
      rewrite DWORD_mul_l, Z.mul_1_r. apply DWORD_small. lia. }
    split; [exact E|]. rewrite E. unfold CSD_sectors_v2.
    assert (R2 : 0 <= CSD_field csd 69 48)
      by (rewrite EC2; Z.div_mod_to_equations; lia).
    split; intros HC.
    + assert (CSD_field csd 69 48 mod 65536 = CSD_field csd 69 48) by lia.
      Z.div_mod_to_equations; lia.
    + rewrite Z.mod_small by lia. reflexivity.
  - intros H1 H2. unfold Sectors_decode. rewrite H1, H2. reflexivity.
Qed.

Lemma Sectors_decode_fields_witness :
  Sectors_decode SDCT_SD1 csd_v1_1GiB = DWORD (CSD_bytes_v1 csd_v1_1GiB) /\
  CSD_bytes_v1 csd_v1_1GiB = 512 * CSD_sectors_v1 csd_v1_1GiB /\
  Sectors_decode (Z.lor SDCT_SD2 SDCT_BLOCK) csd_v2_64GB =
    (CSD_field csd_v2_64GB 69 48 mod 0x10000 + 1) * 1024 /\
  Sectors_decode SDCT_MMC csd_v2_8GB = 4.
Proof.
  assert (F1 : Forall (fun b => 0 <= b < 256) csd_v1_1GiB)
    by (unfold csd_v1_1GiB; repeat constructor; lia).
  assert (F2 : Forall (fun b => 0 <= b < 256) csd_v2_64GB)
    by (unfold csd_v2_64GB; repeat constructor; lia).
  assert (F3 : Forall (fun b => 0 <= b < 256) csd_v2_8GB)
    by (unfold csd_v2_8GB; repeat constructor; lia).
  assert (N1 : Z.land SDCT_SD1 SDCT_SD1 <> 0) by discriminate.
  assert (N2 : Z.land (Z.lor SDCT_SD2 SDCT_BLOCK) SDCT_SD2 <> 0)
    by discriminate.
  assert (N3 : 9 <= CSD_field csd_v1_1GiB 83 80)
    by (vm_compute; discriminate).
  pose proof (Sectors_decode_fields SDCT_SD1 csd_v1_1GiB eq_refl F1)
    as (V1 & _ & _).
  pose proof (Sectors_decode_fields (Z.lor SDCT_SD2 SDCT_BLOCK) csd_v2_64GB
                eq_refl F2) as (_ & V2 & _).
  pose proof (Sectors_decode_fields SDCT_MMC csd_v2_8GB eq_refl F3)
    as (_ & _ & V3).
  split; [|split; [|split]].
  - exact (proj1 (V1 N1)).
  - exact (proj2 (V1 N1) N3).
  - exact (proj1 (V2 eq_refl N2)).
  - exact (V3 eq_refl eq_refl).
Defined.

(** ** The bus after a write *)

Lemma Write_data_loop_bus tp dat : forall fuel idx h u h',
  Project_2B.Write_data_loop tp fuel idx dat h = Some (u, h') ->
  released h' = released h /\ chip_selected h' = chip_selected h.
Proof.
  induction fuel as [|f IH]; intros idx h u h' H; [discriminate|].
  cbn [Project_2B.Write_data_loop] in H.
  destruct (negb (idx =? SD_BLK_SIZE)).
  - revert H. step_RW. intros H. apply IH in H. exact H.
  - injection H as <- <-. auto.
Qed.

Lemma Write_busy_loop_bus tp : forall fuel h line h',
  Project_2B.Write_busy_loop tp fuel h = Some (line, h') ->
  released h' = released h /\ chip_selected h' = chip_selected h.
Proof.
  induction fuel as [|f IH]; intros h line h' H; [discriminate|].
  cbn [Project_2B.Write_busy_loop] in H. revert H. step_RW.
  destruct (_ =? 0).
  - intros H. apply IH in H. exact H.
  - intros H. injection H as <- <-. auto.
Qed.

Lemma SD_Write_2B_bus tp cfg fuel dev dat sector h r dev' h' :
  Project_2B.SD_Write tp cfg fuel dev dat sector h = Some ((r, dev'), h') ->
  released h' = released h /\ (r <> SD_PARERR -> chip_selected h' = true).
Proof.
  unfold Project_2B.SD_Write. intros H.
  destruct (last_sector dev <? sector).
  - injection H as <- <- <-. split; [reflexivity|]. intros N. contradiction.
  - apply T_bind_Some in H as (r0 & h0 & E0 & H).
    pose proof (Send_Cmd_released _ _ _ _ _ _ _ E0) as R0.
    pose proof (Send_Cmd_CMD24_selected _ _ _ _ _ _ E0) as C0.
    destruct (r0 =? 0).
    + revert H. step_RW. intros H.
      apply T_bind_Some in H as (u & h2 & E2 & H).
      apply Write_data_loop_bus in E2 as (R2 & C2).
      revert H. do 3 step_RW.
      destruct (negb (Z.land _ 31 =? 5)).
      * intros H. injection H as <- <- <-.
        cbn [released existsb orb chip_selected] in *.
        fold (released h2). rewrite R2, C2. auto.
      * intros H. apply T_bind_Some in H as (line & h3 & E3 & H).
        apply Write_busy_loop_bus in E3 as (R3 & C3).
        assert (h' = h3) by (destruct (line =? 0); injection H; auto).
        subst h'. rewrite R3, C3.
        cbn [released existsb orb chip_selected] in *.
        fold (released h2). rewrite R2, C2. auto.
    + injection H as <- <- <-. auto.
Qed.

(** One call of the write state machine: only the call that sends the
    command touches the chip select, and it leaves the card selected. *)
Lemma SD_Write_2A_call_bus tp cfg fuel dev dat sector st h r dev' st' h' :
  Project_2A_Base.SD_Write tp cfg fuel dev dat sector st h =
    Some ((r, dev', st'), h') ->
  released h' = released h /\
  match Project_2A_Base.n_state st with
  | S2 => chip_selected h' = true
  | _ => chip_selected h' = chip_selected h
  end.
Proof.
  unfold Project_2A_Base.SD_Write, Project_2A_Base.and_then.
  destruct st as [ns status idx line].
  cbn [Project_2A_Base.n_state Project_2A_Base.Write_idx
       Project_2A_Base.Write_line Project_2A_Base.idle_busy_status].
  destruct ns; intros H; try discriminate.
  - destruct (last_sector dev <? sector); injection H as <- <- <- <-; auto.
  - apply T_bind_Some in H as (r0 & h0 & E0 & H).
    pose proof (Send_Cmd_released _ _ _ _ _ _ _ E0) as R0.
    pose proof (Send_Cmd_CMD24_selected _ _ _ _ _ _ E0) as C0.
    destruct (r0 =? 0).
    + revert H. step_RW. intros H. injection H as <- <- <- <-.
      cbn [released existsb orb chip_selected] in *. auto.
    + injection H as <- <- <- <-. auto.
  - destruct (negb (idx =? SD_BLK_SIZE)).
    + revert H. step_RW. intros H. injection H as <- <- <- <-. auto.
    + revert H. do 3 step_RW.
      destruct (negb (Z.land _ 31 =? 5)); intros H;
        injection H as <- <- <- <-; auto.
  - revert H. unfold SPI_Timer_On.
    rewrite (T_bind_eq _ _ _ _ _ (eq_refl : emit _ _ = Some (tt, _))); cbv beta.
    step_RW. intros H. injection H as <- <- <- <-. auto.
  - destruct (line =? 0); cbv iota in H.
    + revert H. rewrite ?T_bind_assoc.
      rewrite (T_bind_eq _ _ _ _ _ (SPI_Timer_Status_eq _ _)); cbv beta.
      destruct (timer_running tp h).
      * step_RW. intros H. injection H as <- <- <- <-. auto.
      * unfold SPI_Timer_Off.
        rewrite (T_bind_eq _ _ _ _ _ (eq_refl : emit _ _ = Some (tt, _)));
          cbv beta.
        intros H. injection H as <- <- <- <-. auto.
    + revert H. rewrite T_bind_ret. unfold SPI_Timer_Off.
      rewrite (T_bind_eq _ _ _ _ _ (eq_refl : emit _ _ = Some (tt, _)));
        cbv beta.
      intros H. injection H as <- <- <- <-. auto.
  - destruct (line =? 0); injection H as <- <- <- <-; auto.
Qed.

Lemma SD_Write_op_2A_bus tp cfg fuel dat sector :
  forall calls dev st h r dev' st' h',
  Project_2A_Base.SD_Write_op tp cfg calls fuel dev dat sector st h =
    Some ((r, dev', st'), h') ->
  released h' = released h /\
  (Project_2A_Base.n_state st = S2 -> chip_selected h' = true) /\
  (Project_2A_Base.n_state st = S1 -> r <> SD_PARERR ->
   chip_selected h' = true) /\
  (Project_2A_Base.n_state st <> S1 -> Project_2A_Base.n_state st <> S2 ->
   chip_selected h' = chip_selected h).
Proof.
  induction calls as [|c IH]; intros dev st h r dev' st' h' H; [discriminate|].
  cbn [Project_2A_Base.SD_Write_op] in H.
  apply T_bind_Some in H as ([[r1 dev1] st1] & h1 & E & H).
  pose proof (SD_Write_2A_call_bus _ _ _ _ _ _ _ _ _ _ _ _ E) as (R1 & C1).
  pose proof (SD_Write_2A_call _ _ _ _ _ _ _ _ _ _ _ _ E) as K.
  destruct (Project_2A_Base.idle_busy_status st1 =? 1) eqn:F.
  - apply Z.eqb_eq in F. apply IH in H as (R & C2 & _ & C3).
    split; [congruence|].
    destruct (Project_2A_Base.n_state st) eqn:Hs; try contradiction;
      (split; [intros; try discriminate | split; intros; try congruence]).
    + destruct K as (_ & [(_ & F') | (_ & Hn)]); [congruence|]. auto.
    + destruct K as (_ & [(_ & F') | (_ & Hn)]); [congruence|].
      rewrite C3, C1 by (rewrite Hn; discriminate). reflexivity.
    + destruct K as (_ & [(_ & F') | (_ & [Hn | Hn])]); [congruence| |];
        rewrite C3 by (rewrite Hn; discriminate); exact C1.
    + destruct K as (_ & _ & Hn).
      rewrite C3 by (rewrite Hn; discriminate). exact C1.
    + destruct K as (_ & [(Hn & _) | (Hn & _)]);
        rewrite C3 by (rewrite Hn; discriminate); exact C1.
    + destruct K as (_ & F' & _). congruence.
  - injection H as <- <- <- <-. split; [exact R1|].
    destruct (Project_2A_Base.n_state st) eqn:Hs; try contradiction;
      (split; [intros; try discriminate | split; intros; try congruence]);
      auto.
    destruct K as (_ & [(-> & _) | (F' & _)]); [contradiction|].
    rewrite F' in F. discriminate.
Qed.

(** X6.  A write never calls [SPI_Release], whatever its outcome, and once it
    is past the parameter check it returns with the card still selected
    (chip select low).  Both builds; for the state-machine build, a whole
    operation started in S1. *)
Theorem SD_Write_keeps_bus tp cfg fuel dev dat sector :
  (forall h r dev' h',
     Project_2B.SD_Write tp cfg fuel dev dat sector h = Some ((r, dev'), h') ->
     released h' = released h /\
     (r <> SD_PARERR -> chip_selected h' = true)) /\
  (forall calls st h r dev' st' h',
     Project_2A_Base.n_state st = S1 ->
     Project_2A_Base.SD_Write_op tp cfg calls fuel dev dat sector st h =
       Some ((r, dev', st'), h') ->
     released h' = released h /\
     (r <> SD_PARERR -> chip_selected h' = true)).
Proof.
  split.
  - intros h r dev' h' H. eapply SD_Write_2B_bus. exact H.
  - intros calls st h r dev' st' h' Hs H.
    apply SD_Write_op_2A_bus in H as (R & _ & C & _). auto.
Qed.

Lemma SD_Write_keeps_bus_witness :
  exists dev' h',
    Project_2B.SD_Write card_reject_then_accept cfg0 600 dev0 buf512 5 [] =
      Some ((SD_ERROR, dev'), h') /\
    released h' = false /\ chip_selected h' = true.
Proof.
  destruct (Project_2B.SD_Write card_reject_then_accept cfg0 600 dev0 buf512 5 [])
    as [[[r dev'] h']|] eqn:E; [|vm_compute in E; discriminate].
  assert (Hr : r = SD_ERROR)
    by (vm_compute in E; injection E as <- _ _; reflexivity).
  subst r. exists dev', h'. split; [reflexivity|].
  destruct (SD_Write_keeps_bus card_reject_then_accept cfg0 600 dev0 buf512 5)
    as (H & _).
  destruct (H [] SD_ERROR dev' h' E) as (R & C).
  split; [exact R | apply C; discriminate].
Defined.

(** ** The dispatcher: error state and malformed requests *)

Lemma Task_SD_Server_not_error tp cfg fuel s h s' h' :
  next_state s <> S_ERROR ->
  Task_SD_Server tp cfg fuel s h = Some (s', h') ->
  next_state s' <> S_ERROR.
Proof.
  intros Hs. unfold Task_SD_Server.
  destruct (next_state s) eqn:Es; [| | | |contradiction].
  - destruct (negb (Request (g_trans s) =? REQ_NONE)%nat).
    + destruct (Request (g_trans s) <=? REQ_WRITE)%nat eqn:Er.
      * intros H. injection H as <- <-. cbn [next_state].
        apply Nat.leb_le in Er. unfold REQ_WRITE in Er.
        destruct (Request (g_trans s)) as [|[|[|[|n]]]]; cbn; try discriminate.
        lia.
      * intros H. injection H as <- <-. discriminate.
    + intros H. injection H as <- <-. rewrite Es. discriminate.
  - intros H. apply T_bind_Some in H as ([[r d] st] & h1 & _ & H).
    injection H as <- <-. cbn [next_state].
    destruct (_ =? 1); discriminate.
  - intros H. apply T_bind_Some in H as ([[[r d] b] st] & h1 & _ & H).
    injection H as <- <-. cbn [next_state].
    destruct (_ =? 1); discriminate.
  - intros H. apply T_bind_Some in H as ([[r d] st] & h1 & _ & H).
    injection H as <- <-. cbn [next_state].
    destruct (_ =? 1); discriminate.
Qed.

(** X7.  The dispatcher never enters its error state: from any other state,
    no number of activations leads to [S_ERROR], so the [while (1)] of that
    state is never reached.  A request code beyond [REQ_WRITE] found in the
    Idle state is answered in that same activation: the descriptor gets
    [SD_PARERR], idle status and a cleared request, the dispatcher stays
    Idle, and neither the transport nor the device, the buffer or a state
    machine is touched. *)
Theorem Task_SD_Server_no_error_state tp cfg fuel :
  (forall n s h s' h',
     next_state s <> S_ERROR ->
     Task_SD_Server_n tp cfg fuel n s h = Some (s', h') ->
     next_state s' <> S_ERROR) /\
  (forall s h,
     next_state s = S_IDLE -> (REQ_WRITE < Request (g_trans s))%nat ->
     Task_SD_Server tp cfg fuel s h =
       Some (mkServer S_IDLE (g_trans s) (res s)
               (mkTrans REQ_NONE (Device (g_trans s)) (Data (g_trans s))
                  (Sector (g_trans s)) STAT_IDLE SD_PARERR)
               (sd_dev s) (sd_buf s) (init_st s) (read_st s) (write_st s),
             h)).
Proof.
  split.
  - induction n as [|n IH]; intros s h s' h' Hs H.
    + injection H as <- <-. exact Hs.
    + cbn [Task_SD_Server_n] in H.
      apply T_bind_Some in H as (s1 & h1 & E & H).
      apply (IH s1 h1 s' h'); [|exact H].
      eapply Task_SD_Server_not_error; eassumption.
  - intros s h Hs Hr. unfold Task_SD_Server. rewrite Hs.
    replace (Request (g_trans s) =? REQ_NONE)%nat with false
      by (symmetry; apply Nat.eqb_neq; unfold REQ_NONE, REQ_WRITE in *; lia).
    replace (Request (g_trans s) <=? REQ_WRITE)%nat with false
      by (symmetry; apply Nat.leb_gt; exact Hr).
    reflexivity.
Qed.

Lemma Task_SD_Server_no_error_state_witness :
  exists s' h',
    Task_SD_Server_n card_read cfg0 600 600 server_read_request [] =
      Some (s', h') /\
    next_state s' <> S_ERROR /\
    Task_SD_Server card_read cfg0 600 (submit 7 5 server_boot) [] =
      Some (with_g_trans (mkTrans REQ_NONE 0 0 5 STAT_IDLE SD_PARERR)
              (mkServer S_IDLE (mkTrans 7 0 0 5 STAT_IDLE SD_OK) SD_OK
                 g_trans_boot dev0 buf512 Project_2A_Base.InitSt_boot
                 Project_2A_Base.ReadSt_boot Project_2A_Base.WriteSt_boot),
            []).
Proof.
  destruct (Task_SD_Server_no_error_state card_read cfg0 600) as (H1 & H2).
  destruct (Task_SD_Server_n card_read cfg0 600 600 server_read_request [])
    as [[s' h']|] eqn:E; [|vm_compute in E; discriminate].
  exists s', h'. split; [reflexivity|]. split.
  - apply (H1 600%nat server_read_request [] s' h'); [discriminate | exact E].
  - apply (H2 (submit 7 5 server_boot) []); [reflexivity|].
    unfold REQ_WRITE. cbn. lia.
Defined.

(** ** The dispatcher: the shared descriptor during an operation *)



(** ** Application commands *)

(** X9.  A command with the application flag (bit 7) is sent as two frames:
    first CMD55 with argument 0, then the command with the flag cleared.
    The response to CMD55 is the byte received by the last poll of its
    frame; when it is greater than 1 the command itself is not sent, nothing
    follows the CMD55 frame, and that response is returned in its place;
    otherwise the frame of the command follows and the value returned is the
    byte received by its last poll. *)
Theorem Send_Cmd_application tp fuel cmd arg h r h' :
  Z.land cmd 0x80 <> 0 ->
  __SD_Send_Cmd tp fuel cmd arg h = Some (r, h') ->
  exists f r55 h55 polls55 k55,
    fuel = S f /\
    (* the CMD55 frame; [r55] is the response to it *)
    __SD_Send_Cmd tp f CMD55 0 h = Some (r55, h55) /\
    h55 = EvTimerOff :: polls55 ++
          frame_sent tp [CMD55; 0; 0; 0; 0; 0x01] h /\
    forallb is_poll polls55 = true /\
    bytes_sent polls55 = repeat 0xFF (S k55) /\
    last_received polls55 = Some r55 /\
    ((* a response greater than 1: nothing more is sent *)
     (1 < r55 /\ r = r55 /\ h' = h55) \/
     (* otherwise: the frame of the command with the flag cleared *)
     (r55 <= 1 /\
      exists polls k,
        h' = EvTimerOff :: polls ++
             frame_sent tp
               [Z.land cmd 0x7F;
                BYTE (Z.shiftr arg 24); BYTE (Z.shiftr arg 16);
                BYTE (Z.shiftr arg 8); BYTE (Z.shiftr arg 0);
                if Z.land cmd 0x7F =? CMD8 then 0x87
                else if Z.land cmd 0x7F =? CMD0 then 0x95 else 0x01]
               h55 /\
        forallb is_poll polls = true /\
        bytes_sent polls = repeat 0xFF (S k) /\
        last_received polls = Some r)) /\
    (* the bytes on the wire *)
    exists e55,
      h55 = e55 ++ h /\
      bytes_sent e55 =
        [0xFF; 0xFF; CMD55; 0; 0; 0; 0; 0x01] ++ repeat 0xFF (S k55) /\
      (r55 <= 1 ->
       exists es k,
         h' = es ++ e55 ++ h /\
         bytes_sent es =
           [0xFF; 0xFF; Z.land cmd 0x7F;
            BYTE (Z.shiftr arg 24); BYTE (Z.shiftr arg 16);
            BYTE (Z.shiftr arg 8); BYTE (Z.shiftr arg 0);
            if Z.land cmd 0x7F =? CMD8 then 0x87
            else if Z.land cmd 0x7F =? CMD0 then 0x95 else 0x01]
           ++ repeat 0xFF (S k)).
Proof.
  intros Hc H. destruct fuel as [|[|f]]; [discriminate| |].
  - cbn [__SD_Send_Cmd] in H. apply Z.eqb_neq in Hc. rewrite Hc in H.
    discriminate.
  - cbn [__SD_Send_Cmd] in H. apply Z.eqb_neq in Hc. rewrite Hc in H.
    change (negb (Z.land CMD55 128 =? 0)) with false in H.
    cbn [negb] in H. cbv iota in H.
    apply T_bind_Some in H as (r55 & h55 & E & H).
    pose proof E as E55.
    apply Send_Cmd_frame_events in E as (polls55 & k55 & Eh & Hp & Hb & Hl).
    pose proof E55 as E55'.
    apply Send_Cmd_frame_shape in E55' as (e55 & k55' & Ee & B55 & _).
    change [CMD55; BYTE (Z.shiftr 0 24); BYTE (Z.shiftr 0 16);
            BYTE (Z.shiftr 0 8); BYTE (Z.shiftr 0 0);
            if CMD55 =? CMD8 then 135 else if CMD55 =? CMD0 then 149 else 1]
      with [CMD55; 0; 0; 0; 0; 1] in Eh.
    assert (Hk : k55' = k55).
    { destruct (frame_sent_events tp [CMD55; 0; 0; 0; 0; 1] h)
        as (ef & Ef & Bf).
      rewrite Eh, Ef, app_comm_cons, app_assoc in Ee.
      apply app_inv_tail in Ee. subst e55.
      change ((EvTimerOff :: polls55) ++ ef)
        with ([EvTimerOff] ++ polls55 ++ ef) in B55.
      rewrite !bytes_sent_app, Hb, Bf in B55.
      change (bytes_sent [EvTimerOff]) with (@nil Z) in B55.
      rewrite app_nil_r in B55. apply app_inv_head in B55.
      apply (f_equal length) in B55. rewrite !repeat_length in B55. lia. }
    subst k55'.
    exists (S f), r55, h55, polls55, k55.
    split; [reflexivity|]. split.
    { cbn [__SD_Send_Cmd].
      change (negb (Z.land CMD55 128 =? 0)) with false. exact E55. }
    split; [exact Eh|]. split; [exact Hp|]. split; [exact Hb|].
    split; [exact Hl|].
    destruct (Z.ltb_spec 1 r55) as [Hlt|Hge].
    + injection H as <- <-. split; [left; auto|].
      exists e55. split; [exact Ee|]. split; [exact B55|]. lia.
    + split.
      * right. split; [exact Hge|].
        apply Send_Cmd_frame_events in H as (polls & k & -> & Hp' & Hb' & Hl').
        exists polls, k. auto.
      * exists e55. split; [exact Ee|]. split; [exact B55|]. intros _.
        apply Send_Cmd_frame_shape in H as (es & k & -> & B & _).
        exists es, k. rewrite Ee. auto.
Qed.

Lemma Send_Cmd_application_witness :
  (exists polls55 h55,
     __SD_Send_Cmd card_rejects_commands 10 ACMD41 0 [] = Some (0x04, h55) /\
     h55 = EvTimerOff :: polls55 ++
           frame_sent card_rejects_commands [CMD55; 0; 0; 0; 0; 0x01] [] /\
     last_received polls55 = Some 0x04) /\
  (exists e55 k55,
     bytes_sent e55 =
       [0xFF; 0xFF; CMD55; 0; 0; 0; 0; 0x01] ++ repeat 0xFF (S k55)).
Proof.
  destruct (__SD_Send_Cmd card_rejects_commands 10 ACMD41 0 [])
    as [[r h']|] eqn:E; [|vm_compute in E; discriminate].
  destruct (Send_Cmd_application card_rejects_commands 10 ACMD41 0 [] r h')
    as (f & r55 & h55 & polls55 & k55 & Hf & E55 & Eh & _ & _ & Hl & Hcase &
        e55 & _ & B & _);
    [discriminate | exact E |].
  injection Hf as <-.
  assert (Hr55 : r55 = 4) by (vm_compute in E55; congruence).
  split.
  - destruct Hcase as [(_ & Hr & Hh) | (Hle & _)]; [|lia].
    exists polls55, h55. subst r55 r h'.
    split; [reflexivity|]. split; [exact Eh | exact Hl].
  - exists e55, k55. exact B.
Defined.

(** ** The capacity query *)

Lemma repeat_app_cons {A} (x : A) (l : list A) : forall k,
  repeat x k ++ x :: l = repeat x (S k) ++ l.
Proof.
  induction k as [|k IH]; [reflexivity|].
  cbn [repeat app] in *. rewrite IH. reflexivity.
Qed.

Lemma Sectors_wait_shape tp : forall fuel h u h',
  Sectors_wait tp fuel h = Some (u, h') ->
  exists k tok,
    tok <> 0xFF /\
    h' = EvRW 0xFF tok :: repeat (EvRW 0xFF 0xFF) k ++ h.
Proof.
  induction fuel as [|f IH]; intros h u h' H; [discriminate|].
  cbn [Sectors_wait] in H. revert H. step_RW.
  destruct (_ =? 255) eqn:Eb.
  - apply Z.eqb_eq in Eb. rewrite Eb. intros H.
    apply IH in H as (k & tok & Ht & ->).
    exists (S k), tok. split; [exact Ht|].
    rewrite repeat_app_cons. reflexivity.
  - apply Z.eqb_neq in Eb. intros H. injection H as <- <-.
    exists 0%nat, (BYTE (card_reply tp h 0xFF)). auto.
Qed.

Lemma SPI_RW_n_shape tp : forall n h bs h',
  SPI_RW_n tp n h = Some (bs, h') ->
  length bs = n /\ Forall (fun b => 0 <= b < 256) bs /\
  h' = rev (map (EvRW 0xFF) bs) ++ h.
Proof.
  induction n as [|n IH]; intros h bs h' H.
  - injection H as <- <-. auto.
  - apply SPI_RW_n_S in H as (bs1 & -> & H).
    apply IH in H as (Hl & Hb & ->).
    split; [cbn; congruence|]. split.
    + constructor; [apply Z.mod_pos_bound; lia | exact Hb].
    + cbn [map rev]. rewrite <- app_assoc. reflexivity.
Qed.

Lemma SD_Sectors_inv tp fuel dev h ss h' :
  __SD_Sectors tp fuel dev h = Some (ss, h') ->
  exists r h1,
    __SD_Send_Cmd tp fuel CMD9 0 h = Some (r, h1) /\
    ((r <> 0 /\ ss = 0 /\ h' = h1) \/
     (r = 0 /\
      exists k tok csd c1 c2,
        tok <> 0xFF /\ length csd = 16%nat /\
        Forall (fun b => 0 <= b < 256) csd /\
        ss = Sectors_decode (cardtype dev) csd /\
        h' = EvRelease :: EvRW 0xFF c2 :: EvRW 0xFF c1 ::
             rev (map (EvRW 0xFF) csd) ++
             EvRW 0xFF tok :: repeat (EvRW 0xFF 0xFF) k ++ h1)).
Proof.
  unfold __SD_Sectors. intros H.
  apply T_bind_Some in H as (r & h1 & E & H).
  exists r, h1. split; [exact E|].
  destruct (r =? 0) eqn:Er.
  - apply Z.eqb_eq in Er. right. split; [exact Er|].
    apply T_bind_Some in H as (u & h2 & E2 & H).
    apply Sectors_wait_shape in E2 as (k & tok & Ht & ->).
    apply T_bind_Some in H as (csd & h3 & E3 & H).
    apply SPI_RW_n_shape in E3 as (Hl & Hb & ->).
    revert H. do 2 step_RW. unfold SPI_Release.
    rewrite (T_bind_eq _ _ _ _ _ (eq_refl : emit _ _ = Some (tt, _))); cbv beta.
    intros H. injection H as <- <-.
    eexists k, tok, csd, _, _. repeat split; try assumption.
  - apply Z.eqb_neq in Er. injection H as <- <-. left. auto.
Qed.


(** X10.  [__SD_Sectors] sends CMD9.  If the card does not answer 0 it
    returns 0 and leaves the bus as it is.  Otherwise it skips the bytes that
    read 0xFF, takes the first other byte for the start of the data whatever
    its value, reads the sixteen bytes of the register and two more bytes it
    ignores, releases the bus and returns what it decodes from the
    register. *)
Theorem SD_Sectors_result tp fuel dev h ss h' :
  __SD_Sectors tp fuel dev h = Some (ss, h') ->
  exists r h1,
    __SD_Send_Cmd tp fuel CMD9 0 h = Some (r, h1) /\
    ((r <> 0 /\ ss = 0 /\ h' = h1) \/
     (r = 0 /\
      exists k tok csd c1 c2,
        tok <> 0xFF /\ length csd = 16%nat /\
        Forall (fun b => 0 <= b < 256) csd /\
        ss = Sectors_decode (cardtype dev) csd /\
        h' = EvRelease :: EvRW 0xFF c2 :: EvRW 0xFF c1 ::
             rev (map (EvRW 0xFF) csd) ++
             EvRW 0xFF tok :: repeat (EvRW 0xFF 0xFF) k ++ h1)).
Proof. apply SD_Sectors_inv. Qed.

Lemma SD_Sectors_result_witness :
  exists h', __SD_Sectors card_rejects_commands 10 dev0 [] = Some (0, h').
Proof.
  destruct (__SD_Sectors card_rejects_commands 10 dev0 [])
    as [[ss h']|] eqn:E; [|vm_compute in E; discriminate].
  destruct (SD_Sectors_result card_rejects_commands 10 dev0 [] ss h' E)
    as (r & h1 & E1 & [(_ & -> & _) | (-> & _)]).
  - exists h'. reflexivity.
  - vm_compute in E1. discriminate.
Defined.

(** ** The end of the initialisation *)

(** X11.  The end of [SD_Init] does not check the capacity query.  With a
    card type negotiated, if the card rejects CMD9 the initialisation still
    returns [SD_OK] and records 0xFFFFFFFF as [last_sector], so that the
    parameter check of a later read or write passes for every 32-bit sector
    number.  For a card of type MMC that accepts CMD9 the register is not
    decoded and [last_sector] is 3 whatever the card has sent. *)
Theorem Init_finish_capacity tp fuel ct dev h :
  ct <> 0 ->
  (forall r h1,
     __SD_Send_Cmd tp fuel CMD9 0 h = Some (r, h1) -> r <> 0 ->
     Init_finish tp fuel ct dev h =
       Some ((SD_OK, mkDev true ct 0xFFFFFFFF 0 0),
             EvRelease :: EvFreqHigh :: h1) /\
     forall sector, 0 <= sector < 2 ^ 32 ->
       (last_sector (mkDev true ct 0xFFFFFFFF 0 0) <? sector) = false) /\
  (forall res dev' h' h1,
     ct = SDCT_MMC ->
     __SD_Send_Cmd tp fuel CMD9 0 h = Some (0, h1) ->
     Init_finish tp fuel ct dev h = Some ((res, dev'), h') ->
     res = SD_OK /\ dev' = mkDev true SDCT_MMC 3 0 0).
Proof.
  intros Hct. split.
  - intros r h1 E Hr. split.
    + unfold Init_finish. apply Z.eqb_neq in Hct. rewrite Hct. cbn [negb].
      unfold __SD_Sectors. rewrite !T_bind_assoc.
      rewrite (T_bind_eq _ _ _ _ _ E); cbv beta.
      apply Z.eqb_neq in Hr. rewrite Hr. reflexivity.
    + intros sector Hs. apply Z.ltb_ge. cbn [last_sector]. lia.
  - intros res dev' h' h1 -> E H.
    apply Init_finish_result in H.
    destruct H as [(_ & -> & ss & h2 & Es & -> & _) | (Hc & _)];
      [|discriminate].
    split; [reflexivity|].
    apply SD_Sectors_inv in Es as (r & h1' & E' & Hs).
    rewrite E in E'. injection E' as <- <-.
    destruct Hs as [(Hr & _) | (_ & k & tok & csd & c1 & c2 & _ & _ & _ & -> & _)];
      [contradiction|].
    reflexivity.
Qed.

Lemma Init_finish_capacity_witness :
  exists h',
    Init_finish card_rejects_commands 10 SDCT_SD1 dev_unmounted [] =
      Some ((SD_OK, mkDev true SDCT_SD1 0xFFFFFFFF 0 0), h').
Proof.
  destruct (__SD_Send_Cmd card_rejects_commands 10 CMD9 0 [])
    as [[r h1]|] eqn:E; [|vm_compute in E; discriminate].
  assert (Hr : r <> 0)
    by (vm_compute in E; injection E as <- _; discriminate).
  destruct (Init_finish_capacity card_rejects_commands 10 SDCT_SD1
              dev_unmounted [] ltac:(discriminate)) as (H & _).
  destruct (H r h1 E Hr) as (H1 & _).
  eexists. exact H1.
Defined.

(** ** Completion of a read by the state-machine build *)

Ltac Read_fields :=
  cbn [Project_2A_Base.Read_byte_num Project_2A_Base.Read_pointer
       Project_2A_Base.Read_data Project_2A_Base.rn_state
       Project_2A_Base.read_status Project_2A_Base.Read_res
       Project_2A_Base.Read_tkn].

Lemma SD_Read_op_S6_2A tp cfg fuel dev dat sector ofs cnt calls st h :
  Project_2A_Base.rn_state st = S6 -> (1 <= calls)%nat ->
  exists st',
    Project_2A_Base.SD_Read_op tp cfg calls fuel dev dat sector ofs cnt st h =
      Some ((Project_2A_Base.Read_res st,
             set_debug_read (debug_incr cfg (debug_read dev)) dev, dat, st'),
            EvRelease :: h) /\
    Project_2A_Base.rn_state st' = S1 /\
    Project_2A_Base.read_status st' = 0.
Proof.
  intros Hs Hc. destruct st as [rs status res tkn data i p]; cbn in Hs; subst rs.
  destruct calls as [|c]; [lia|].
  cbn [Project_2A_Base.SD_Read_op Project_2A_Base.SD_Read
       Project_2A_Base.rn_state].
  eexists. split; [reflexivity|]. split; reflexivity.
Qed.

(** From S4 on the read completes, whatever the token. *)
Lemma SD_Read_op_S4_2A_total tp cfg fuel dev dat sector ofs cnt calls st h :
  Project_2A_Base.rn_state st = S4 -> (516 <= calls)%nat ->
  exists r dat' st' h',
    Project_2A_Base.SD_Read_op tp cfg calls fuel dev dat sector ofs cnt st h =
      Some ((r, set_debug_read (debug_incr cfg (debug_read dev)) dev, dat', st'),
            h') /\
    Project_2A_Base.rn_state st' = S1 /\
    Project_2A_Base.read_status st' = 0 /\
    ((Project_2A_Base.Read_tkn st = 0xFE /\ r = SD_OK) \/
     (Project_2A_Base.Read_tkn st <> 0xFE /\
      r = Project_2A_Base.Read_res st /\ dat' = dat /\ h' = EvRelease :: h)).
Proof.
  intros Hs Hc.
  destruct (Z.eq_dec (Project_2A_Base.Read_tkn st) 0xFE) as [Ht|Ht].
  - destruct (SPI_RW_n_total tp 514 h) as (block & h3 & E & _).
    destruct (SD_Read_op_S4_2A tp cfg fuel dev sector ofs cnt calls dat st h
                block h3 Hs Ht Hc E) as (st' & -> & H1 & H2).
    eexists _, _, st', _. split; [reflexivity|].
    split; [exact H1|]. split; [exact H2|]. left. split; [exact Ht|reflexivity].
  - destruct st as [rs status res tkn data i p]; cbn in Hs, Ht; subst rs.
    destruct calls as [|c]; [lia|].
    cbn [Project_2A_Base.SD_Read_op Project_2A_Base.SD_Read
         Project_2A_Base.rn_state Project_2A_Base.Read_tkn].
    apply Z.eqb_neq in Ht. rewrite Ht. rewrite T_bind_ret. Read_fields.
    cbn [Z.eqb Pos.eqb].
    match goal with |- context [Project_2A_Base.SD_Read_op _ _ _ _ _ _ _ _ _ ?s ?hh] =>
      destruct (SD_Read_op_S6_2A tp cfg fuel dev dat sector ofs cnt c s hh
                  eq_refl ltac:(lia)) as (st' & -> & H1 & H2)
    end.
    eexists _, _, st', _. split; [reflexivity|].
    apply Z.eqb_neq in Ht. Read_fields. auto 10.
Qed.

(** The wait for the token ends: with the token, or when the timer has
    counted down. *)
Lemma SD_Read_op_S3_2A_total tp cfg fuel dev dat sector ofs cnt N :
  timer_expires tp N ->
  forall k calls st h n,
    Project_2A_Base.rn_state st = S3 ->
    polls_since_on h = Some n -> (N <= k + n)%nat -> (k + 517 <= calls)%nat ->
    exists r dat' st' h',
      Project_2A_Base.SD_Read_op tp cfg calls fuel dev dat sector ofs cnt st h =
        Some ((r, set_debug_read (debug_incr cfg (debug_read dev)) dev, dat',
               st'), h') /\
      Project_2A_Base.rn_state st' = S1 /\
      Project_2A_Base.read_status st' = 0 /\
      (r = SD_OK \/ (r = Project_2A_Base.Read_res st /\ dat' = dat)).
Proof.
  intros Ht.
  assert (Hexit : forall calls st h,
    Project_2A_Base.rn_state st = S3 ->
    Project_2A_Base.Read_tkn st <> 0xFF \/ timer_running tp h = false ->
    (517 <= calls)%nat ->
    exists r dat' st' h',
      Project_2A_Base.SD_Read_op tp cfg calls fuel dev dat sector ofs cnt st h =
        Some ((r, set_debug_read (debug_incr cfg (debug_read dev)) dev, dat',
               st'), h') /\
      Project_2A_Base.rn_state st' = S1 /\
      Project_2A_Base.read_status st' = 0 /\
      (r = SD_OK \/ (r = Project_2A_Base.Read_res st /\ dat' = dat))).
  { intros calls st h Hs Hx Hc.
    destruct st as [rs status res tkn data i p]; cbn in Hs, Hx; subst rs.
    destruct calls as [|c]; [lia|].
    cbn [Project_2A_Base.SD_Read_op Project_2A_Base.SD_Read
         Project_2A_Base.rn_state Project_2A_Base.Read_tkn].
    unfold Project_2A_Base.and_then.
    assert (E : forall hh,
      (if tkn =? 255 then SPI_Timer_Status tp else ret false) h = Some (true, hh)
      -> False).
    { intros hh. destruct (tkn =? 255) eqn:Ek.
      - rewrite SPI_Timer_Status_eq. destruct Hx as [Hx|Hx].
        + apply Z.eqb_eq in Ek. contradiction.
        + rewrite Hx. discriminate.
      - discriminate. }
    rewrite T_bind_assoc.
    destruct ((if tkn =? 255 then SPI_Timer_Status tp else ret false) h)
      as [[[|] hh]|] eqn:Eq.
    - exfalso. eapply E. reflexivity.
    - rewrite (T_bind_eq _ _ _ _ _ Eq); cbv beta iota.
      unfold SPI_Timer_Off.
      rewrite T_bind_assoc.
      rewrite (T_bind_eq _ _ _ _ _ (eq_refl : emit _ _ = Some (tt, _)));
        cbv beta.
      rewrite T_bind_ret. Read_fields. cbn [Z.eqb Pos.eqb].
      match goal with |- context [Project_2A_Base.SD_Read_op _ _ _ _ _ _ _ _ _ ?s ?h0] =>
        destruct (SD_Read_op_S4_2A_total tp cfg fuel dev dat sector ofs cnt c s h0
                    eq_refl ltac:(lia))
          as (r & dat' & st' & h' & -> & H1 & H2 & H3)
      end.
      exists r, dat', st', h'. split; [reflexivity|].
      split; [exact H1|]. split; [exact H2|].
      destruct H3 as [(_ & ->) | (_ & -> & -> & _)]; auto.
    - exfalso. destruct (tkn =? 255); [|discriminate].
      rewrite SPI_Timer_Status_eq in Eq. discriminate. }
  induction k as [|k IH]; intros calls st h n Hs Hp Hn Hc.
  - apply Hexit; try assumption; try lia. right. apply (Ht h n Hp). lia.
  - destruct (timer_running tp h) eqn:Hrun;
      [|apply Hexit; try assumption; try lia; auto].
    destruct (Z.eq_dec (Project_2A_Base.Read_tkn st) 0xFF) as [Hk|Hk];
      [|apply Hexit; try assumption; try lia; auto].
    destruct st as [rs status res tkn data i p]; cbn in Hs, Hk; subst rs tkn.
    destruct calls as [|c]; [lia|].
    cbn [Project_2A_Base.SD_Read_op Project_2A_Base.SD_Read
         Project_2A_Base.rn_state Project_2A_Base.Read_tkn].
    change (255 =? 255) with true. unfold Project_2A_Base.and_then. cbv iota.
    rewrite !T_bind_assoc.
    rewrite (T_bind_eq _ _ _ _ _ (SPI_Timer_Status_eq _ _)); cbv beta.
    rewrite Hrun. cbv iota. step_RW. rewrite T_bind_ret.
    Read_fields. cbn [Z.eqb Pos.eqb].
    match goal with |- context [Project_2A_Base.SD_Read_op _ _ _ _ _ _ _ _ _ ?s ?h0] =>
      destruct (IH c s h0 (S n) eq_refl) as (r & dat' & st' & h' & -> & H1 & H2 & H3);
        [cbn [polls_since_on]; rewrite Hp; reflexivity | lia | lia |]
    end.
    exists r, dat', st', h'. split; [reflexivity|]. Read_fields. auto.
Qed.

Lemma SD_Read_op_2A_total tp cfg N fuel calls dev dat sector ofs cnt st h :
  timer_expires tp N -> (N + 2 < fuel)%nat -> (N + 520 <= calls)%nat ->
  Project_2A_Base.rn_state st = S1 ->
  exists r dev' dat' st' h',
    Project_2A_Base.SD_Read_op tp cfg calls fuel dev dat sector ofs cnt st h =
      Some ((r, dev', dat', st'), h') /\
    Project_2A_Base.rn_state st' = S1 /\
    Project_2A_Base.read_status st' = 0 /\
    (r = SD_PARERR \/ r = SD_ERROR \/ r = SD_OK) /\
    (r <> SD_OK -> dat' = dat).
Proof.
  intros Ht Hf Hc Hs.
  destruct st as [rs status res tkn data i p]; cbn in Hs; subst rs.
  destruct calls as [|c]; [lia|].
  cbn [Project_2A_Base.SD_Read_op Project_2A_Base.SD_Read
       Project_2A_Base.rn_state].
  destruct ((last_sector dev <? sector) || (cnt =? 0)).
  - rewrite T_bind_ret. Read_fields. cbn [Z.eqb].
    eexists _, _, _, _, _. split; [reflexivity|].
    split; [reflexivity|]. split; [reflexivity|]. auto.
  - rewrite T_bind_ret. Read_fields. cbn [Z.eqb Pos.eqb].
    destruct c as [|c]; [lia|].
    cbn [Project_2A_Base.SD_Read_op Project_2A_Base.SD_Read
         Project_2A_Base.rn_state].
    destruct (Send_Cmd_total tp N fuel CMD17 sector h Ht Hf) as (r0 & h1 & E).
    rewrite !T_bind_assoc. rewrite (T_bind_eq _ _ _ _ _ E); cbv beta.
    destruct (r0 =? 0).
    + unfold SPI_Timer_On. rewrite !T_bind_assoc.
      rewrite (T_bind_eq _ _ _ _ _ (eq_refl : emit _ _ = Some (tt, _)));
        cbv beta.
      step_RW. rewrite T_bind_ret. Read_fields. cbn [Z.eqb Pos.eqb].
      match goal with |- context [Project_2A_Base.SD_Read_op _ _ _ _ _ _ _ _ _ ?s ?h0] =>
        destruct (SD_Read_op_S3_2A_total tp cfg fuel dev dat sector ofs cnt N Ht
                    N c s h0 0%nat eq_refl eq_refl ltac:(lia) ltac:(lia))
          as (r & dat' & st' & h' & -> & H1 & H2 & H3)
      end.
      eexists r, _, dat', st', h'. split; [reflexivity|].
      split; [exact H1|]. split; [exact H2|].
      revert H3. Read_fields. intros [-> | (-> & ->)]; split; auto.
      intros; contradiction.
    + rewrite T_bind_ret. Read_fields. cbn [Z.eqb Pos.eqb].
      match goal with |- context [Project_2A_Base.SD_Read_op _ _ _ _ _ _ _ _ _ ?s ?h0] =>
        destruct (SD_Read_op_S6_2A tp cfg fuel dev dat sector ofs cnt c s h0
                    eq_refl ltac:(lia)) as (st' & -> & H1 & H2)
      end.
      eexists _, _, _, st', _. split; [reflexivity|].
      split; [exact H1|]. split; [exact H2|]. Read_fields. auto.
Qed.

(** X12.  State-machine build: with a timer that counts down within [N]
    queries, a read started in S1 completes within [N + 520] calls whatever
    the card does: it returns [SD_PARERR], [SD_ERROR] or [SD_OK], the machine
    is back in S1 with its flag at 0, and unless the result is [SD_OK] the
    destination buffer is as it was. *)
Theorem SD_Read_op_2A_completes tp cfg N fuel calls dev dat sector ofs cnt st h :
  timer_expires tp N -> (N + 2 < fuel)%nat -> (N + 520 <= calls)%nat ->
  Project_2A_Base.rn_state st = S1 ->
  exists r dev' dat' st' h',
    Project_2A_Base.SD_Read_op tp cfg calls fuel dev dat sector ofs cnt st h =
      Some ((r, dev', dat', st'), h') /\
    Project_2A_Base.rn_state st' = S1 /\
    Project_2A_Base.read_status st' = 0 /\
    (r = SD_PARERR \/ r = SD_ERROR \/ r = SD_OK) /\
    (r <> SD_OK -> dat' = dat).
Proof. exact (SD_Read_op_2A_total tp cfg N fuel calls dev dat sector ofs cnt st h). Qed.

Lemma SD_Read_op_2A_completes_witness :
  exists r dev' dat' st' h',
    Project_2A_Base.SD_Read_op card_silent cfg0 600 10 dev0 buf512 5 0 512
      Project_2A_Base.ReadSt_boot [] = Some ((r, dev', dat', st'), h').
Proof.
  destruct (SD_Read_op_2A_completes card_silent cfg0 3 10 600 dev0 buf512 5 0 512
              Project_2A_Base.ReadSt_boot []
              (countdown_expires _ _ _) ltac:(lia) ltac:(lia) eq_refl)
    as (r & dev' & dat' & st' & h' & E & _).
  exists r, dev', dat', st', h'. exact E.
Defined.

(** ** Completion of a write by the state-machine build *)

Ltac Write_fields :=
  cbn [Project_2A_Base.n_state Project_2A_Base.Write_idx
       Project_2A_Base.Write_line Project_2A_Base.idle_busy_status].

Lemma SD_Write_op_S6_2A tp cfg fuel dev dat sector calls st h :
  Project_2A_Base.n_state st = S6 -> (1 <= calls)%nat ->
  exists st',
    Project_2A_Base.SD_Write_op tp cfg calls fuel dev dat sector st h =
      Some ((if Project_2A_Base.Write_line st =? 0 then SD_BUSY else SD_OK,
             dev, st'), h) /\
    Project_2A_Base.n_state st' = S1 /\
    Project_2A_Base.idle_busy_status st' = 0.
Proof.
  intros Hs Hc. destruct st as [ns status idx line]; cbn in Hs; subst ns.
  destruct calls as [|c]; [lia|].
  cbn [Project_2A_Base.SD_Write_op Project_2A_Base.SD_Write
       Project_2A_Base.n_state Project_2A_Base.Write_line].
  destruct (line =? 0); rewrite T_bind_ret; Write_fields; cbn [Z.eqb];
    eexists; (split; [reflexivity|]); split; reflexivity.
Qed.

(** The wait for the end of programming ends: with a byte other than 0, or
    when the timer has counted down. *)
Lemma SD_Write_op_S5_2A_total tp cfg fuel dev dat sector N :
  timer_expires tp N ->
  forall k calls st h n,
    Project_2A_Base.n_state st = S5 ->
    polls_since_on h = Some n -> (N <= k + n)%nat -> (k + 2 <= calls)%nat ->
    exists r st' h',
      Project_2A_Base.SD_Write_op tp cfg calls fuel dev dat sector st h =
        Some ((r, set_debug_write (debug_incr cfg (debug_write dev)) dev, st'),
              h') /\
      Project_2A_Base.n_state st' = S1 /\
      Project_2A_Base.idle_busy_status st' = 0 /\
      (r = SD_BUSY \/ r = SD_OK).
Proof.
  intros Ht.
  assert (Hexit : forall calls st h,
    Project_2A_Base.n_state st = S5 ->
    Project_2A_Base.Write_line st <> 0 \/ timer_running tp h = false ->
    (2 <= calls)%nat ->
    exists r st' h',
      Project_2A_Base.SD_Write_op tp cfg calls fuel dev dat sector st h =
        Some ((r, set_debug_write (debug_incr cfg (debug_write dev)) dev, st'),
              h') /\
      Project_2A_Base.n_state st' = S1 /\
      Project_2A_Base.idle_busy_status st' = 0 /\
      (r = SD_BUSY \/ r = SD_OK)).
  { intros calls st h Hs Hx Hc.
    destruct st as [ns status idx line]; cbn in Hs, Hx; subst ns.
    destruct calls as [|c]; [lia|].
    cbn [Project_2A_Base.SD_Write_op Project_2A_Base.SD_Write
         Project_2A_Base.n_state Project_2A_Base.Write_line].
    unfold Project_2A_Base.and_then. rewrite T_bind_assoc.
    destruct ((if line =? 0 then SPI_Timer_Status tp else ret false) h)
      as [[[|] hh]|] eqn:Eq.
    - exfalso. destruct (line =? 0) eqn:El; [|discriminate].
      rewrite SPI_Timer_Status_eq in Eq. apply Z.eqb_eq in El.
      destruct Hx as [Hx|Hx]; [contradiction|]. rewrite Hx in Eq. discriminate.
    - rewrite (T_bind_eq _ _ _ _ _ Eq); cbv beta iota.
      unfold SPI_Timer_Off. rewrite T_bind_assoc.
      rewrite (T_bind_eq _ _ _ _ _ (eq_refl : emit _ _ = Some (tt, _)));
        cbv beta.
      rewrite T_bind_ret. Write_fields. cbn [Z.eqb Pos.eqb].
      match goal with |- context [Project_2A_Base.SD_Write_op _ _ _ _ ?d _ _ ?s ?h0] =>
        destruct (SD_Write_op_S6_2A tp cfg fuel d dat sector c s h0
                    eq_refl ltac:(lia)) as (st' & -> & H1 & H2)
      end.
      eexists _, st', _. split; [reflexivity|].
      split; [exact H1|]. split; [exact H2|].
      Write_fields. destruct (line =? 0); auto.
    - exfalso. destruct (line =? 0); [|discriminate].
      rewrite SPI_Timer_Status_eq in Eq. discriminate. }
  induction k as [|k IH]; intros calls st h n Hs Hp Hn Hc.
  - apply Hexit; try assumption; try lia. right. apply (Ht h n Hp). lia.
  - destruct (timer_running tp h) eqn:Hrun;
      [|apply Hexit; try assumption; try lia; auto].
    destruct (Z.eq_dec (Project_2A_Base.Write_line st) 0) as [Hk|Hk];
      [|apply Hexit; try assumption; try lia; auto].
    destruct st as [ns status idx line]; cbn in Hs, Hk; subst ns line.
    destruct calls as [|c]; [lia|].
    cbn [Project_2A_Base.SD_Write_op Project_2A_Base.SD_Write
         Project_2A_Base.n_state Project_2A_Base.Write_line].
    change (0 =? 0) with true. unfold Project_2A_Base.and_then. cbv iota.
    rewrite !T_bind_assoc.
    rewrite (T_bind_eq _ _ _ _ _ (SPI_Timer_Status_eq _ _)); cbv beta.
    rewrite Hrun. cbv iota. step_RW. rewrite T_bind_ret.
    Write_fields. cbn [Z.eqb Pos.eqb].
    match goal with |- context [Project_2A_Base.SD_Write_op _ _ _ _ _ _ _ ?s ?h0] =>
      destruct (IH c s h0 (S n) eq_refl) as (r & st' & h' & -> & H1 & H2 & H3);
        [cbn [polls_since_on]; rewrite Hp; reflexivity | lia | lia |]
    end.
    exists r, st', h'. split; [reflexivity|]. auto.
Qed.

Lemma SD_Write_op_2A_total tp cfg N fuel calls dev dat sector st h :
  timer_expires tp N -> (N + 2 < fuel)%nat -> (N + 520 <= calls)%nat ->
  Project_2A_Base.n_state st = S1 ->
  exists r dev' st' h',
    Project_2A_Base.SD_Write_op tp cfg calls fuel dev dat sector st h =
      Some ((r, dev', st'), h') /\
    Project_2A_Base.idle_busy_status st' = 0 /\
    (r = SD_PARERR \/ r = SD_ERROR \/ r = SD_REJECT \/ r = SD_BUSY \/
     r = SD_OK) /\
    (r <> SD_ERROR -> Project_2A_Base.n_state st' = S1) /\
    (r = SD_ERROR -> Project_2A_Base.n_state st' = S2).
Proof.
  intros Ht Hf Hc Hs.
  destruct st as [ns status idx line]; cbn in Hs; subst ns.
  destruct calls as [|c]; [lia|].
  cbn [Project_2A_Base.SD_Write_op Project_2A_Base.SD_Write
       Project_2A_Base.n_state].
  destruct (last_sector dev <? sector).
  - rewrite T_bind_ret. Write_fields. cbn [Z.eqb].
    eexists _, _, _, _. split; [reflexivity|].
    split; [reflexivity|]. split; [auto|]. split; [reflexivity|discriminate].
  - rewrite T_bind_ret. Write_fields. cbn [Z.eqb Pos.eqb].
    destruct c as [|c]; [lia|].
    cbn [Project_2A_Base.SD_Write_op Project_2A_Base.SD_Write
         Project_2A_Base.n_state].
    destruct (Send_Cmd_total tp N fuel CMD24 sector h Ht Hf) as (r0 & h1 & E).
    rewrite !T_bind_assoc. rewrite (T_bind_eq _ _ _ _ _ E); cbv beta.
    destruct (r0 =? 0).
    + step_RW. rewrite T_bind_ret. Write_fields. cbn [Z.eqb Pos.eqb].
      match goal with |- context [Project_2A_Base.SD_Write_op _ _ _ _ _ _ _ ?s ?h0] =>
        rewrite (SD_Write_op_S3_2A tp cfg fuel dev dat sector 512 c s h0
                   eq_refl ltac:(cbn; lia) ltac:(cbn; lia) ltac:(lia))
      end.
      cbv zeta. Write_fields.
      destruct (negb (Z.land _ 31 =? 5)).
      * eexists _, _, _, _. split; [reflexivity|].
        split; [reflexivity|]. split; [auto|]. split; [reflexivity|discriminate].
      * destruct (c - (512 + 1))%nat as [|c'] eqn:Ec; [lia|].
        cbn [Project_2A_Base.SD_Write_op Project_2A_Base.SD_Write
             Project_2A_Base.n_state].
        unfold SPI_Timer_On. rewrite !T_bind_assoc.
        rewrite (T_bind_eq _ _ _ _ _ (eq_refl : emit _ _ = Some (tt, _)));
          cbv beta.
        step_RW. rewrite T_bind_ret. Write_fields. cbn [Z.eqb Pos.eqb].
        match goal with |- context [Project_2A_Base.SD_Write_op _ _ _ _ _ _ _ ?s ?h0] =>
          destruct (SD_Write_op_S5_2A_total tp cfg fuel dev dat sector N Ht
                      N c' s h0 0%nat eq_refl eq_refl ltac:(lia) ltac:(lia))
            as (r & st' & h' & -> & H1 & H2 & H3)
        end.
        eexists r, _, st', h'. split; [reflexivity|].
        split; [exact H2|].
        split; [destruct H3 as [-> | ->]; auto|].
        split; [intros _; exact H1|].
        intros ->. destruct H3; discriminate.
    + rewrite T_bind_ret. Write_fields. cbn [Z.eqb].
      eexists _, _, _, _. split; [reflexivity|].
      split; [reflexivity|]. split; [auto|].
      split; [intros Hn; contradiction | reflexivity].
Qed.

(** X13.  State-machine build: with a timer that counts down within [N]
    queries, a write started in S1 completes within [N + 520] calls whatever
    the card does, a card that stays busy included (the result is then
    [SD_BUSY]).  The flag is at 0 and the machine is back in S1, except after
    [SD_ERROR] (command rejected), where it is left in S2. *)
Theorem SD_Write_op_2A_completes tp cfg N fuel calls dev dat sector st h :
  timer_expires tp N -> (N + 2 < fuel)%nat -> (N + 520 <= calls)%nat ->
  Project_2A_Base.n_state st = S1 ->
  exists r dev' st' h',
    Project_2A_Base.SD_Write_op tp cfg calls fuel dev dat sector st h =
      Some ((r, dev', st'), h') /\
    Project_2A_Base.idle_busy_status st' = 0 /\
    (r = SD_PARERR \/ r = SD_ERROR \/ r = SD_REJECT \/ r = SD_BUSY \/
     r = SD_OK) /\
    (r <> SD_ERROR -> Project_2A_Base.n_state st' = S1) /\
    (r = SD_ERROR -> Project_2A_Base.n_state st' = S2).
Proof. exact (SD_Write_op_2A_total tp cfg N fuel calls dev dat sector st h). Qed.

Lemma SD_Write_op_2A_completes_witness :
  exists r dev' st' h',
    Project_2A_Base.SD_Write_op card_busy cfg0 600 10 dev0 buf512 5
      Project_2A_Base.WriteSt_boot [] = Some ((r, dev', st'), h').
Proof.
  destruct (SD_Write_op_2A_completes card_busy cfg0 3 10 600 dev0 buf512 5
              Project_2A_Base.WriteSt_boot []
              (countdown_expires _ _ _) ltac:(lia) ltac:(lia) eq_refl)
    as (r & dev' & st' & h' & E & _).
  exists r, dev', st', h'. exact E.
Defined.

(** ** The card type kept by the state-machine build *)

Ltac Init_fields :=
  cbn [Project_2A_Base.in_states Project_2A_Base.in_status
       Project_2A_Base.Init_n Project_2A_Base.Init_k Project_2A_Base.Init_cmd
       Project_2A_Base.Init_ct Project_2A_Base.Init_ocr
       Project_2A_Base.Init_idx Project_2A_Base.Init_init_trys
       Project_2A_Base.Init_goto Project_2A_Base.set_init_trys].

Lemma SD_Init_S14_2A tp cfg fuel dev st h :
  Project_2A_Base.in_states st = S14 ->
  Project_2A_Base.SD_Init tp cfg fuel dev st h =
    match Init_finish tp fuel (Project_2A_Base.Init_ct st) dev h with
    | Some ((r, d), h') => Some ((r, d, Project_2A_Base.Init_goto S1 0 st), h')
    | None => None
    end.
Proof.
  intros Hs. unfold Project_2A_Base.SD_Init. rewrite Hs. unfold bind.
  destruct (Init_finish _ _ _ _ _) as [[[r d] h']|]; reflexivity.
Qed.

(** An initialisation completes in S14, with the value [Init_finish]
    returns there. *)
Lemma SD_Init_op_2A_inv tp cfg fuel : forall calls dev st h r dev' st' h',
  Project_2A_Base.SD_Init_op tp cfg calls fuel dev st h =
    Some ((r, dev', st'), h') ->
  exists st14 dev14 h14,
    Project_2A_Base.in_states st14 = S14 /\
    Init_finish tp fuel (Project_2A_Base.Init_ct st14) dev14 h14 =
      Some ((r, dev'), h') /\
    st' = Project_2A_Base.Init_goto S1 0 st14.
Proof.
  induction calls as [|c IH]; intros dev st h r dev' st' h' H; [discriminate|].
  cbn [Project_2A_Base.SD_Init_op] in H.
  apply T_bind_Some in H as ([[r1 dev1] st1] & h1 & E & H).
  pose proof (SD_Init_2A_call _ _ _ _ _ _ _ _ _ _ E)
    as [(_ & F & _) | (Hs & F & _)]; rewrite F in H; cbn [Z.eqb Pos.eqb] in H.
  - eapply IH. exact H.
  - injection H as <- <- <- <-.
    rewrite (SD_Init_S14_2A _ _ _ _ _ _ Hs) in E.
    destruct (Init_finish _ _ _ _ _) as [[[r d] h2]|] eqn:Ef; [|discriminate].
    injection E as <- <- <- <-.
    exists st, dev, h. auto.
Qed.

(** X14.  State-machine build: an initialisation that has returned [SD_OK]
    leaves the machine in S1 with the negotiated card type in its static
    [ct], which is also the type recorded in the descriptor.  Every later
    initialisation then consists of the end of [SD_Init] alone, run with that
    card type: the bus is not reset and no negotiation takes place, whatever
    card is in the slot and whatever descriptor is passed. *)
Theorem SD_Init_2A_once_initialised tp cfg fuel calls dev st h dev1 st1 h1 :
  Project_2A_Base.SD_Init_op tp cfg calls fuel dev st h =
    Some ((SD_OK, dev1, st1), h1) ->
  Project_2A_Base.in_states st1 = S1 /\
  Project_2A_Base.Init_ct st1 <> 0 /\
  cardtype dev1 = Project_2A_Base.Init_ct st1 /\
  mount dev1 = true /\
  forall tp2 calls2 dev2 h2,
    (2 <= calls2)%nat ->
    Project_2A_Base.SD_Init_op tp2 cfg calls2 fuel dev2 st1 h2 =
      match Init_finish tp2 fuel (cardtype dev1) dev2 h2 with
      | Some ((r, d), h') =>
          Some ((r, d, Project_2A_Base.set_init_trys 0 st1), h')
      | None => None
      end.
Proof.
  intros H.
  apply SD_Init_op_2A_inv in H as (st14 & dev14 & h14 & Hs & Ef & ->).
  apply Init_finish_result in Ef.
  destruct Ef as [(Hct & _ & ss & hs & _ & -> & _) | (_ & Hr & _)];
    [|discriminate].
  destruct st14 as [s status n k cmd ct ocr idx trys]; cbn in Hs, Hct; subst s.
  Init_fields. cbn [cardtype mount].
  split; [reflexivity|]. split; [exact Hct|]. split; [reflexivity|].
  split; [reflexivity|].
  intros tp2 calls2 dev2 h2 Hc. destruct calls2 as [|[|c]]; try lia.
  unfold Project_2A_Base.Init_goto, Project_2A_Base.set_init_trys.
  Init_fields.
  cbn [Project_2A_Base.SD_Init_op].
  unfold Project_2A_Base.SD_Init at 1. Init_fields.
  apply Z.eqb_neq in Hct. rewrite Hct, andb_false_r.
  rewrite T_bind_ret.
  unfold Project_2A_Base.Init_goto, Project_2A_Base.set_init_trys.
  Init_fields. cbn [Z.eqb Pos.eqb].
  unfold Project_2A_Base.SD_Init at 1. Init_fields.
  unfold bind.
  destruct (Init_finish _ _ _ _ _) as [[[r d] h']|]; reflexivity.
Qed.

Lemma SD_Init_2A_once_initialised_witness :
  exists dev1 st1 h1,
    Project_2A_Base.SD_Init_op card_v1_then_removed cfg0 100 100
      dev_unmounted Project_2A_Base.InitSt_boot [] =
      Some ((SD_OK, dev1, st1), h1) /\
    Project_2A_Base.Init_ct st1 <> 0.
Proof.
  destruct (Project_2A_Base.SD_Init_op card_v1_then_removed cfg0 100 100
              dev_unmounted Project_2A_Base.InitSt_boot [])
    as [[[[r dev1] st1] h1]|] eqn:E; [|vm_compute in E; discriminate].
  assert (Hr : r = SD_OK)
    by (vm_compute in E; injection E as <- _ _ _; reflexivity).
  subst r. exists dev1, st1, h1. split; [reflexivity|].
  apply (proj1 (proj2 (SD_Init_2A_once_initialised _ _ _ _ _ _ _ _ _ _ E))).
Defined.

(** ** The retry budget of the blocking build *)

Lemma attempts_cons e h :
  attempts (e :: h) =
    match e with EvInit => S (attempts h) | _ => attempts h end.
Proof. destruct e; reflexivity. Qed.

Lemma Send_Cmd_response_attempts tp : forall fuel h r h1,
  Send_Cmd_response tp fuel h = Some (r, h1) -> attempts h1 = attempts h.
Proof.
  induction fuel as [|f IH]; intros h r h1 H; [discriminate|].
  cbn [Send_Cmd_response] in H. revert H. step_RW.
  destruct (negb (Z.land _ 128 =? 0)).
  - rewrite (T_bind_eq _ _ _ _ _ (SPI_Timer_Status_eq _ _)); cbv beta.
    destruct (timer_running tp _).
    + intros H. apply IH in H. rewrite H. reflexivity.
    + intros H. injection H as <- <-. reflexivity.
  - intros H. injection H as <- <-. reflexivity.
Qed.

Lemma attempts_SPI_RW_out tp outs : forall h,
  attempts (SPI_RW_out tp outs h) = attempts h.
Proof.
  induction outs as [|o os IH]; intros h; cbn [SPI_RW_out]; [reflexivity|].
  rewrite IH. reflexivity.
Qed.

Lemma Send_Cmd_frame_attempts tp fuel cmd arg h r h1 :
  Send_Cmd_frame tp fuel cmd arg h = Some (r, h1) -> attempts h1 = attempts h.
Proof.
  rewrite Send_Cmd_frame_eq. intros H.
  apply T_bind_Some in H as (r1 & h2 & E & H).
  apply Send_Cmd_response_attempts in E.
  revert H. unfold SPI_Timer_Off.
  rewrite (T_bind_eq _ _ _ _ _ (eq_refl : emit _ _ = Some (tt, _))); cbv beta.
  intros H. injection H as <- <-.
  rewrite attempts_cons, E, attempts_cons, !attempts_SPI_RW_out.
  rewrite attempts_cons, attempts_SPI_RW_out. reflexivity.
Qed.

Lemma Send_Cmd_attempts tp : forall fuel cmd arg h r h1,
  __SD_Send_Cmd tp fuel cmd arg h = Some (r, h1) -> attempts h1 = attempts h.
Proof.
  induction fuel as [|f IH]; intros cmd arg h r h1 H; [discriminate|].
  cbn [__SD_Send_Cmd] in H.
  destruct (negb (Z.land cmd 128 =? 0)).
  - apply T_bind_Some in H as (r' & h' & E & H). apply IH in E.
    destruct (1 <? r').
    + injection H as <- <-. exact E.
    + apply Send_Cmd_frame_attempts in H. congruence.
  - apply Send_Cmd_frame_attempts in H. exact H.
Qed.

Lemma attempts_app h1 h2 : attempts (h1 ++ h2) = (attempts h1 + attempts h2)%nat.
Proof.
  induction h1 as [|e h1 IH]; [reflexivity|].
  cbn [app]. rewrite !attempts_cons, IH. destruct e; reflexivity.
Qed.

Lemma attempts_RW_list bs : attempts (rev (map (EvRW 0xFF) bs)) = 0%nat.
Proof.
  induction bs as [|b bs IH]; [reflexivity|].
  cbn [map rev]. rewrite attempts_app, IH. reflexivity.
Qed.

Lemma SPI_RW_n_attempts tp n h bs h' :
  SPI_RW_n tp n h = Some (bs, h') -> attempts h' = attempts h.
Proof.
  intros H. apply SPI_RW_n_shape in H as (_ & _ & ->).
  rewrite attempts_app, attempts_RW_list. reflexivity.
Qed.

Lemma Init_finish_attempts tp fuel ct dev h r dev' h' :
  Init_finish tp fuel ct dev h = Some ((r, dev'), h') ->
  attempts h' = attempts h.
Proof.
  intros H. apply Init_finish_result in H.
  destruct H as [(_ & _ & ss & h1 & E & _ & ->) | (_ & _ & _ & ->)];
    [|reflexivity].
  rewrite !attempts_cons.
  apply SD_Sectors_inv in E as (r0 & h0 & E0 & Hs).
  apply Send_Cmd_attempts in E0.
  destruct Hs as [(_ & _ & ->) | (_ & k & tok & csd & c1 & c2 & _ & _ & _ & _ & ->)];
    [exact E0|].
  rewrite !attempts_cons, attempts_app, attempts_RW_list, attempts_cons.
  rewrite attempts_app.
  replace (attempts (repeat (EvRW 255 255) k)) with 0%nat
    by (clear; induction k; [reflexivity | assumption]).
  exact E0.
Qed.

Lemma Init_idle_loop_attempts tp : forall fuel h u h',
  Project_2B.Init_idle_loop tp fuel h = Some (u, h') ->
  attempts h' = attempts h.
Proof.
  induction fuel as [|f IH]; intros h u h' H; [discriminate|].
  cbn [Project_2B.Init_idle_loop] in H.
  apply T_bind_Some in H as (r & h1 & E & H).
  apply Send_Cmd_attempts in E.
  destruct (negb (r =? 1)).
  - revert H.
    rewrite (T_bind_eq _ _ _ _ _ (SPI_Timer_Status_eq _ _)); cbv beta.
    destruct (timer_running tp h1).
    + intros H. apply IH in H. rewrite H, attempts_cons. exact E.
    + intros H. injection H as <- <-. rewrite attempts_cons. exact E.
  - injection H as <- <-. exact E.
Qed.

Lemma Init_leave_idle_loop_attempts tp cmd arg : forall fuel h u h',
  Project_2B.Init_leave_idle_loop tp fuel cmd arg h = Some (u, h') ->
  attempts h' = attempts h.
Proof.
  induction fuel as [|f IH]; intros h u h' H; [discriminate|].
  cbn [Project_2B.Init_leave_idle_loop] in H. revert H.
  rewrite (T_bind_eq _ _ _ _ _ (SPI_Timer_Status_eq _ _)); cbv beta.
  destruct (timer_running tp h).
  - intros H. apply T_bind_Some in H as (r & h1 & E & H).
    apply Send_Cmd_attempts in E. rewrite attempts_cons in E.
    destruct (negb (r =? 0)).
    + apply IH in H. congruence.
    + injection H as <- <-. exact E.
  - intros H. injection H as <- <-. reflexivity.
Qed.

Lemma Init_attempt_attempts tp fuel ct dev h ct' dev' h' :
  Project_2B.Init_attempt tp fuel ct dev h = Some ((ct', dev'), h') ->
  attempts h' = S (attempts h).
Proof.
  unfold Project_2B.Init_attempt, SPI_Init, SPI_CS_High, SPI_Freq_Low,
    SPI_Timer_On, SPI_Timer_Off.
  intros H.
  repeat match type of H with
  | bind (emit _) _ _ = Some _ =>
      rewrite (T_bind_eq _ _ _ _ _ (eq_refl : emit _ _ = Some (tt, _))) in H;
      cbv beta in H
  end.
  apply T_bind_Some in H as (bs & h1 & E1 & H).
  apply SPI_RW_n_attempts in E1. rewrite !attempts_cons in E1.
  repeat match type of H with
  | bind (emit _) _ _ = Some _ =>
      rewrite (T_bind_eq _ _ _ _ _ (eq_refl : emit _ _ = Some (tt, _))) in H;
      cbv beta in H
  end.
  apply T_bind_Some in H as (u & h2 & E2 & H).
  apply Init_idle_loop_attempts in E2. rewrite !attempts_cons in E2.
  rewrite (T_bind_eq _ _ _ _ _ (eq_refl : emit _ _ = Some (tt, _))) in H;
    cbv beta in H.
  assert (G : attempts h' = attempts (EvTimerOff :: h2));
    [|rewrite G, attempts_cons; congruence].
  revert H. generalize (EvTimerOff :: h2). clear. intros h0 H.
  repeat first
    [ progress cbv beta zeta in H
    | match type of H with
      | bind (__SD_Send_Cmd _ _ _ _) _ ?hh = Some _ =>
          let E := fresh "E" in
          apply T_bind_Some in H as (? & ? & E & H);
          apply Send_Cmd_attempts in E
      | bind (SPI_RW_n _ _) _ ?hh = Some _ =>
          let E := fresh "E" in
          apply T_bind_Some in H as (? & ? & E & H);
          apply SPI_RW_n_attempts in E
      | bind (Project_2B.Init_leave_idle_loop _ _ _ _) _ ?hh = Some _ =>
          let E := fresh "E" in
          apply T_bind_Some in H as (? & ? & E & H);
          apply Init_leave_idle_loop_attempts in E
      | bind (SPI_Timer_Status _) _ ?hh = Some _ =>
          rewrite (T_bind_eq _ _ _ _ _ (SPI_Timer_Status_eq _ _)) in H
      | bind (emit _) _ _ = Some _ =>
          rewrite (T_bind_eq _ _ _ _ _ (eq_refl : emit _ _ = Some (tt, _))) in H
      | context [if ?c then _ else _] => destruct c
      | context [let '(_, _) := ?p in _] => destruct p
      end ];
    injection H as <- <- <-; rewrite ?attempts_cons in *; congruence.
Qed.

Lemma Init_trys_loop_attempts tp cfg :
  0 <= SD_INIT_TRYS cfg <= 255 ->
  forall fuel i ct dev h ct' dev' h',
  0 <= i <= SD_INIT_TRYS cfg ->
  Project_2B.Init_trys_loop tp cfg fuel i ct dev h = Some ((ct', dev'), h') ->
  exists n : nat,
    (attempts h' = attempts h + n)%nat /\
    (Z.of_nat n <= SD_INIT_TRYS cfg - i) /\
    (ct <> 0 -> n = 0%nat /\ ct' = ct) /\
    (ct = 0 -> ct' = 0 -> Z.of_nat n = SD_INIT_TRYS cfg - i) /\
    (ct = 0 -> ct' <> 0 -> (1 <= n)%nat).
Proof.
  intros Ht. induction fuel as [|f IH]; intros i ct dev h ct' dev' h' Hi H;
    [discriminate|].
  cbn [Project_2B.Init_trys_loop] in H.
  destruct (Z.eqb_spec i (SD_INIT_TRYS cfg)) as [Ei|Ei]; cbn [negb andb] in H.
  - injection H as <- <- <-. exists 0%nat.
    split; [lia|]. split; [lia|]. split; [auto|]. split; [lia|].
    intros; contradiction.
  - destruct (Z.eqb_spec ct 0) as [Ec|Ec].
    + apply T_bind_Some in H as ([ct1 dev1] & h1 & E & H).
      apply Init_attempt_attempts in E.
      unfold BYTE in H. rewrite Z.mod_small in H by lia.
      apply IH in H as (n & Hn & Hle & H1 & H2 & H3); [|lia].
      exists (S n). split; [lia|]. split; [|split; [intros; contradiction|]].
      * destruct (Z.eq_dec ct1 0) as [E1|E1].
        -- destruct (Z.eq_dec ct' 0) as [E2|E2]; [specialize (H2 E1 E2); lia|].
           lia.
        -- destruct (H1 E1) as (-> & _). lia.
      * split; [|intros; lia].
        intros _ Hc'. destruct (Z.eq_dec ct1 0) as [E1|E1].
        -- specialize (H2 E1 Hc'). lia.
        -- destruct (H1 E1) as (_ & ->). contradiction.
    + injection H as <- <- <-. exists 0%nat.
      split; [lia|]. split; [lia|]. split; [auto|].
      split; intros; contradiction.
Qed.

(** X15.  Blocking build: with a retry budget [SD_INIT_TRYS] that fits the
    8-bit loop counter, [SD_Init] sets up the bus once per attempt to
    negotiate and never more often than the budget allows: exactly
    [SD_INIT_TRYS] times when it returns [SD_NOINIT], and at least once when
    it returns [SD_OK]. *)
Theorem SD_Init_2B_attempts tp cfg fuel dev h r dev' h' :
  0 <= SD_INIT_TRYS cfg <= 255 ->
  Project_2B.SD_Init tp cfg fuel dev h = Some ((r, dev'), h') ->
  (attempts h <= attempts h')%nat /\
  Z.of_nat (attempts h' - attempts h) <= SD_INIT_TRYS cfg /\
  (r = SD_NOINIT -> Z.of_nat (attempts h' - attempts h) = SD_INIT_TRYS cfg) /\
  (r = SD_OK -> (attempts h < attempts h')%nat).
Proof.
  intros Ht H. unfold Project_2B.SD_Init in H.
  apply T_bind_Some in H as ([ct dev1] & h1 & E & H).
  pose proof (Init_finish_attempts _ _ _ _ _ _ _ _ H) as F.
  apply Init_finish_result in H.
  apply (Init_trys_loop_attempts tp cfg Ht) in E as (n & Hn & Hle & _ & H2 & H3);
    [|lia].
  rewrite F, Hn. split; [lia|]. split; [lia|].
  destruct H as [(Hc & -> & _) | (Hc & -> & _)].
  - split; [intros ?; discriminate|]. intros _. specialize (H3 eq_refl Hc). lia.
  - split; [|intros ?; discriminate]. intros _. specialize (H2 eq_refl Hc). lia.
Qed.

Lemma SD_Init_2B_attempts_witness :
  exists dev' h',
    Project_2B.SD_Init card_not_idle cfg0 100 dev0 [] =
      Some ((SD_NOINIT, dev'), h') /\
    attempts h' = 3%nat.
Proof.
  destruct (Project_2B.SD_Init card_not_idle cfg0 100 dev0 [])
    as [[[r dev'] h']|] eqn:E; [|vm_compute in E; discriminate].
  assert (Hr : r = SD_NOINIT)
    by (vm_compute in E; injection E as <- _ _; reflexivity).
  subst r. exists dev', h'. split; [reflexivity|].
  pose proof (SD_Init_2B_attempts card_not_idle cfg0 100 dev0 [] _ _ _
                ltac:(cbn; lia) E) as (H1 & _ & H3 & _).
  specialize (H3 eq_refl). cbn [attempts SD_INIT_TRYS cfg0] in H1, H3. lia.
Defined.

(** ** The timer of the negotiation loops *)

(** A command returns with the timer stopped. *)
Lemma Send_Cmd_timer_off tp : forall fuel cmd arg h r h',
  __SD_Send_Cmd tp fuel cmd arg h = Some (r, h') ->
  exists tl, h' = EvTimerOff :: tl.
Proof.
  induction fuel as [|f IH]; intros cmd arg h r h' H; [discriminate|].
  cbn [__SD_Send_Cmd] in H.
  assert (F : forall c a h0 r0 h0',
    Send_Cmd_frame tp f c a h0 = Some (r0, h0') ->
    exists tl, h0' = EvTimerOff :: tl).
  { intros c a h0 r0 h0' E.
    apply Send_Cmd_frame_shape in E as (es & k & -> & _ & Hr).
    destruct Hr as [(_ & tl & ->) | (_ & tl & ->)]; eexists; reflexivity. }
  destruct (negb (Z.land cmd 128 =? 0)).
  - apply T_bind_Some in H as (r1 & h1 & E1 & H).
    destruct (1 <? r1).
    + injection H as <- <-. eapply IH. exact E1.
    + eapply F. exact H.
  - eapply F. exact H.
Qed.

Lemma Init_idle_loop_2B_blocks tp :
  (forall h, timer_running tp (EvTimerOff :: h) = true) -> dead_bus tp ->
  forall fuel h, Project_2B.Init_idle_loop tp fuel h = None.
Proof.
  intros Hr Hd. induction fuel as [|f IH]; intros h; [reflexivity|].
  cbn [Project_2B.Init_idle_loop].
  destruct (__SD_Send_Cmd tp (S f) CMD0 0 h) as [[r h1]|] eqn:E;
    [|apply T_bind_None; exact E].
  rewrite (T_bind_eq _ _ _ _ _ E); cbv beta.
  pose proof (Send_Cmd_dead tp Hd _ _ _ _ _ _ E) as ->.
  apply Send_Cmd_timer_off in E as (tl & ->).
  change (negb (255 =? 1)) with true. cbv iota.
  rewrite (T_bind_eq _ _ _ _ _ (SPI_Timer_Status_eq _ _)); cbv beta.
  rewrite Hr. apply IH.
Qed.

Lemma SD_Init_op_S4_2A_blocks tp cfg :
  (forall h, timer_running tp (EvTimerOff :: h) = true) -> dead_bus tp ->
  forall calls fuel dev st h,
    Project_2A_Base.in_states st = S4 ->
    Project_2A_Base.SD_Init_op tp cfg calls fuel dev st h = None.
Proof.
  intros Hr Hd. induction calls as [|c IH]; intros fuel dev st h Hs;
    [reflexivity|].
  cbn [Project_2A_Base.SD_Init_op]. unfold Project_2A_Base.SD_Init at 1.
  rewrite Hs. rewrite !T_bind_assoc.
  destruct (__SD_Send_Cmd tp fuel CMD0 0 h) as [[r h1]|] eqn:E;
    [|apply T_bind_None; exact E].
  rewrite (T_bind_eq _ _ _ _ _ E); cbv beta.
  pose proof (Send_Cmd_dead tp Hd _ _ _ _ _ _ E) as ->.
  apply Send_Cmd_timer_off in E as (tl & ->).
  change (negb (255 =? 1)) with true. unfold Project_2A_Base.and_then.
  cbv iota. rewrite !T_bind_assoc.
  rewrite (T_bind_eq _ _ _ _ _ (SPI_Timer_Status_eq _ _)); cbv beta.
  rewrite Hr. cbv iota. rewrite T_bind_ret.
  cbn [Project_2A_Base.in_status Project_2A_Base.Init_goto Z.eqb Pos.eqb].
  apply IH. reflexivity.
Qed.

(** X16.  The loops of the negotiation start the timer and then query it
    only after a command, and every command starts the same timer anew and
    returns with it stopped.  So the wait for the idle state has no time
    limit of its own: if a stopped timer reads as running and no card
    answers, the wait never ends, [SD_Init] of the blocking build never
    returns and the state machine of the other build never leaves S4; if a
    stopped timer reads as not running, the wait sends CMD0 once and gives
    up. *)
Theorem Init_idle_loop_timer tp cfg :
  (forall fuel cmd arg h r h',
     __SD_Send_Cmd tp fuel cmd arg h = Some (r, h') ->
     polls_since_on h' = None) /\
  ((forall h, timer_running tp (EvTimerOff :: h) = true) -> dead_bus tp ->
   (forall fuel h, Project_2B.Init_idle_loop tp fuel h = None) /\
   (SD_INIT_TRYS cfg <> 0 ->
    forall fuel dev h, Project_2B.SD_Init tp cfg fuel dev h = None) /\
   (forall calls fuel dev st h,
      Project_2A_Base.in_states st = S4 ->
      Project_2A_Base.SD_Init_op tp cfg calls fuel dev st h = None)) /\
  ((forall h, timer_running tp (EvTimerOff :: h) = false) ->
   forall fuel h u h',
     Project_2B.Init_idle_loop tp fuel h = Some (u, h') ->
     exists r h1,
       __SD_Send_Cmd tp fuel CMD0 0 h = Some (r, h1) /\
       ((r = 1 /\ h' = h1) \/ (r <> 1 /\ h' = EvTimerStatus false :: h1))).
Proof.
  split; [|split].
  - intros fuel cmd arg h r h' H.
    apply Send_Cmd_timer_off in H as (tl & ->). reflexivity.
  - intros Hr Hd. split; [apply Init_idle_loop_2B_blocks; assumption|].
    split; [|apply SD_Init_op_S4_2A_blocks; assumption].
    intros Ht fuel dev h. unfold Project_2B.SD_Init.
    apply T_bind_None. destruct fuel as [|f]; [reflexivity|].
    cbn [Project_2B.Init_trys_loop].
    apply Z.eqb_neq in Ht. rewrite Z.eqb_sym, Ht. cbn [negb andb Z.eqb].
    apply T_bind_None.
    unfold Project_2B.Init_attempt, SPI_Init, SPI_CS_High, SPI_Freq_Low,
      SPI_Timer_On.
    repeat (rewrite (T_bind_eq _ _ _ _ _ (eq_refl : emit _ _ = Some (tt, _)));
            cbv beta).
    match goal with |- bind (SPI_RW_n tp 10) _ ?hh = None =>
      destruct (SPI_RW_n_total tp 10 hh) as (bs & h1 & E & _)
    end.
    rewrite (T_bind_eq _ _ _ _ _ E); cbv beta.
    repeat (rewrite (T_bind_eq _ _ _ _ _ (eq_refl : emit _ _ = Some (tt, _)));
            cbv beta).
    apply T_bind_None. apply Init_idle_loop_2B_blocks; assumption.
  - intros Hr fuel h u h' H. destruct fuel as [|f]; [discriminate|].
    cbn [Project_2B.Init_idle_loop] in H.
    apply T_bind_Some in H as (r & h1 & E & H).
    exists r, h1. split; [exact E|].
    apply Send_Cmd_timer_off in E as (tl & ->).
    destruct (Z.eqb_spec r 1) as [Er|Er]; cbn [negb] in H.
    + injection H as <- <-. left. auto.
    + revert H.
      rewrite (T_bind_eq _ _ _ _ _ (SPI_Timer_Status_eq _ _)); cbv beta.
      rewrite Hr. intros H. injection H as <- <-. right. auto.
Qed.

Lemma Init_idle_loop_timer_witness :
  Project_2B.SD_Init card_absent cfg0 1000 dev_unmounted [] = None.
Proof.
  apply (proj1 (proj2 (Init_idle_loop_timer card_absent cfg0))).
  - reflexivity.
  - exact dead_bus_card_absent.
  - discriminate.
Defined.

(** ** The block on the wire *)

Lemma map_nth_seq (l : list Z) :
  map (fun i => nth i l 0) (seq 0 (length l)) = l.
Proof.
  induction l as [|a l IH]; [reflexivity|].
  cbn [length seq map nth]. f_equal.
  rewrite <- seq_shift, map_map. exact IH.
Qed.

Lemma source_bytes_full dat : length dat = 512%nat -> source_bytes dat = dat.
Proof.
  intros Hl. unfold source_bytes. rewrite <- Hl. apply map_nth_seq.
Qed.

Lemma Write_busy_loop_shape tp : forall fuel h line h',
  Project_2B.Write_busy_loop tp fuel h = Some (line, h') ->
  exists k,
    line <> 0 /\ h' = EvRW 0xFF line :: repeat (EvRW 0xFF 0) k ++ h.
Proof.
  induction fuel as [|f IH]; intros h line h' H; [discriminate|].
  cbn [Project_2B.Write_busy_loop] in H. revert H. step_RW.
  destruct (_ =? 0) eqn:Eb.
  - apply Z.eqb_eq in Eb. rewrite Eb. intros H.
    apply IH in H as (k & Hl & ->). exists (S k). split; [exact Hl|].
    rewrite repeat_app_cons. reflexivity.
  - apply Z.eqb_neq in Eb. intros H. injection H as <- <-.
    exists 0%nat. auto.
Qed.

(** X17.  Blocking build: a write whose command the card accepts puts the
    data-start token 0xFE, the 512 bytes of the buffer in order and two 0xFF
    in place of the CRC on the wire, and then reads the data-response token.
    It returns [SD_REJECT] at once unless the low five bits of that token are
    00101; otherwise it polls with 0xFF for as long as the card answers 0 and
    returns [SD_OK] on the first other byte. *)
Theorem SD_Write_2B_wire tp cfg fuel dev dat sector h r dev' h' :
  length dat = 512%nat ->
  Project_2B.SD_Write tp cfg fuel dev dat sector h = Some ((r, dev'), h') ->
  r = SD_OK \/ r = SD_REJECT ->
  exists h1 es resp,
    __SD_Send_Cmd tp fuel CMD24 sector h = Some (0, h1) /\
    bytes_sent es = [0xFE] ++ dat ++ [0xFF; 0xFF] /\
    ((r = SD_REJECT /\ Z.land resp 0x1F <> 0x05 /\
      h' = EvRW 0xFF resp :: es ++ h1) \/
     (r = SD_OK /\ Z.land resp 0x1F = 0x05 /\
      exists line k,
        line <> 0 /\
        h' = EvRW 0xFF line :: repeat (EvRW 0xFF 0) k ++
             EvRW 0xFF resp :: es ++ h1)).
Proof.
  intros Hl H Hr. unfold Project_2B.SD_Write in H.
  destruct (last_sector dev <? sector).
  { injection H as <- _ _. destruct Hr; discriminate. }
  apply T_bind_Some in H as (r0 & h1 & E0 & H).
  destruct (Z.eqb_spec r0 0) as [->|Hr0].
  2:{ injection H as <- _ _. destruct Hr; discriminate. }
  exists h1.
  revert H. step_RW. intros H.
  apply T_bind_Some in H as (u & h2 & E2 & H).
  destruct (Write_data_loop_2B tp dat 512 fuel 0
              (EvRW 254 (BYTE (card_reply tp h1 254)) :: h1) ltac:(lia) ltac:(lia))
    as [En|Es]; [rewrite En in E2; discriminate|].
  change (map (fun i => nth i dat 0) (seq (Z.to_nat 0) 512))
    with (source_bytes dat) in Es.
  rewrite (source_bytes_full dat Hl) in Es.
  rewrite Es in E2. injection E2 as _ <-.
  revert H. do 3 step_RW.
  destruct (SPI_RW_out_events tp dat
              (EvRW 254 (BYTE (card_reply tp h1 254)) :: h1)) as (ed & Ed & Bd).
  rewrite Ed.
  match goal with |- context [negb (Z.land ?x 31 =? 5)] => set (resp := x) end.
  match goal with |- context [EvRW 255 resp :: EvRW 255 ?c2 :: EvRW 255 ?c1 :: ed ++ ?e0 :: h1] =>
    exists (EvRW 255 c2 :: EvRW 255 c1 :: ed ++ [e0]), resp
  end.
  split; [exact E0|]. split.
  { rewrite !bytes_sent_RW, bytes_sent_app, Bd. cbn [bytes_sent omap rev app].
    rewrite <- !app_assoc. reflexivity. }
  revert H.
  destruct (Z.eqb_spec (Z.land resp 31) 5) as [E5|E5]; cbn [negb].
  - intros H. right.
    apply T_bind_Some in H as (line & h3 & E3 & H).
    apply Write_busy_loop_shape in E3 as (k & Hn & ->).
    apply Z.eqb_neq in Hn. rewrite Hn in H. injection H as <- <- <-.
    split; [reflexivity|]. split; [exact E5|].
    exists line, k. apply Z.eqb_neq in Hn. split; [exact Hn|].
    cbn [app]. rewrite <- app_assoc. reflexivity.
  - intros H. injection H as <- <- <-. left.
    split; [reflexivity|]. split; [exact E5|].
    cbn [app]. rewrite <- app_assoc. reflexivity.
Qed.

Lemma SD_Write_2B_wire_witness :
  exists es,
    bytes_sent es = [0xFE] ++ buf512 ++ [0xFF; 0xFF].
Proof.
  destruct (Project_2B.SD_Write card_crc_error cfg0 600 dev0 buf512 5 [])
    as [[[r dev'] h']|] eqn:E; [|vm_compute in E; discriminate].
  assert (Hr : r = SD_REJECT)
    by (vm_compute in E; injection E as <- _ _; reflexivity).
  destruct (SD_Write_2B_wire card_crc_error cfg0 600 dev0 buf512 5 [] r dev' h'
              eq_refl E (or_intror Hr)) as (h1 & es & resp & _ & B & _).
  exists es. exact B.
Defined.

(** ** A transaction from request to answer *)



(** ** The destination buffer of a read *)

Lemma store_bytes_drop bs : forall p dat,
  drop (p + length bs) (store_bytes p bs dat) = drop (p + length bs) dat.
Proof.
  induction bs as [|b bs IH]; intros p dat; cbn [store_bytes length].
  - reflexivity.
  - replace (p + S (length bs))%nat with (S p + length bs)%nat by lia.
    rewrite IH. apply drop_insert_lt. lia.
Qed.

Lemma drop_more {A} (l1 l2 : list A) n m :
  (n <= m)%nat -> drop n l1 = drop n l2 -> drop m l1 = drop m l2.
Proof.
  intros Hle H. replace m with (n + (m - n))%nat by lia.
  rewrite <- !drop_drop, H. reflexivity.
Qed.

(** X19.  Blocking build: a read stores nothing unless it returns [SD_OK]
    (parameter error, command rejected, or a first byte other than 0xFF that
    is not the data-start token 0xFE), and when it does return [SD_OK] it
    has stored at most [cnt] bytes, from the start of the buffer on: the
    bytes of the buffer from position [cnt] on are as they were. *)
Theorem SD_Read_2B_buffer tp cfg fuel dev dat sector ofs cnt h r dev' dat' h' :
  0 <= ofs -> 0 <= cnt -> (514 <= fuel)%nat ->
  Project_2B.SD_Read tp cfg fuel dev dat sector ofs cnt h =
    Some ((r, dev', dat'), h') ->
  (r = SD_PARERR \/ r = SD_ERROR \/ r = SD_OK) /\
  (r <> SD_OK -> dat' = dat) /\
  drop (Z.to_nat cnt) dat' = drop (Z.to_nat cnt) dat.
Proof.
  intros Ho Hc Hf H. unfold Project_2B.SD_Read in H.
  destruct ((last_sector dev <? sector) || (cnt =? 0)).
  { injection H as <- <- <- <-. auto. }
  apply T_bind_Some in H as (r0 & h0 & E0 & H).
  apply T_bind_Some in H as ([r1 d1] & h1 & E & H).
  revert H. unfold SPI_Release.
  rewrite (T_bind_eq _ _ _ _ _ (eq_refl : emit _ _ = Some (tt, _))); cbv beta.
  intros H. injection H as <- <- <- <-.
  destruct (r0 =? 0).
  2:{ injection E as <- <- <-. auto. }
  apply T_bind_Some in E as (tkn & h2 & E2 & E).
  revert E. unfold SPI_Timer_Off.
  rewrite (T_bind_eq _ _ _ _ _ (eq_refl : emit _ _ = Some (tt, _))); cbv beta.
  destruct (tkn =? 254).
  2:{ intros E. injection E as <- <- <-. auto. }
  intros E. apply T_bind_Some in E as ([d2 p2] & h3 & E3 & E).
  injection E as <- <- <-.
  destruct (SPI_RW_n_total tp 514 (EvTimerOff :: h2)) as (block & hb & Eb & Hl).
  rewrite (Read_data_loop_2B tp ofs cnt 513 fuel 0 dat 0%nat _ block hb
             ltac:(lia) ltac:(lia) ltac:(lia) Eb) in E3.
  injection E3 as <- _ _.
  split; [auto|]. split; [intros Hn; contradiction|].
  apply drop_more with (n := (0 + length (window 0 ofs cnt block))%nat).
  - pose proof (window_length ofs cnt block Ho Hc). lia.
  - apply store_bytes_drop.
Qed.

Lemma SD_Read_2B_buffer_witness :
  exists dev' h',
    Project_2B.SD_Read card_rejects_commands cfg0 600 dev0 buf512 5 0 512 [] =
      Some ((SD_ERROR, dev', buf512), h').
Proof.
  destruct (Project_2B.SD_Read card_rejects_commands cfg0 600 dev0 buf512 5 0 512 [])
    as [[[[r dev'] dat'] h']|] eqn:E; [|vm_compute in E; discriminate].
  assert (Hr : r = SD_ERROR)
    by (vm_compute in E; injection E as <- _ _ _; reflexivity).
  subst r.
  destruct (SD_Read_2B_buffer card_rejects_commands cfg0 600 dev0 buf512 5 0 512 []
              _ _ _ _ ltac:(lia) ltac:(lia) ltac:(lia) E) as (_ & Hd & _).
  rewrite (Hd ltac:(discriminate)). exists dev', h'. reflexivity.
Defined.

(** ** The outcome of the initialisation *)

Lemma Init_attempt_2B_ct tp fuel dev h ct' dev' h' :
  Project_2B.Init_attempt tp fuel 0 dev h = Some ((ct', dev'), h') ->
  ct' = 0 \/ ct' = SDCT_MMC \/ ct' = SDCT_SD1 \/ ct' = SDCT_SD2 \/
  ct' = Z.lor SDCT_SD2 SDCT_BLOCK.
Proof.
  unfold Project_2B.Init_attempt. intros H.
  T_inv H; T_done H; auto 10.
Qed.

Lemma Init_trys_loop_2B_ct tp cfg : forall fuel i ct dev h ct' dev' h',
  ct = 0 \/ ct = SDCT_MMC \/ ct = SDCT_SD1 \/ ct = SDCT_SD2 \/
  ct = Z.lor SDCT_SD2 SDCT_BLOCK ->
  Project_2B.Init_trys_loop tp cfg fuel i ct dev h = Some ((ct', dev'), h') ->
  ct' = 0 \/ ct' = SDCT_MMC \/ ct' = SDCT_SD1 \/ ct' = SDCT_SD2 \/
  ct' = Z.lor SDCT_SD2 SDCT_BLOCK.
Proof.
  induction fuel as [|f IH]; intros i ct dev h ct' dev' h' Hc H; [discriminate|].
  cbn [Project_2B.Init_trys_loop] in H.
  destruct (negb (i =? SD_INIT_TRYS cfg)); cbn [andb] in H.
  - destruct (Z.eqb_spec ct 0) as [->|Hn].
    + apply T_bind_Some in H as ([ct1 dev1] & h1 & E & H).
      apply Init_attempt_2B_ct in E. eapply IH; eassumption.
    + injection H as <- <- <-. exact Hc.
  - injection H as <- <- <-. exact Hc.
Qed.

(** X20.  Blocking build: [SD_Init] returns [SD_OK] or [SD_NOINIT].  After
    [SD_OK] the descriptor is mounted, its card type is one of MMC, SD
    version 1, SD version 2 and SD version 2 with block addressing, both
    counters are 0, and the last two calls were the switch to the high clock
    and the release of the bus.  After [SD_NOINIT] the bus has been
    released; with a retry budget other than 0 the descriptor is unmounted
    and otherwise as it was, and with a budget of 0 the descriptor is
    untouched and the release is the only call made. *)
Theorem SD_Init_2B_outcome tp cfg fuel dev h r dev' h' :
  Project_2B.SD_Init tp cfg fuel dev h = Some ((r, dev'), h') ->
  (r = SD_OK /\ mount dev' = true /\
   (cardtype dev' = SDCT_MMC \/ cardtype dev' = SDCT_SD1 \/
    cardtype dev' = SDCT_SD2 \/ cardtype dev' = Z.lor SDCT_SD2 SDCT_BLOCK) /\
   0 <= last_sector dev' < 2 ^ 32 /\
   debug_read dev' = 0 /\ debug_write dev' = 0 /\
   exists tl, h' = EvRelease :: EvFreqHigh :: tl) \/
  (r = SD_NOINIT /\
   (SD_INIT_TRYS cfg <> 0 -> dev' = set_mount false dev) /\
   (SD_INIT_TRYS cfg = 0 -> dev' = dev /\ h' = EvRelease :: h) /\
   exists tl, h' = EvRelease :: tl).
Proof.
  intros H. unfold Project_2B.SD_Init in H.
  apply T_bind_Some in H as ([ct dev1] & h1 & E & H).
  pose proof (Init_trys_loop_2B_ct tp cfg fuel 0 0 dev h ct dev1 h1
                (or_introl eq_refl) E) as Hct.
  apply Init_finish_result in H.
  destruct H as [(Hc & -> & ss & h2 & _ & -> & ->) | (Hc & -> & -> & ->)].
  - left. split; [reflexivity|].
    cbn [mount cardtype last_sector debug_read debug_write].
    split; [reflexivity|]. split; [tauto|].
    split; [apply Z.mod_pos_bound; lia|].
    split; [reflexivity|]. split; [reflexivity|]. eauto.
  - right. split; [reflexivity|]. split; [|split; [|eauto]].
    + intros Ht. apply Init_trys_loop_2B_dev in E as (_ & E). apply E; auto.
    + intros Ht. destruct fuel as [|f]; [discriminate|].
      cbn [Project_2B.Init_trys_loop] in E. rewrite Ht in E.
      cbn [Z.eqb negb andb] in E. injection E as _ <- <-. auto.
Qed.

Lemma SD_Init_2B_outcome_witness :
  exists dev' h',
    Project_2B.SD_Init card_v1_then_removed cfg0 100 dev_unmounted [] =
      Some ((SD_OK, dev'), h') /\
    mount dev' = true /\ cardtype dev' = SDCT_SD1.
Proof.
  destruct (Project_2B.SD_Init card_v1_then_removed cfg0 100 dev_unmounted [])
    as [[[r dev'] h']|] eqn:E; [|vm_compute in E; discriminate].
  assert (Hr : r = SD_OK /\ cardtype dev' = SDCT_SD1)
    by (vm_compute in E; injection E as <- <- _; split; reflexivity).
  destruct Hr as (-> & Hc).
  exists dev', h'. split; [reflexivity|].
  destruct (SD_Init_2B_outcome _ _ _ _ _ _ _ _ E)
    as [(_ & Hm & _) | (Hn & _)]; [|discriminate].
  split; [exact Hm | exact Hc].
Defined.

(** ** The timer after it has been stopped *)

Ltac emit_step H :=
  rewrite (T_bind_eq _ _ _ _ _ (eq_refl : emit _ _ = Some (tt, _))) in H;
  cbv beta in H.

Lemma Init_attempt_2B_stopped tp fuel dev h ct' dev' h' :
  (forall h, timer_running tp (EvTimerOff :: h) = false) ->
  Project_2B.Init_attempt tp fuel 0 dev h = Some ((ct', dev'), h') ->
  ct' = 0.
Proof.
  intros Hr. unfold Project_2B.Init_attempt, SPI_Init, SPI_CS_High,
    SPI_Freq_Low, SPI_Timer_On, SPI_Timer_Off.
  intros H. do 3 emit_step H.
  apply T_bind_Some in H as (bs & h1 & _ & H). do 2 emit_step H.
  apply T_bind_Some in H as (u & h2 & _ & H). emit_step H.
  apply T_bind_Some in H as (r1 & h3 & _ & H).
  destruct (r1 =? 1); [|injection H as <- _ _; reflexivity].
  apply T_bind_Some in H as (r2 & h4 & _ & H).
  destruct (r2 =? 1).
  - apply T_bind_Some in H as (ocr & h5 & _ & H).
    destruct (_ && _); [|injection H as <- _ _; reflexivity].
    emit_step H.
    apply T_bind_Some in H as (u6 & h6 & _ & H). emit_step H.
    rewrite (T_bind_eq _ _ _ _ _ (SPI_Timer_Status_eq _ _)) in H.
    cbv beta in H. rewrite Hr in H. injection H as <- _ _. reflexivity.
  - apply T_bind_Some in H as (r3 & h5 & _ & H).
    destruct (r3 <=? 1); cbv iota beta in H; emit_step H;
      apply T_bind_Some in H as (u6 & h6 & _ & H); emit_step H;
      rewrite (T_bind_eq _ _ _ _ _ (SPI_Timer_Status_eq _ _)) in H;
      cbv beta in H; rewrite Hr in H; cbn [negb] in H; cbv iota in H;
      apply T_bind_Some in H as (r7 & h7 & _ & H);
      apply T_bind_Some in H as (r8 & h8 & _ & H);
      destruct (negb (r7 =? 0)), (negb (r8 =? 0));
      injection H as <- _ _; reflexivity.
Qed.

Lemma Init_trys_loop_2B_stopped tp cfg :
  (forall h, timer_running tp (EvTimerOff :: h) = false) ->
  forall fuel i dev h ct' dev' h',
  Project_2B.Init_trys_loop tp cfg fuel i 0 dev h = Some ((ct', dev'), h') ->
  ct' = 0.
Proof.
  intros Hr. induction fuel as [|f IH]; intros i dev h ct' dev' h' H;
    [discriminate|].
  cbn [Project_2B.Init_trys_loop] in H.
  destruct (negb (i =? SD_INIT_TRYS cfg)); cbn [andb Z.eqb] in H.
  - apply T_bind_Some in H as ([ct1 dev1] & h1 & E & H).
    apply (Init_attempt_2B_stopped tp _ _ _ _ _ _ Hr) in E. subst ct1.
    eapply IH. exact H.
  - injection H as <- _ _. reflexivity.
Qed.

Lemma SD_Init_2A_call_stopped tp cfg fuel dev st h r dev' st' h' :
  (forall h, timer_running tp (EvTimerOff :: h) = false) ->
  Init_stopped_inv st h ->
  Project_2A_Base.SD_Init tp cfg fuel dev st h = Some ((r, dev', st'), h') ->
  (Project_2A_Base.in_status st' = 1 /\ Init_stopped_inv st' h') \/
  (Project_2A_Base.in_status st' = 0 /\ r = SD_NOINIT).
Proof.
  intros Hr. unfold Project_2A_Base.SD_Init, Project_2A_Base.and_then,
    Init_stopped_inv, SPI_Init, SPI_CS_High, SPI_Freq_Low, SPI_Timer_On,
    SPI_Timer_Off.
  destruct st as [s status n k cmd ct ocr idx trys].
  cbn [Project_2A_Base.in_states Project_2A_Base.in_status
       Project_2A_Base.Init_n Project_2A_Base.Init_k Project_2A_Base.Init_cmd
       Project_2A_Base.Init_ct Project_2A_Base.Init_ocr
       Project_2A_Base.Init_idx Project_2A_Base.Init_init_trys].
  destruct s; intros Hinv H; try contradiction.
  14: { right. subst ct.
        apply T_bind_Some in H as ([r1 d1] & h1 & E & H).
        injection H as <- <- <- <-.
        apply Init_finish_result in E.
        destruct E as [(Hc & _) | (_ & -> & _)]; [contradiction|]. auto. }
  all: left.
  all: try (destruct Hinv as (Hc & tl & ->)).
  all: try (destruct Hinv as (tl & ->)).
  all: try subst ct.
  all: repeat first
    [ emit_step H
    | rewrite T_bind_assoc in H
    | rewrite T_bind_ret in H
    | rewrite (T_bind_eq _ _ _ _ _ (SPI_RW_eq _ _ _)) in H; cbv beta in H
    | rewrite (T_bind_eq _ _ _ _ _ (SPI_Timer_Status_eq _ _)) in H;
      cbv beta in H
    | rewrite Hr in H
    | progress cbn [negb] in H
    | progress cbv iota beta zeta in H
    | match type of H with
      | bind (__SD_Send_Cmd _ _ _ _) _ _ = Some _ =>
          apply T_bind_Some in H as (? & ? & _ & H)
      | bind (SPI_RW_n _ _) _ _ = Some _ =>
          apply T_bind_Some in H as (? & ? & _ & H)
      | context [if ?c then _ else _] => destruct c
      end ].
  all: injection H as <- <- <- <-.
  all: cbn; eauto.
Qed.

Lemma SD_Init_op_2A_stopped tp cfg fuel :
  (forall h, timer_running tp (EvTimerOff :: h) = false) ->
  forall calls dev st h r dev' st' h',
  Init_stopped_inv st h ->
  Project_2A_Base.SD_Init_op tp cfg calls fuel dev st h =
    Some ((r, dev', st'), h') ->
  r = SD_NOINIT.
Proof.
  intros Hr. induction calls as [|c IH]; intros dev st h r dev' st' h' Hinv H;
    [discriminate|].
  cbn [Project_2A_Base.SD_Init_op] in H.
  apply T_bind_Some in H as ([[r1 dev1] st1] & h1 & E & H).
  apply (SD_Init_2A_call_stopped _ _ _ _ _ _ _ _ _ _ Hr Hinv) in E.
  destruct E as [(F & Hinv1) | (F & ->)]; rewrite F in H;
    cbn [Z.eqb Pos.eqb] in H.
  - eapply IH; eassumption.
  - injection H as <- _ _ _. reflexivity.
Qed.

(** X21.  [SD_Init] asks the timer whether it is still running right after
    having stopped it, and drops the card type it has negotiated when the
    answer is no.  So with a timer that reads as not running once it has
    been stopped, no initialisation succeeds: whatever the card answers,
    [SD_Init] of the blocking build returns [SD_NOINIT], and so does the
    state machine of the other build when started from reset or with no card
    type held. *)
Theorem SD_Init_stopped_timer tp cfg fuel :
  (forall h, timer_running tp (EvTimerOff :: h) = false) ->
  (forall dev h r dev' h',
     Project_2B.SD_Init tp cfg fuel dev h = Some ((r, dev'), h') ->
     r = SD_NOINIT) /\
  (forall calls dev st h r dev' st' h',
     Project_2A_Base.in_states st = S1 -> Project_2A_Base.Init_ct st = 0 ->
     Project_2A_Base.SD_Init_op tp cfg calls fuel dev st h =
       Some ((r, dev', st'), h') ->
     r = SD_NOINIT).
Proof.
  intros Hr. split.
  - intros dev h r dev' h' H. unfold Project_2B.SD_Init in H.
    apply T_bind_Some in H as ([ct dev1] & h1 & E & H).
    apply (Init_trys_loop_2B_stopped tp cfg Hr) in E. subst ct.
    apply Init_finish_result in H.
    destruct H as [(Hc & _) | (_ & -> & _)]; [contradiction | reflexivity].
  - intros calls dev st h r dev' st' h' Hs Hc H.
    eapply (SD_Init_op_2A_stopped tp cfg fuel Hr); [|exact H].
    unfold Init_stopped_inv. rewrite Hs. exact Hc.
Qed.

Lemma SD_Init_stopped_timer_witness :
  exists dev' h',
    Project_2B.SD_Init card_idle_timer_off cfg0 100 dev0 [] =
      Some ((SD_NOINIT, dev'), h').
Proof.
  destruct (Project_2B.SD_Init card_idle_timer_off cfg0 100 dev0 [])
    as [[[r dev'] h']|] eqn:E; [|vm_compute in E; discriminate].
  destruct (SD_Init_stopped_timer card_idle_timer_off cfg0 100
              ltac:(reflexivity)) as (H & _).
  rewrite (H dev0 [] r dev' h' E). exists dev', h'. reflexivity.
Defined.

(** ** The state machine of [SD_Init] after a failure *)

(** S14 is only entered from S1, with the retry counter cleared. *)
Lemma SD_Init_2A_call_S14 tp cfg fuel dev st h r dev' st' h' :
  Project_2A_Base.SD_Init tp cfg fuel dev st h = Some ((r, dev', st'), h') ->
  Project_2A_Base.in_states st' = S14 ->
  Project_2A_Base.Init_init_trys st' = 0.
Proof.
  unfold Project_2A_Base.SD_Init, Project_2A_Base.and_then.
  destruct st as [s status n k cmd ct ocr idx trys].
  cbn [Project_2A_Base.in_states Project_2A_Base.in_status
       Project_2A_Base.Init_n Project_2A_Base.Init_k Project_2A_Base.Init_cmd
       Project_2A_Base.Init_ct Project_2A_Base.Init_ocr
       Project_2A_Base.Init_idx Project_2A_Base.Init_init_trys].
  destruct s; intros H; T_inv H; T_done H; cbn; intros Hs;
    try discriminate; reflexivity.
Qed.

Lemma SD_Init_op_2A_reset tp cfg fuel : forall calls dev st h r dev' st' h',
  (Project_2A_Base.in_states st = S14 ->
   Project_2A_Base.Init_init_trys st = 0) ->
  Project_2A_Base.SD_Init_op tp cfg calls fuel dev st h =
    Some ((r, dev', st'), h') ->
  Project_2A_Base.in_states st' = S1 /\
  Project_2A_Base.Init_init_trys st' = 0 /\
  (r = SD_NOINIT -> Project_2A_Base.Init_ct st' = 0 /\ dev' = dev \/
                    Project_2A_Base.Init_ct st' = 0 /\ dev' = set_mount false dev).
Proof.
  induction calls as [|c IH]; intros dev st h r dev' st' h' J H; [discriminate|].
  cbn [Project_2A_Base.SD_Init_op] in H.
  apply T_bind_Some in H as ([[r1 dev1] st1] & h1 & E & H).
  pose proof (SD_Init_2A_call_S14 _ _ _ _ _ _ _ _ _ _ E) as J1.
  pose proof (SD_Init_2A_call _ _ _ _ _ _ _ _ _ _ E)
    as [(_ & F & Hd) | (Hs & F & Ef)]; rewrite F in H; cbn [Z.eqb Pos.eqb] in H.
  - apply (IH _ _ _ _ _ _ _ J1) in H as (H1 & H2 & H3).
    split; [exact H1|]. split; [exact H2|].
    intros Hr. destruct (H3 Hr) as [(Hc & ->) | (Hc & ->)];
      destruct Hd as [-> | ->]; auto.
  - injection H as <- <- <- <-.
    rewrite (SD_Init_S14_2A _ _ _ _ _ _ Hs), Ef in E.
    injection E as <-.
    destruct st as [s status n k cmd ct ocr idx trys].
    cbn in Hs, J |- *. split; [reflexivity|]. split; [auto|].
    intros ->. apply Init_finish_result in Ef.
    destruct Ef as [(_ & Hr & _) | (Hc & _ & -> & _)]; [discriminate|].
    left. auto.
Qed.

(** X22.  State-machine build: an initialisation that has returned
    [SD_NOINIT] (not started in S14) leaves the machine as it is at reset as
    far as the next initialisation is concerned: in S1, with no card type
    held and the retry counter at 0; the descriptor is as it was, except
    possibly for the mount flag, which is cleared.  With a retry budget other
    than 0, the first call of the next initialisation therefore sets up the
    bus again and starts a new negotiation. *)
Theorem SD_Init_2A_after_NOINIT tp cfg fuel calls dev st h dev' st' h' :
  Project_2A_Base.in_states st <> S14 ->
  Project_2A_Base.SD_Init_op tp cfg calls fuel dev st h =
    Some ((SD_NOINIT, dev', st'), h') ->
  Project_2A_Base.in_states st' = S1 /\
  Project_2A_Base.Init_ct st' = 0 /\
  Project_2A_Base.Init_init_trys st' = 0 /\
  (dev' = dev \/ dev' = set_mount false dev) /\
  (SD_INIT_TRYS cfg <> 0 ->
   forall tp2 dev2 h2,
   exists st2 h2',
     Project_2A_Base.SD_Init tp2 cfg fuel dev2 st' h2 =
       Some ((SD_OK, dev2, st2), h2') /\
     Project_2A_Base.in_states st2 = S2 /\
     Project_2A_Base.in_status st2 = 1 /\
     Project_2A_Base.Init_init_trys st2 = 1 /\
     attempts h2' = S (attempts h2)).
Proof.
  intros Hs H.
  apply SD_Init_op_2A_reset in H as (H1 & H2 & H3);
    [|intros Hs'; contradiction].
  destruct (H3 eq_refl) as [(Hc & Hd) | (Hc & Hd)];
    (split; [exact H1|]; split; [exact Hc|]; split; [exact H2|];
     split; [auto|]).
  all: intros Ht tp2 dev2 h2.
  all: destruct st' as [s status n k cmd ct ocr idx trys];
    cbn in H1, H2, Hc; subst s ct trys.
  all: unfold Project_2A_Base.SD_Init;
    cbn [Project_2A_Base.in_states Project_2A_Base.Init_init_trys
         Project_2A_Base.Init_ct].
  all: apply Z.eqb_neq in Ht; rewrite Z.eqb_sym, Ht; cbn [negb andb Z.eqb].
  all: unfold SPI_Init, SPI_CS_High, SPI_Freq_Low.
  all: repeat (rewrite (T_bind_eq _ _ _ _ _ (eq_refl : emit _ _ = Some (tt, _)));
               cbv beta).
  all: match goal with |- context [bind (SPI_RW_n ?t 10) _ ?hh] =>
         destruct (SPI_RW_n_total t 10 hh) as (bs & h3 & E & _);
         pose proof (SPI_RW_n_attempts _ _ _ _ _ E) as A
       end.
  all: rewrite (T_bind_eq _ _ _ _ _ E); cbv beta.
  all: eexists _, _; split; [reflexivity|].
  all: split; [reflexivity|]; split; [reflexivity|]; split; [reflexivity|].
  all: rewrite A; reflexivity.
Qed.

Lemma SD_Init_2A_after_NOINIT_witness :
  exists dev' st' h',
    Project_2A_Base.SD_Init_op card_idle_timer_off cfg0 200 100 dev0
      Project_2A_Base.InitSt_boot [] = Some ((SD_NOINIT, dev', st'), h') /\
    Project_2A_Base.Init_init_trys st' = 0.
Proof.
  destruct (Project_2A_Base.SD_Init_op card_idle_timer_off cfg0 200 100 dev0
              Project_2A_Base.InitSt_boot [])
    as [[[[r dev'] st'] h']|] eqn:E; [|vm_compute in E; discriminate].
  assert (Hr : r = SD_NOINIT)
    by (vm_compute in E; injection E as <- _ _ _; reflexivity).
  subst r. exists dev', st', h'. split; [reflexivity|].
  destruct (SD_Init_2A_after_NOINIT card_idle_timer_off cfg0 100 200 dev0
              Project_2A_Base.InitSt_boot [] dev' st' h'
              ltac:(discriminate) E) as (_ & _ & Ht & _).
  exact Ht.
Defined.

(** ** The retry budget of the state-machine build *)

(** One call of [SD_Init] outside S0 and S14: it moves to S14 (from S1, when
    the budget is used up or a card type is held), or starts an attempt
    (from S1: the bus is set up and the retry counter incremented), or
    neither sets up the bus nor touches the retry counter. *)
Lemma SD_Init_2A_call_attempts tp cfg fuel dev st h r dev' st' h' :
  Project_2A_Base.in_states st <> S0 ->
  Project_2A_Base.in_states st <> S14 ->
  Project_2A_Base.SD_Init tp cfg fuel dev st h = Some ((r, dev', st'), h') ->
  Project_2A_Base.in_states st' <> S0 /\
  ((Project_2A_Base.in_states st' = S14 /\ attempts h' = attempts h /\
    Project_2A_Base.Init_init_trys st' = 0 /\
    Project_2A_Base.Init_ct st' = Project_2A_Base.Init_ct st /\
    (Project_2A_Base.Init_init_trys st = SD_INIT_TRYS cfg \/
     Project_2A_Base.Init_ct st <> 0)) \/
   (Project_2A_Base.in_states st' <> S14 /\ attempts h' = S (attempts h) /\
    Project_2A_Base.Init_init_trys st <> SD_INIT_TRYS cfg /\
    Project_2A_Base.Init_init_trys st' =
      BYTE (Project_2A_Base.Init_init_trys st + 1)) \/
   (Project_2A_Base.in_states st' <> S14 /\ attempts h' = attempts h /\
    Project_2A_Base.Init_init_trys st' = Project_2A_Base.Init_init_trys st)).
Proof.
  unfold Project_2A_Base.SD_Init, Project_2A_Base.and_then,
    SPI_Init, SPI_CS_High, SPI_Freq_Low, SPI_Timer_On, SPI_Timer_Off.
  destruct st as [s status n k cmd ct ocr idx trys].
  cbn [Project_2A_Base.in_states Project_2A_Base.in_status
       Project_2A_Base.Init_n Project_2A_Base.Init_k Project_2A_Base.Init_cmd
       Project_2A_Base.Init_ct Project_2A_Base.Init_ocr
       Project_2A_Base.Init_idx Project_2A_Base.Init_init_trys].
  intros H0 H14 H. destruct s; try contradiction.
  1: { destruct (Z.eqb_spec trys (SD_INIT_TRYS cfg)) as [Et|Et];
         cbn [negb andb] in H.
       - injection H as <- <- <- <-. split; [discriminate|]. left. cbn.
         auto 10.
       - destruct (Z.eqb_spec ct 0) as [Ec|Ec].
         + do 3 emit_step H.
           apply T_bind_Some in H as (bs & h1 & E & H).
           apply SPI_RW_n_attempts in E. injection H as <- <- <- <-.
           split; [discriminate|]. right. left.
           split; [discriminate|]. rewrite E. cbn. auto.
         + injection H as <- <- <- <-. split; [discriminate|]. left.
           cbn. auto 10. }
  all: repeat first
    [ emit_step H
    | rewrite T_bind_assoc in H
    | rewrite T_bind_ret in H
    | rewrite (T_bind_eq _ _ _ _ _ (SPI_RW_eq _ _ _)) in H; cbv beta in H
    | rewrite (T_bind_eq _ _ _ _ _ (SPI_Timer_Status_eq _ _)) in H;
      cbv beta in H
    | progress cbv iota beta zeta in H
    | match type of H with
      | bind (__SD_Send_Cmd _ _ _ _) _ _ = Some _ =>
          let E := fresh "E" in
          apply T_bind_Some in H as (? & ? & E & H);
          apply Send_Cmd_attempts in E
      | context [if ?c then _ else _] => destruct c
      end ].
  all: injection H as <- <- <- <-.
  all: split; [discriminate|]; right; right.
  all: split; [discriminate|]; split; [|reflexivity].
  all: rewrite ?attempts_cons in *; congruence.
Qed.

Lemma SD_Init_op_2A_attempts tp cfg fuel :
  0 <= SD_INIT_TRYS cfg <= 255 ->
  forall calls dev st h r dev' st' h',
  Project_2A_Base.in_states st <> S0 ->
  0 <= Project_2A_Base.Init_init_trys st <= SD_INIT_TRYS cfg ->
  Project_2A_Base.SD_Init_op tp cfg calls fuel dev st h =
    Some ((r, dev', st'), h') ->
  exists n : nat,
    (attempts h' = attempts h + n)%nat /\
    (Project_2A_Base.in_states st = S14 ->
     n = 0%nat /\ (r = SD_NOINIT <-> Project_2A_Base.Init_ct st = 0)) /\
    (Project_2A_Base.in_states st <> S14 ->
     Z.of_nat n <= SD_INIT_TRYS cfg - Project_2A_Base.Init_init_trys st /\
     (r = SD_NOINIT ->
      Z.of_nat n = SD_INIT_TRYS cfg - Project_2A_Base.Init_init_trys st)).
Proof.
  intros Ht. induction calls as [|c IH]; intros dev st h r dev' st' h' H0 Hi H;
    [discriminate|].
  cbn [Project_2A_Base.SD_Init_op] in H.
  apply T_bind_Some in H as ([[r1 dev1] st1] & h1 & E & H).
  assert (Hdec : Project_2A_Base.in_states st = S14 \/
                 Project_2A_Base.in_states st <> S14)
    by (destruct (Project_2A_Base.in_states st);
        (left; reflexivity) || (right; discriminate)).
  destruct Hdec as [Hs|Hs].
  - rewrite (SD_Init_S14_2A _ _ _ _ _ _ Hs) in E.
    destruct (Init_finish _ _ _ _ _) as [[[r2 d2] h2]|] eqn:Ef; [|discriminate].
    injection E as <- <- <- <-.
    cbn [Project_2A_Base.in_status Project_2A_Base.Init_goto Z.eqb] in H.
    injection H as <- <- <- <-.
    pose proof (Init_finish_attempts _ _ _ _ _ _ _ _ Ef) as A.
    apply Init_finish_result in Ef.
    exists 0%nat. split; [lia|]. split; [|intros; contradiction].
    intros _. split; [reflexivity|].
    destruct Ef as [(Hc & -> & _) | (Hc & -> & _)]; split; intros; try tauto;
      discriminate.
  - pose proof (SD_Init_2A_call _ _ _ _ _ _ _ _ _ _ E)
      as [(_ & F & _) | (Hs' & _)]; [|contradiction].
    rewrite F in H. cbn [Z.eqb Pos.eqb] in H.
    apply (SD_Init_2A_call_attempts _ _ _ _ _ _ _ _ _ _ H0 Hs) in E.
    destruct E as (H0' & [(S14' & A & Hz & Hc & Hx) | [(N14 & A & Hn & Hi') | (N14 & A & Hi')]]).
    + apply IH in H as (n & Hn & H14 & _); [|exact H0' | lia].
      destruct (H14 S14') as (-> & Hr).
      exists 0%nat. split; [lia|]. split; [intros; contradiction|].
      intros _. split; [lia|]. intros Hr'. apply Hr in Hr'.
      rewrite Hc in Hr'. destruct Hx as [Hx|Hx]; [lia | contradiction].
    + unfold BYTE in Hi'. rewrite Z.mod_small in Hi' by lia.
      apply IH in H as (n & Hn' & _ & HN); [|exact H0' | lia].
      destruct (HN N14) as (Hle & Heq).
      exists (S n). split; [lia|]. split; [intros; contradiction|].
      intros _. split; [lia|]. intros Hr. specialize (Heq Hr). lia.
    + apply IH in H as (n & Hn' & _ & HN); [|exact H0' | lia].
      destruct (HN N14) as (Hle & Heq).
      exists n. split; [lia|]. split; [intros; contradiction|].
      intros _. split; [lia|]. intros Hr. specialize (Heq Hr). lia.
Qed.

(** X23.  State-machine build: with a retry budget [SD_INIT_TRYS] that fits
    the 8-bit counter, an initialisation started in S1 with the retry counter
    at 0 sets up the bus once per attempt to negotiate and never more often
    than the budget allows: exactly [SD_INIT_TRYS] times when it returns
    [SD_NOINIT]. *)
Theorem SD_Init_2A_attempts tp cfg fuel calls dev st h r dev' st' h' :
  0 <= SD_INIT_TRYS cfg <= 255 ->
  Project_2A_Base.in_states st = S1 ->
  Project_2A_Base.Init_init_trys st = 0 ->
  Project_2A_Base.SD_Init_op tp cfg calls fuel dev st h =
    Some ((r, dev', st'), h') ->
  (attempts h <= attempts h')%nat /\
  Z.of_nat (attempts h' - attempts h) <= SD_INIT_TRYS cfg /\
  (r = SD_NOINIT -> Z.of_nat (attempts h' - attempts h) = SD_INIT_TRYS cfg).
Proof.
  intros Ht Hs Hi H.
  apply (SD_Init_op_2A_attempts tp cfg fuel Ht) in H as (n & Hn & _ & HN);
    [|rewrite Hs; discriminate | lia].
  destruct HN as (Hle & Heq); [rewrite Hs; discriminate|].
  rewrite Hn. split; [lia|]. split; [lia|].
  intros Hr. specialize (Heq Hr). lia.
Qed.

Lemma SD_Init_2A_attempts_witness :
  exists dev' st' h',
    Project_2A_Base.SD_Init_op card_idle_timer_off cfg0 200 100 dev0
      Project_2A_Base.InitSt_boot [] = Some ((SD_NOINIT, dev', st'), h') /\
    attempts h' = 3%nat.
Proof.
  destruct (Project_2A_Base.SD_Init_op card_idle_timer_off cfg0 200 100 dev0
              Project_2A_Base.InitSt_boot [])
    as [[[[r dev'] st'] h']|] eqn:E; [|vm_compute in E; discriminate].
  assert (Hr : r = SD_NOINIT)
    by (vm_compute in E; injection E as <- _ _ _; reflexivity).
  subst r. exists dev', st', h'. split; [reflexivity|].
  destruct (SD_Init_2A_attempts card_idle_timer_off cfg0 100 200 dev0
              Project_2A_Base.InitSt_boot [] SD_NOINIT dev' st' h'
              ltac:(cbn; lia) eq_refl eq_refl E) as (H1 & _ & H3).
  specialize (H3 eq_refl). cbn [attempts SD_INIT_TRYS cfg0] in H1, H3. lia.
Defined.
